(** * compas_notebook: the notebook viewer and the scene-object plugin module

    A shallow embedding of [compas_notebook/viewer.py] (class [Viewer]) and of
    [compas_pythreejs/scene/__init__.py] (the plugin hooks), with the
    properties of their documented contract.

    Python objects live in a heap (a list of objects, a reference is an
    index); the attributes of the viewer are fields of the state; a method
    is a computation in a state-and-exception monad that keeps the state
    reached when an exception is raised. *)

From stdpp Require Import base numbers list strings pretty gmap.
From Stdlib Require Import QArith Qcanon.

Open Scope string_scope.
Open Scope Z_scope.
Open Scope list_scope.

(** ** Exceptions and outcomes *)

Inductive exn :=
| NotImplementedError
| AttributeError
| KeyError
| NameError
| ZeroDivisionError
| ValueError.

Inductive outcome (A : Type) :=
| Ok (a : A)
| Raise (e : exn).
Arguments Ok {A} a.
Arguments Raise {A} e.

(** ** Numbers

    Python numbers are modelled as exact rationals: the viewer only passes
    them through, divides by a literal and tests them for zero. *)

Definition num := Qc.
Definition of_int (z : Z) : num := Q2Qc (inject_Z z).
Definition lit (q : Q) : num := Q2Qc q.
Definition vec := list num.

(** Truth value testing of the values the viewer puts before [or]. *)
Definition num_truthy (x : num) : bool := bool_decide (x ≠ 0%Qc).
Definition vec_truthy (v : vec) : bool :=
  match v with [] => false | _ => true end.

(** [x or d] where [x] is a possibly-null number or vector. *)
Definition num_or (x : option num) (d : num) : num :=
  match x with
  | Some v => if num_truthy v then v else d
  | None => d
  end.
Definition vec_or (x : option vec) (d : vec) : vec :=
  match x with
  | Some v => if vec_truthy v then v else d
  | None => d
  end.

(** ** Configuration (the schema read by the viewer) *)

Module Config.
Record Camera := {
  position : option vec;
  up : option vec;
  near : option num;
  far : option num;
  fov : option num;
  target : option vec;
}.

Record View := {
  width : Z;
  height : Z;
  background : string;          (* config.view.background.hex *)
  show_grid : bool;
  show_axes : bool;
  viewport : string;
  camera : Camera;
}.

(** A sidebar item is a dict; the viewer reads four keys.  [None] is a
    missing key. *)
Record Item := {
  type : option string;
  action : option string;
  value : option bool;
  text : option string;
}.

Record Sidebar := {
  show : bool;
  items : list Item;
}.

Record UI := {
  show_toolbar : bool;
  show_statusbar : bool;
  sidebar : Sidebar;
}.

Record t := {
  view : View;
  ui : UI;
}.
End Config.

(** ** The external scene *)

Definition guid := nat.

Record SceneObject := { guids : list guid }.

Record Scene := {
  context : string;
  objects : list SceneObject;
}.

(** The controller is an injected object; what the viewer needs of it is
    which method names it has. *)
Record Controller := { methods : list string }.

(** ** Heap objects *)

Definition ref := nat.

(** A child of the 3D scene graph: a helper made by the viewer, or a
    renderable handle owned by a scene object. *)
Inductive child3 :=
| Own (r : ref)
| Ext (g : guid).

#[global] Instance child3_eq_dec : EqDecision child3.
Proof. solve_decision. Defined.

Definition Layout := list (string * string).

Fixpoint layout_set (k v : string) (l : Layout) : Layout :=
  match l with
  | [] => [(k, v)]
  | (k', v') :: l' =>
      if String.eqb k k' then (k, v) :: l' else (k', v') :: layout_set k v l'
  end.

Fixpoint layout_get (k : string) (l : Layout) : option string :=
  match l with
  | [] => None
  | (k', v') :: l' => if String.eqb k k' then Some v' else layout_get k l'
  end.

Inductive Color :=
| Color_grey
| Color_lightened (c : Color) (amount : Z).

(** Callbacks handed to the widget library.  [action_closure c] is the
    function [action] defined in the loop of [make_sidebar]: it closes over
    [self] and over the cell [c] of the loop variable [item]. *)
Inductive callback :=
| action_closure (item_cell : ref)
| lambda_load_scene
| lambda_save_scene
| lambda_zoom_in
| lambda_zoom_out.

Inductive obj :=
| VBox (layout : Layout) (children : list ref)
| HBox (layout : Layout) (children : list ref)
| GridBox (layout : Layout) (children : list ref)
| Box (layout : Layout) (children : list ref)
| Button (icon tooltip : string) (layout : Layout) (on_click : list callback)
| Checkbox (value : bool) (description : string) (layout : Layout)
    (observers : list callback)
| Text (value placeholder description : string) (disabled : bool)
    (layout : Layout) (style : Layout)
| Cell (contents : option Config.Item)
| Scene3 (background : string) (children : list child3)
| GridHelper (size divisions : Z) (colorCenterLine colorGrid : Color)
    (exec : list (string * num))
| AxesHelper (size : num)
| OrthographicCamera (left right top bottom near far : num)
    (position : vec) (zoom : num)
| PerspectiveCamera (position up : vec) (aspect near far fov : num)
    (exec : list (string * vec))
| OrbitControls (controlling : ref) (enableRotate : bool)
    (maxDistance minDistance : option num)   (* [None]: the library default *)
| Renderer (scene camera : ref) (controls : list ref) (width height : Z)
    (antialias : bool).

(** The notification the widget library passes to an observer of a trait. *)
Record change := {
  change_name : string;
  change_old : bool;
  change_new : bool;
  change_owner : ref;
  change_type : string;
}.

(** ** The state: the viewer's attributes and its world

    [toolbar], [main], [statusbar] and [statustext] are set to [None] by the
    constructor.  The other attributes do not exist until a method assigns
    them: for those, [None] is a missing attribute, and reading it raises
    [AttributeError]. *)

Record State := {
  config : Config.t;
  scene : Scene;
  controller : Controller;
  toolbar : option ref;
  main : option ref;
  statusbar : option ref;
  statustext : option ref;
  scene3 : option ref;
  grid3 : option ref;
  axes3 : option ref;
  camera3 : option ref;
  controls3 : option ref;
  renderer3 : option ref;
  ui : option ref;
  heap : list obj;
  displayed : list ref;                       (* calls of ipydisplay *)
  calls : list (string * option change);      (* controller methods called *)
}.

Definition with_scene (x : Scene) (s : State) : State :=
  {| config := config s; scene := x; controller := controller s;
     toolbar := toolbar s; main := main s; statusbar := statusbar s;
     statustext := statustext s; scene3 := scene3 s; grid3 := grid3 s;
     axes3 := axes3 s; camera3 := camera3 s; controls3 := controls3 s;
     renderer3 := renderer3 s; ui := ui s; heap := heap s;
     displayed := displayed s; calls := calls s |}.
Definition with_toolbar (x : option ref) (s : State) : State :=
  {| config := config s; scene := scene s; controller := controller s;
     toolbar := x; main := main s; statusbar := statusbar s;
     statustext := statustext s; scene3 := scene3 s; grid3 := grid3 s;
     axes3 := axes3 s; camera3 := camera3 s; controls3 := controls3 s;
     renderer3 := renderer3 s; ui := ui s; heap := heap s;
     displayed := displayed s; calls := calls s |}.
Definition with_main (x : option ref) (s : State) : State :=
  {| config := config s; scene := scene s; controller := controller s;
     toolbar := toolbar s; main := x; statusbar := statusbar s;
     statustext := statustext s; scene3 := scene3 s; grid3 := grid3 s;
     axes3 := axes3 s; camera3 := camera3 s; controls3 := controls3 s;
     renderer3 := renderer3 s; ui := ui s; heap := heap s;
     displayed := displayed s; calls := calls s |}.
Definition with_statusbar (x : option ref) (s : State) : State :=
  {| config := config s; scene := scene s; controller := controller s;
     toolbar := toolbar s; main := main s; statusbar := x;
     statustext := statustext s; scene3 := scene3 s; grid3 := grid3 s;
     axes3 := axes3 s; camera3 := camera3 s; controls3 := controls3 s;
     renderer3 := renderer3 s; ui := ui s; heap := heap s;
     displayed := displayed s; calls := calls s |}.
Definition with_statustext (x : option ref) (s : State) : State :=
  {| config := config s; scene := scene s; controller := controller s;
     toolbar := toolbar s; main := main s; statusbar := statusbar s;
     statustext := x; scene3 := scene3 s; grid3 := grid3 s;
     axes3 := axes3 s; camera3 := camera3 s; controls3 := controls3 s;
     renderer3 := renderer3 s; ui := ui s; heap := heap s;
     displayed := displayed s; calls := calls s |}.
Definition with_scene3 (x : option ref) (s : State) : State :=
  {| config := config s; scene := scene s; controller := controller s;
     toolbar := toolbar s; main := main s; statusbar := statusbar s;
     statustext := statustext s; scene3 := x; grid3 := grid3 s;
     axes3 := axes3 s; camera3 := camera3 s; controls3 := controls3 s;
     renderer3 := renderer3 s; ui := ui s; heap := heap s;
     displayed := displayed s; calls := calls s |}.
Definition with_grid3 (x : option ref) (s : State) : State :=
  {| config := config s; scene := scene s; controller := controller s;
     toolbar := toolbar s; main := main s; statusbar := statusbar s;
     statustext := statustext s; scene3 := scene3 s; grid3 := x;
     axes3 := axes3 s; camera3 := camera3 s; controls3 := controls3 s;
     renderer3 := renderer3 s; ui := ui s; heap := heap s;
     displayed := displayed s; calls := calls s |}.
Definition with_axes3 (x : option ref) (s : State) : State :=
  {| config := config s; scene := scene s; controller := controller s;
     toolbar := toolbar s; main := main s; statusbar := statusbar s;
     statustext := statustext s; scene3 := scene3 s; grid3 := grid3 s;
     axes3 := x; camera3 := camera3 s; controls3 := controls3 s;
     renderer3 := renderer3 s; ui := ui s; heap := heap s;
     displayed := displayed s; calls := calls s |}.
Definition with_camera3 (x : option ref) (s : State) : State :=
  {| config := config s; scene := scene s; controller := controller s;
     toolbar := toolbar s; main := main s; statusbar := statusbar s;
     statustext := statustext s; scene3 := scene3 s; grid3 := grid3 s;
     axes3 := axes3 s; camera3 := x; controls3 := controls3 s;
     renderer3 := renderer3 s; ui := ui s; heap := heap s;
     displayed := displayed s; calls := calls s |}.
Definition with_controls3 (x : option ref) (s : State) : State :=
  {| config := config s; scene := scene s; controller := controller s;
     toolbar := toolbar s; main := main s; statusbar := statusbar s;
     statustext := statustext s; scene3 := scene3 s; grid3 := grid3 s;
     axes3 := axes3 s; camera3 := camera3 s; controls3 := x;
     renderer3 := renderer3 s; ui := ui s; heap := heap s;
     displayed := displayed s; calls := calls s |}.
Definition with_renderer3 (x : option ref) (s : State) : State :=
  {| config := config s; scene := scene s; controller := controller s;
     toolbar := toolbar s; main := main s; statusbar := statusbar s;
     statustext := statustext s; scene3 := scene3 s; grid3 := grid3 s;
     axes3 := axes3 s; camera3 := camera3 s; controls3 := controls3 s;
     renderer3 := x; ui := ui s; heap := heap s;
     displayed := displayed s; calls := calls s |}.
Definition with_ui (x : option ref) (s : State) : State :=
  {| config := config s; scene := scene s; controller := controller s;
     toolbar := toolbar s; main := main s; statusbar := statusbar s;
     statustext := statustext s; scene3 := scene3 s; grid3 := grid3 s;
     axes3 := axes3 s; camera3 := camera3 s; controls3 := controls3 s;
     renderer3 := renderer3 s; ui := x; heap := heap s;
     displayed := displayed s; calls := calls s |}.
Definition with_heap (x : list obj) (s : State) : State :=
  {| config := config s; scene := scene s; controller := controller s;
     toolbar := toolbar s; main := main s; statusbar := statusbar s;
     statustext := statustext s; scene3 := scene3 s; grid3 := grid3 s;
     axes3 := axes3 s; camera3 := camera3 s; controls3 := controls3 s;
     renderer3 := renderer3 s; ui := ui s; heap := x;
     displayed := displayed s; calls := calls s |}.
Definition with_displayed (x : list ref) (s : State) : State :=
  {| config := config s; scene := scene s; controller := controller s;
     toolbar := toolbar s; main := main s; statusbar := statusbar s;
     statustext := statustext s; scene3 := scene3 s; grid3 := grid3 s;
     axes3 := axes3 s; camera3 := camera3 s; controls3 := controls3 s;
     renderer3 := renderer3 s; ui := ui s; heap := heap s;
     displayed := x; calls := calls s |}.
Definition with_calls (x : list (string * option change)) (s : State) : State :=
  {| config := config s; scene := scene s; controller := controller s;
     toolbar := toolbar s; main := main s; statusbar := statusbar s;
     statustext := statustext s; scene3 := scene3 s; grid3 := grid3 s;
     axes3 := axes3 s; camera3 := camera3 s; controls3 := controls3 s;
     renderer3 := renderer3 s; ui := ui s; heap := heap s;
     displayed := displayed s; calls := x |}.

(** ** The monad *)

Definition M (A : Type) : Type := State → outcome A * State.

#[global] Instance M_ret : MRet M := λ A a s, (Ok a, s).

#[global] Instance M_bind : MBind M := λ A B k m s,
  match m s with
  | (Ok a, s') => k a s'
  | (Raise e, s') => (Raise e, s')
  end.

Definition raise {A} (e : exn) : M A := λ s, (Raise e, s).

Definition gets {A} (f : State → A) : M A := λ s, (Ok (f s), s).

Definition modify (f : State → State) : M unit := λ s, (Ok tt, f s).

(** [if c: body] *)
Definition when (c : bool) (body : M unit) : M unit :=
  if c then body else mret tt.

(** [for x in l: body x] *)
Fixpoint for_each {A} (l : list A) (body : A → M unit) : M unit :=
  match l with
  | [] => mret tt
  | x :: l' => body x ;; for_each l' body
  end.

(** Reading an attribute that a method creates. *)
Definition getattr (f : State → option ref) : M ref :=
  λ s, match f s with
       | Some r => (Ok r, s)
       | None => (Raise AttributeError, s)
       end.

(** ** Heap operations *)

(** Constructing an object. *)
Definition new (o : obj) : M ref :=
  λ s, (Ok (length (heap s)), with_heap (heap s ++ [o]) s).

(** Following a reference.  A reference of a state reached from the
    constructor is always allocated. *)
Definition deref (r : ref) : M obj :=
  λ s, match heap s !! r with
       | Some o => (Ok o, s)
       | None => (Raise AttributeError, s)
       end.

Definition store (r : ref) (o : obj) : M unit :=
  modify (λ s, with_heap (<[r := o]> (heap s)) s).

(** Assigning an attribute of an object: [f] gives the updated object, or
    [None] when an object of that class has no such attribute. *)
Definition assign (r : ref) (f : obj → option obj) : M unit :=
  o ← deref r;
  match f o with
  | Some o' => store r o'
  | None => raise AttributeError
  end.

(** [for x in l: acc = body x acc], for a loop that updates a local. *)
Fixpoint for_fold {A B} (l : list A) (acc : B) (body : A → B → M B) : M B :=
  match l with
  | [] => mret acc
  | x :: l' => acc' ← body x acc; for_fold l' acc' body
  end.

(** ** The 3D widget library (pythreejs), as far as the viewer uses it *)

(** [o.children] *)
Definition Object3D_children (r : ref) : M (list child3) :=
  o ← deref r;
  match o with
  | Scene3 _ kids => mret kids
  | _ => raise AttributeError
  end.

(** [o.children = kids] *)
Definition Object3D_set_children (r : ref) (kids : list child3) : M unit :=
  assign r (λ o, match o with
                 | Scene3 bg _ => Some (Scene3 bg kids)
                 | _ => None
                 end).

(** [o.add(c)]: the child is appended to the tuple of children. *)
Definition Object3D_add (r : ref) (c : child3) : M unit :=
  assign r (λ o, match o with
                 | Scene3 bg kids => Some (Scene3 bg (kids ++ [c]))
                 | _ => None
                 end).

(** [list.remove(c)]: the list without the first occurrence of [c], or
    nothing when [c] does not occur. *)
Fixpoint remove_first (c : child3) (l : list child3) : option (list child3) :=
  match l with
  | [] => None
  | k :: l' =>
      if decide (k = c) then Some l' else (k ::.) <$> remove_first c l'
  end.

(** [o.remove(c)]: the first occurrence of the child is taken out of the
    children; removing something that is not a child is an error. *)
Definition Object3D_remove (r : ref) (c : child3) : M unit :=
  kids ← Object3D_children r;
  match remove_first c kids with
  | Some kids' => Object3D_set_children r kids'
  | None => raise ValueError
  end.

(** [o.rotateX(a)] and [o.lookAt(v)] are forwarded to the front end; the
    object keeps the list of forwarded calls. *)
Definition rotateX (r : ref) (a : num) : M unit :=
  assign r (λ o, match o with
                 | GridHelper s d c1 c2 ex =>
                     Some (GridHelper s d c1 c2 (ex ++ [("rotateX", a)]))
                 | _ => None
                 end).

Definition lookAt (r : ref) (v : vec) : M unit :=
  assign r (λ o, match o with
                 | PerspectiveCamera p u a n f fv ex =>
                     Some (PerspectiveCamera p u a n f fv (ex ++ [("lookAt", v)]))
                 | _ => None
                 end).

Definition set_position (r : ref) (v : vec) : M unit :=
  assign r (λ o, match o with
                 | OrthographicCamera l rt t b n f _ z =>
                     Some (OrthographicCamera l rt t b n f v z)
                 | PerspectiveCamera _ u a n f fv ex =>
                     Some (PerspectiveCamera v u a n f fv ex)
                 | _ => None
                 end).

Definition set_zoom (r : ref) (z : num) : M unit :=
  assign r (λ o, match o with
                 | OrthographicCamera l rt t b n f p _ =>
                     Some (OrthographicCamera l rt t b n f p z)
                 | _ => None
                 end).

Definition set_up (r : ref) (v : vec) : M unit :=
  assign r (λ o, match o with
                 | PerspectiveCamera p _ a n f fv ex =>
                     Some (PerspectiveCamera p v a n f fv ex)
                 | _ => None
                 end).

Definition set_aspect (r : ref) (x : num) : M unit :=
  assign r (λ o, match o with
                 | PerspectiveCamera p u _ n f fv ex =>
                     Some (PerspectiveCamera p u x n f fv ex)
                 | _ => None
                 end).

Definition set_near (r : ref) (x : num) : M unit :=
  assign r (λ o, match o with
                 | PerspectiveCamera p u a _ f fv ex =>
                     Some (PerspectiveCamera p u a x f fv ex)
                 | _ => None
                 end).

Definition set_far (r : ref) (x : num) : M unit :=
  assign r (λ o, match o with
                 | PerspectiveCamera p u a n _ fv ex =>
                     Some (PerspectiveCamera p u a n x fv ex)
                 | _ => None
                 end).

Definition set_fov (r : ref) (x : num) : M unit :=
  assign r (λ o, match o with
                 | PerspectiveCamera p u a n f _ ex =>
                     Some (PerspectiveCamera p u a n f x ex)
                 | _ => None
                 end).

Definition set_enableRotate (r : ref) (b : bool) : M unit :=
  assign r (λ o, match o with
                 | OrbitControls c _ mx mn => Some (OrbitControls c b mx mn)
                 | _ => None
                 end).

Definition set_maxDistance (r : ref) (x : num) : M unit :=
  assign r (λ o, match o with
                 | OrbitControls c e _ mn => Some (OrbitControls c e (Some x) mn)
                 | _ => None
                 end).

Definition set_minDistance (r : ref) (x : num) : M unit :=
  assign r (λ o, match o with
                 | OrbitControls c e mx _ => Some (OrbitControls c e mx (Some x))
                 | _ => None
                 end).

(** ** The UI widget library (ipywidgets), as far as the viewer uses it *)

(** [w.layout.k = v] *)
Definition set_layout (r : ref) (k v : string) : M unit :=
  assign r (λ o, match o with
                 | VBox l c => Some (VBox (layout_set k v l) c)
                 | HBox l c => Some (HBox (layout_set k v l) c)
                 | GridBox l c => Some (GridBox (layout_set k v l) c)
                 | Box l c => Some (Box (layout_set k v l) c)
                 | Button i t l cb => Some (Button i t (layout_set k v l) cb)
                 | Checkbox x d l cb => Some (Checkbox x d (layout_set k v l) cb)
                 | Text x p d dis l st => Some (Text x p d dis (layout_set k v l) st)
                 | _ => None
                 end).

(** [w.style.k = v] *)
Definition set_style (r : ref) (k v : string) : M unit :=
  assign r (λ o, match o with
                 | Text x p d dis l st => Some (Text x p d dis l (layout_set k v st))
                 | _ => None
                 end).

(** [w.children = cs] *)
Definition set_children (r : ref) (cs : list ref) : M unit :=
  assign r (λ o, match o with
                 | VBox l _ => Some (VBox l cs)
                 | HBox l _ => Some (HBox l cs)
                 | GridBox l _ => Some (GridBox l cs)
                 | Box l _ => Some (Box l cs)
                 | _ => None
                 end).

(** [w.value = text] on a text field *)
Definition set_value (r : ref) (text : string) : M unit :=
  assign r (λ o, match o with
                 | Text _ p d dis l st => Some (Text text p d dis l st)
                 | _ => None
                 end).

(** [button.on_click(cb)] *)
Definition on_click (r : ref) (cb : callback) : M unit :=
  assign r (λ o, match o with
                 | Button i t l cbs => Some (Button i t l (cbs ++ [cb]))
                 | _ => None
                 end).

(** [checkbox.observe(cb, names="value")] *)
Definition observe (r : ref) (cb : callback) : M unit :=
  assign r (λ o, match o with
                 | Checkbox x d l cbs => Some (Checkbox x d l (cbs ++ [cb]))
                 | _ => None
                 end).

(** [f"{h}px"] *)
Definition px (h : Z) : string := String.append (pretty h) "px".

(** ** class Viewer *)

(** [a / b] on integers *)
Definition truediv (a b : Z) : M num :=
  if bool_decide (b = 0) then raise ZeroDivisionError
  else mret (of_int a / of_int b)%Qc.

(** [item[key]] for the loop variable [item] of [make_sidebar], which lives
    in a cell because the nested function [action] refers to it. *)
Definition subscript {A} (cell : ref) (key : Config.Item → option A) : M A :=
  o ← deref cell;
  match o with
  | Cell (Some item) =>
      match key item with
      | Some v => mret v
      | None => raise KeyError
      end
  | Cell None => raise NameError
  | _ => raise AttributeError
  end.

(** [getattr(self.controller, name)(arg)] and [self.controller.name()]: the
    call is recorded; a controller without the method has no such
    attribute. *)
Definition call_controller (name : string) (arg : option change) : M unit :=
  c ← gets controller;
  if bool_decide (name ∈ methods c)
  then modify (λ s, with_calls (calls s ++ [(name, arg)]) s)
  else raise AttributeError.

(** Calling a callback.  [x] is the argument the widget library passes: the
    change notification for an observer, nothing of interest for a click
    handler. *)
Definition invoke (cb : callback) (x : option change) : M unit :=
  match cb with
  | action_closure cell =>
      name ← subscript cell Config.action;
      call_controller name x
  | lambda_load_scene => call_controller "load_scene" None
  | lambda_save_scene => call_controller "save_scene" None
  | lambda_zoom_in => call_controller "zoom_in" None
  | lambda_zoom_out => call_controller "zoom_out" None
  end.

(** What the widget library does when the value of a checkbox changes (the
    user ticks it, or the program assigns it): the observers of [value] are
    called with the change. *)
Definition Checkbox_change (r : ref) (v : bool) : M unit :=
  o ← deref r;
  match o with
  | Checkbox old d l obs =>
      if bool_decide (old = v) then mret tt
      else
        store r (Checkbox v d l obs);;
        for_each obs (λ cb,
          invoke cb (Some {| change_name := "value"; change_old := old;
                             change_new := v; change_owner := r;
                             change_type := "change" |}))
  | _ => raise AttributeError
  end.

(** How the widget library calls a click handler: an exception that the
    handler raises is caught and logged by the dispatcher, and does not
    reach the caller; what the handler did before it raised stays. *)
Definition dispatch (handler : M unit) : M unit :=
  λ s, match handler s with
       | (Ok _, s') => (Ok tt, s')
       | (Raise _, s') => (Ok tt, s')
       end.

(** What the widget library does when a button is clicked: the handlers
    are called in the order of their registration. *)
Definition Button_click (r : ref) : M unit :=
  o ← deref r;
  match o with
  | Button _ _ _ cbs => for_each cbs (λ cb, dispatch (invoke cb None))
  | _ => raise AttributeError
  end.

Section Viewer.

(** The external framework: [scene.draw()] leaves every scene object with
    its renderable handles; [Config.from_json] reads a configuration file;
    [Controller(viewer=self)] is the default controller. *)
Variable Scene_draw : Scene → Scene.
Variable Config_from_json : string → Config.t.
Variable Controller_default : Controller.

Definition default_configpath : string := "config.json".

Definition Viewer_init (config : option Config.t) (configpath : option string)
    (scene : option Scene) (controller : option Controller) : State :=
  let configpath :=
    match configpath with
    | Some p => if String.eqb p "" then default_configpath else p
    | None => default_configpath
    end in
  {| config := match config with
               | Some c => c
               | None => Config_from_json configpath
               end;
     scene := match scene with
              | Some s => s
              | None => {| context := "Notebook"; objects := [] |}
              end;
     controller := match controller with
                   | Some c => c
                   | None => Controller_default
                   end;
     toolbar := None;
     main := None;
     statusbar := None;
     statustext := None;
     scene3 := None; grid3 := None; axes3 := None; camera3 := None;
     controls3 := None; renderer3 := None; ui := None;
     heap := []; displayed := []; calls := [] |}.

(** *** WebGL *)

Definition init_webgl : M unit :=
  cfg ← gets config;
  let view := Config.view cfg in
  let width := Config.width view in
  let height := Config.height view in
  aspect ← truediv width height;

  s3 ← new (Scene3 (Config.background view) []);
  modify (with_scene3 (Some s3));;

  when (Config.show_grid view) (
    g ← new (GridHelper 20 20 Color_grey (Color_lightened Color_grey 50) []);
    modify (with_grid3 (Some g));;
    g ← getattr grid3;
    rotateX g (lit (314159 # 100000) / of_int 2)%Qc;;
    s ← getattr scene3;
    g ← getattr grid3;
    Object3D_add s (Own g));;

  when (Config.show_axes view) (
    a ← new (AxesHelper (lit (1 # 2)));
    modify (with_axes3 (Some a));;
    s ← getattr scene3;
    a ← getattr axes3;
    Object3D_add s (Own a));;

  (if String.eqb (Config.viewport view) "top" then
     cam ← new (OrthographicCamera
                  (of_int width / of_int (-2))%Qc (of_int width / of_int 2)%Qc
                  (of_int height / of_int 2)%Qc (of_int height / of_int (-2))%Qc
                  (lit (1 # 10)) (of_int 10000)
                  [of_int 0; of_int 0; of_int 0] (of_int 1));
     modify (with_camera3 (Some cam));;
     cam ← getattr camera3;
     set_position cam
       (vec_or (Config.position (Config.camera view))
               [of_int 0; of_int 0; of_int 1]);;
     cam ← getattr camera3;
     set_zoom cam (of_int 1);;

     cam ← getattr camera3;
     ctl ← new (OrbitControls cam true None None);
     modify (with_controls3 (Some ctl));;
     ctl ← getattr controls3;
     set_enableRotate ctl false;;
     ctl ← getattr controls3;
     set_maxDistance ctl (of_int 1000);;
     ctl ← getattr controls3;
     set_minDistance ctl (lit (1 # 10))

   else if String.eqb (Config.viewport view) "perspective" then
     cam ← new (PerspectiveCamera
                  [of_int 0; of_int 0; of_int 0] [of_int 0; of_int 1; of_int 0]
                  (of_int 1) (lit (1 # 10)) (of_int 2000) (of_int 50) []);
     modify (with_camera3 (Some cam));;
     cam ← getattr camera3;
     set_position cam
       (vec_or (Config.position (Config.camera view))
               [of_int 0; of_int (-10); of_int 5]);;
     cam ← getattr camera3;
     set_up cam
       (vec_or (Config.up (Config.camera view))
               [of_int 0; of_int 0; of_int 1]);;
     cam ← getattr camera3;
     set_aspect cam aspect;;
     cam ← getattr camera3;
     set_near cam (num_or (Config.near (Config.camera view)) (lit (1 # 10)));;
     cam ← getattr camera3;
     set_far cam (num_or (Config.far (Config.camera view)) (of_int 1000));;
     cam ← getattr camera3;
     set_fov cam (num_or (Config.fov (Config.camera view)) (of_int 50));;
     cam ← getattr camera3;
     lookAt cam
       (vec_or (Config.target (Config.camera view))
               [of_int 0; of_int 0; of_int 0]);;

     cam ← getattr camera3;
     ctl ← new (OrbitControls cam true None None);
     modify (with_controls3 (Some ctl));;
     ctl ← getattr controls3;
     set_maxDistance ctl (of_int 1000);;
     ctl ← getattr controls3;
     set_minDistance ctl (lit (1 # 10))

   else raise NotImplementedError);;

  s ← getattr scene3;
  cam ← getattr camera3;
  ctl ← getattr controls3;
  r ← new (Renderer s cam [ctl] width height true);
  modify (with_renderer3 (Some r)).

(** *** UI *)

Definition make_toolbar : M ref :=
  let buttons := [] in

  load_scene_button ←
    new (Button "folder-open" "Load scene"
           [("width", "48px"); ("height", "32px")] []);
  on_click load_scene_button lambda_load_scene;;
  let buttons := buttons ++ [load_scene_button] in

  save_scene_button ←
    new (Button "save" "Load scene"
           [("width", "48px"); ("height", "32px")] []);
  on_click save_scene_button lambda_save_scene;;
  let buttons := buttons ++ [save_scene_button] in

  zoom_in_button ←
    new (Button "search-plus" "Zoom in"
           [("width", "48px"); ("height", "32px")] []);
  on_click zoom_in_button lambda_zoom_in;;
  let buttons := buttons ++ [zoom_in_button] in

  zoom_out_button ←
    new (Button "search-minus" "Zoom out"
           [("width", "48px"); ("height", "32px")] []);
  on_click zoom_out_button lambda_zoom_out;;
  let buttons := buttons ++ [zoom_out_button] in

  toolbar ← new (HBox [] []);
  set_layout toolbar "display" "flex";;
  set_layout toolbar "flex_flow" "row";;
  set_layout toolbar "align_items" "center";;
  set_layout toolbar "width" "auto";;
  set_layout toolbar "height" "48px";;
  set_layout toolbar "padding" "0px 0px 0px 0px";;
  set_layout toolbar "margin" "0px 0px 16px 0px";;
  set_children toolbar buttons;;

  mret toolbar.

Definition make_statusbar : M ref :=
  statustext ← new (Text "" "..." "" true [] []);
  set_layout statustext "width" "100%";;
  set_layout statustext "height" "32px";;
  set_layout statustext "padding" "0px 0px 0px 0px";;
  set_layout statustext "margin" "0px 0px 0px 0px";;
  set_style statustext "background" "#eeeeee";;

  modify (with_statustext (Some statustext));;

  statusbar ← new (HBox [] []);
  set_layout statusbar "display" "flex";;
  set_layout statusbar "flex_flow" "row";;
  set_layout statusbar "align_items" "flex-start";;
  set_layout statusbar "width" "auto";;
  set_layout statusbar "height" "48px";;
  set_layout statusbar "padding" "0px 0px 0px 0px";;
  set_layout statusbar "margin" "0px 0px 0px 0px";;
  set_children statusbar [statustext];;

  mret statusbar.

Definition make_view3d : M ref :=
  cfg ← gets config;
  view3d ← new (Box [] []);
  set_layout view3d "width" "auto";;
  set_layout view3d "height" (px (Config.height (Config.view cfg) + 4));;
  r ← getattr renderer3;
  set_children view3d [r];;
  mret view3d.

Definition item_layout : Layout :=
  [("width", "100%"); ("margin", "0px"); ("padding", "0px");
   ("display", "block")].

Definition make_sidebar : M ref :=
  item ← new (Cell None);
  cfg ← gets config;
  let items := Config.items (Config.sidebar (Config.ui cfg)) in

  sidebar ← new (GridBox [] []);
  set_layout sidebar "width" "240px";;
  set_layout sidebar "grid_template_rows" "32px 1fr";;
  set_layout sidebar "height" (px (Config.height (Config.view cfg) + 4));;
  set_layout sidebar "align_content" "flex-start";;
  set_layout sidebar "align_items" "flex-start";;
  set_layout sidebar "justify_content" "flex-start";;
  set_layout sidebar "justify_items" "flex-start";;
  set_layout sidebar "overflow" "hidden";;
  set_layout sidebar "padding" "0px";;
  set_layout sidebar "margin" "0px";;

  children ← for_fold items [] (λ it children,
    store item (Cell (Some it));;
    ty ← subscript item Config.type;
    if String.eqb ty "checkbox" then
      let action := action_closure item in
      v ← subscript item Config.value;
      t ← subscript item Config.text;
      checkbox ← new (Checkbox v t item_layout []);
      observe checkbox action;;
      mret (children ++ [checkbox])
    else mret children);

  set_children sidebar children;;
  mret sidebar.

Definition make_main : M ref :=
  cfg ← gets config;
  let children := [] in

  children ←
    (if Config.show (Config.sidebar (Config.ui cfg)) then
       sidebar ← make_sidebar;
       mret (children ++ [sidebar])
     else mret children);

  view3d ← make_view3d;
  let children := children ++ [view3d] in

  main ← new (HBox [] []);
  set_layout main "width" "auto";;
  set_layout main "height" (px (Config.height (Config.view cfg) + 4));;
  set_children main children;;
  mret main.

Definition init_ui : M unit :=
  u ← new (VBox [] []);
  modify (with_ui (Some u));;
  u ← getattr ui;
  set_layout u "width" "auto";;
  let children := [] in

  cfg ← gets config;
  let height := Config.height (Config.view cfg) in

  '(children, height) ←
    (if Config.show_toolbar (Config.ui cfg) then
       t ← make_toolbar;
       modify (with_toolbar (Some t));;
       mret (children ++ [t], height + 64)
     else mret (children, height));

  m ← make_main;
  modify (with_main (Some m));;
  let children := children ++ [m] in

  '(children, height) ←
    (if Config.show_statusbar (Config.ui cfg) then
       sb ← make_statusbar;
       modify (with_statusbar (Some sb));;
       mret (children ++ [sb], height + 48)
     else mret (children, height));

  u ← getattr ui;
  set_layout u "height" (px (height + 4));;
  u ← getattr ui;
  set_children u children.

(** *** System methods *)

Definition show : M unit :=
  init_webgl;;
  init_ui;;

  modify (λ s, with_scene (Scene_draw (scene s)) s);;
  objs ← gets (λ s, objects (scene s));
  for_each objs (λ o,
    for_each (guids o) (λ o3,
      s3 ← getattr scene3;
      Object3D_add s3 (Ext o3)));;

  u ← getattr ui;
  modify (λ s, with_displayed (displayed s ++ [u]) s).

Definition update : M unit :=
  s3 ← getattr scene3;
  kids ← Object3D_children s3;
  for_each kids (λ child,
    s3 ← getattr scene3;
    Object3D_remove s3 child);;

  s3 ← getattr scene3;
  Object3D_set_children s3 [];;

  cfg ← gets config;
  when (Config.show_grid (Config.view cfg)) (
    s3 ← getattr scene3;
    g ← getattr grid3;
    Object3D_add s3 (Own g));;
  when (Config.show_axes (Config.view cfg)) (
    s3 ← getattr scene3;
    a ← getattr axes3;
    Object3D_add s3 (Own a));;

  modify (λ s, with_scene (Scene_draw (scene s)) s);;

  objs ← gets (λ s, objects (scene s));
  for_each objs (λ o,
    for_each (guids o) (λ o3,
      s3 ← getattr scene3;
      Object3D_add s3 (Ext o3))).

(** *** Actions *)

Definition set_statustext (text : string) : M unit :=
  st ← gets statustext;
  match st with
  | Some r => set_value r text
  | None => mret tt
  end.

End Viewer.

(** ** Auxiliary definitions for the statements *)

(** The scene graph of a state: the children of the object [scene3]. *)
Definition scene3_children (st : State) : option (list child3) :=
  r ← scene3 st;
  o ← heap st !! r;
  match o with
  | Scene3 _ kids => Some kids
  | _ => None
  end.

(** [st] with the children of its scene graph [r] replaced. *)
Definition put_children (r : ref) (bg : string) (kids : list child3)
    (st : State) : State :=
  with_heap (<[r := Scene3 bg kids]> (heap st)) st.

(** The helpers that the configuration asks for, and the renderable
    handles of the scene objects, flattened. *)
Definition helpers (st : State) : list child3 :=
  (if Config.show_grid (Config.view (config st))
   then option_list (Own <$> grid3 st) else []) ++
  (if Config.show_axes (Config.view (config st))
   then option_list (Own <$> axes3 st) else []).

Definition handles (s : Scene) : list child3 :=
  Ext <$> concat (guids <$> objects s).

(** The bodies of the loops of [update] and [show] over the scene graph. *)
Definition remove_child (child : child3) : M unit :=
  s3 ← getattr scene3; Object3D_remove s3 child.

Definition add_handle (o3 : guid) : M unit :=
  s3 ← getattr scene3; Object3D_add s3 (Ext o3).

(** ** A concrete notebook session, for the examples *)

Definition ex_camera : Config.Camera :=
  {| Config.position := None; Config.up := None; Config.near := None;
     Config.far := None; Config.fov := None; Config.target := None |}.

Definition ex_grid_item : Config.Item :=
  {| Config.type := Some "checkbox"; Config.action := Some "toggle_grid";
     Config.value := Some true; Config.text := Some "Grid" |}.

Definition ex_axes_item : Config.Item :=
  {| Config.type := Some "checkbox"; Config.action := Some "toggle_axes";
     Config.value := Some false; Config.text := Some "Axes" |}.

Definition ex_view (viewport : string) : Config.View :=
  {| Config.width := 1100; Config.height := 500;
     Config.background := "#eeeeee";
     Config.show_grid := true; Config.show_axes := true;
     Config.viewport := viewport; Config.camera := ex_camera |}.

Definition ex_ui : Config.UI :=
  {| Config.show_toolbar := true; Config.show_statusbar := true;
     Config.sidebar :=
       {| Config.show := true;
          Config.items := [ex_grid_item; ex_axes_item] |} |}.

Definition ex_config (viewport : string) : Config.t :=
  {| Config.view := ex_view viewport; Config.ui := ex_ui |}.

(** Two scene objects, not drawn yet. *)
Definition ex_scene : Scene :=
  {| context := "Notebook";
     objects := [ {| guids := [] |}; {| guids := [] |} ] |}.

(** A scene draw that gives the object number [i] the handles [2i] and
    [2i+1]. *)
Definition ex_draw (s : Scene) : Scene :=
  {| context := context s;
     objects := imap (λ i _, {| guids := [2 * i; 2 * i + 1]%nat |}) (objects s) |}.

Definition ex_controller : Controller :=
  {| methods := ["toggle_grid"; "toggle_axes"; "load_scene"; "save_scene";
                 "zoom_in"; "zoom_out"] |}.

Definition ex_viewer (viewport : string) : State :=
  Viewer_init (λ _, ex_config viewport) ex_controller
    (Some (ex_config viewport)) None (Some ex_scene) (Some ex_controller).

(** The viewer after [show()]. *)
Definition ex_shown : State := (show ex_draw (ex_viewer "perspective")).2.

(** The viewer after [show()] and then [update()]. *)
Definition ex_updated : State := (update ex_draw ex_shown).2.

(** ** The claim about [update] and the UI widget tree, as a predicate

    [rebuilt st st']: every widget of the UI tree of [st'] is an object
    that did not exist in [st]. *)
Definition widget_tree (st : State) : list (option ref) :=
  [ui st; toolbar st; main st; statusbar st].

Definition rebuilt (st st' : State) : Prop :=
  ∀ r, Some r ∈ widget_tree st' → (length (heap st) ≤ r)%nat.

(** ** What the methods build

    The objects that each method constructs, as a function of the first
    free reference [b] (the length of the heap before the call).  The
    lemmas of section "What the methods compute" prove that the methods build
    exactly these. *)

Definition button (icon tooltip : string) (cb : callback) : obj :=
  Button icon tooltip [("width", "48px"); ("height", "32px")] [cb].

Definition toolbar_objs (b : ref) : list obj :=
  [button "folder-open" "Load scene" lambda_load_scene;
   button "save" "Load scene" lambda_save_scene;
   button "search-plus" "Zoom in" lambda_zoom_in;
   button "search-minus" "Zoom out" lambda_zoom_out;
   HBox [("display", "flex"); ("flex_flow", "row");
         ("align_items", "center"); ("width", "auto"); ("height", "48px");
         ("padding", "0px 0px 0px 0px"); ("margin", "0px 0px 16px 0px")]
        [b; b + 1; b + 2; b + 3]%nat].

Definition statusbar_objs (b : ref) : list obj :=
  [Text "" "..." "" true
        [("width", "100%"); ("height", "32px");
         ("padding", "0px 0px 0px 0px"); ("margin", "0px 0px 0px 0px")]
        [("background", "#eeeeee")];
   HBox [("display", "flex"); ("flex_flow", "row");
         ("align_items", "flex-start"); ("width", "auto");
         ("height", "48px"); ("padding", "0px 0px 0px 0px");
         ("margin", "0px 0px 0px 0px")]
        [b]].

Definition view3d_obj (height : Z) (renderer : ref) : obj :=
  Box [("width", "auto"); ("height", px (height + 4))] [renderer].

Definition is_checkbox (it : Config.Item) : bool :=
  match Config.type it with
  | Some ty => String.eqb ty "checkbox"
  | None => false
  end.

(** A descriptor that [make_sidebar] can read: it has a type, and a
    checkbox has a value and a text. *)
Definition wf_item (it : Config.Item) : Prop :=
  is_Some (Config.type it) ∧
  (is_checkbox it = true →
   is_Some (Config.value it) ∧ is_Some (Config.text it)).

Definition checkbox_of (cell : ref) (it : Config.Item) : option obj :=
  if is_checkbox it then
    v ← Config.value it;
    t ← Config.text it;
    Some (Checkbox v t item_layout [action_closure cell])
  else None.

Definition checkboxes (cell : ref) (items : list Config.Item) : list obj :=
  omap (checkbox_of cell) items.

Definition sidebar_layout (height : Z) : Layout :=
  [("width", "240px"); ("grid_template_rows", "32px 1fr");
   ("height", px (height + 4)); ("align_content", "flex-start");
   ("align_items", "flex-start"); ("justify_content", "flex-start");
   ("justify_items", "flex-start"); ("overflow", "hidden");
   ("padding", "0px"); ("margin", "0px")].

Definition sidebar_objs (b : ref) (height : Z) (items : list Config.Item)
    : list obj :=
  [Cell (last items);
   GridBox (sidebar_layout height)
     (seq (b + 2) (length (checkboxes b items)))] ++
  checkboxes b items.

(** The sidebar, when the configuration shows one. *)
Definition main_sidebar (b : ref) (cfg : Config.t) : list obj :=
  if Config.show (Config.sidebar (Config.ui cfg))
  then sidebar_objs b (Config.height (Config.view cfg))
         (Config.items (Config.sidebar (Config.ui cfg)))
  else [].

Definition main_objs (b : ref) (cfg : Config.t) (renderer : ref) : list obj :=
  let sb := main_sidebar b cfg in
  sb ++
  [view3d_obj (Config.height (Config.view cfg)) renderer;
   HBox [("width", "auto");
         ("height", px (Config.height (Config.view cfg) + 4))]
        ((if Config.show (Config.sidebar (Config.ui cfg))
          then [b + 1] else []) ++ [b + length sb])%nat].

(** The reference of the main row among [main_objs b cfg r]. *)
Definition main_ref (b : ref) (cfg : Config.t) : ref :=
  (b + length (main_sidebar b cfg) + 1)%nat.

Definition ui_toolbar (b : ref) (cfg : Config.t) : list obj :=
  if Config.show_toolbar (Config.ui cfg) then toolbar_objs b else [].

Definition ui_statusbar (b : ref) (cfg : Config.t) : list obj :=
  if Config.show_statusbar (Config.ui cfg) then statusbar_objs b else [].

(** The declared height of the composed widget tree. *)
Definition ui_height (cfg : Config.t) : Z :=
  Config.height (Config.view cfg)
  + (if Config.show_toolbar (Config.ui cfg) then 64 else 0)
  + (if Config.show_statusbar (Config.ui cfg) then 48 else 0)
  + 4.

(** References of the panels among [ui_objs b cfg r]. *)
Definition ui_toolbar_ref (b : ref) : ref := (b + 5)%nat.
Definition ui_main_base (b : ref) (cfg : Config.t) : ref :=
  (b + 1 + length (ui_toolbar (b + 1)%nat cfg))%nat.
Definition ui_main_ref (b : ref) (cfg : Config.t) : ref :=
  main_ref (ui_main_base b cfg) cfg.
Definition ui_statusbar_base (b : ref) (cfg : Config.t) : ref :=
  (ui_main_ref b cfg + 1)%nat.
Definition ui_statusbar_ref (b : ref) (cfg : Config.t) : ref :=
  (ui_statusbar_base b cfg + 1)%nat.

Definition ui_children (b : ref) (cfg : Config.t) : list ref :=
  (if Config.show_toolbar (Config.ui cfg) then [ui_toolbar_ref b] else []) ++
  [ui_main_ref b cfg] ++
  (if Config.show_statusbar (Config.ui cfg)
   then [ui_statusbar_ref b cfg] else []).

Definition ui_objs (b : ref) (cfg : Config.t) (renderer : ref) : list obj :=
  [VBox [("width", "auto"); ("height", px (ui_height cfg))]
        (ui_children b cfg)] ++
  ui_toolbar (b + 1)%nat cfg ++
  main_objs (ui_main_base b cfg) cfg renderer ++
  ui_statusbar (ui_statusbar_base b cfg) cfg.

(** The body of the loop of [make_sidebar]; [item] is the cell of the loop
    variable. *)
Definition sidebar_body (item : ref) (it : Config.Item) (children : list ref)
    : M (list ref) :=
  store item (Cell (Some it));;
  ty ← subscript item Config.type;
  if String.eqb ty "checkbox" then
    let action := action_closure item in
    v ← subscript item Config.value;
    t ← subscript item Config.text;
    checkbox ← new (Checkbox v t item_layout []);
    observe checkbox action;;
    mret (children ++ [checkbox])
  else mret children.

(** The state that [init_ui] leaves, for a viewer whose renderer is [r]. *)
Definition init_ui_state (st : State) (r : ref) : State :=
  let b := length (heap st) in
  let cfg := config st in
  {| config := cfg; scene := scene st; controller := controller st;
     toolbar := if Config.show_toolbar (Config.ui cfg)
                then Some (ui_toolbar_ref b) else toolbar st;
     main := Some (ui_main_ref b cfg);
     statusbar := if Config.show_statusbar (Config.ui cfg)
                  then Some (ui_statusbar_ref b cfg) else statusbar st;
     statustext := if Config.show_statusbar (Config.ui cfg)
                   then Some (ui_statusbar_base b cfg) else statustext st;
     scene3 := scene3 st; grid3 := grid3 st; axes3 := axes3 st;
     camera3 := camera3 st; controls3 := controls3 st;
     renderer3 := renderer3 st;
     ui := Some b;
     heap := heap st ++ ui_objs b cfg r;
     displayed := displayed st; calls := calls st |}.

(** A configuration whose sidebar, if shown, [make_sidebar] can read. *)
Definition wf_sidebar (cfg : Config.t) : Prop :=
  Config.show (Config.sidebar (Config.ui cfg)) = true →
  Forall wf_item (Config.items (Config.sidebar (Config.ui cfg))).

(** The two camera projections, and the viewport values that name them. *)
Inductive projection := Top | Perspective.

Definition viewport_kind (viewport : string) : option projection :=
  if String.eqb viewport "top" then Some Top
  else if String.eqb viewport "perspective" then Some Perspective
  else None.

Definition grid_objs (view : Config.View) : list obj :=
  if Config.show_grid view
  then [GridHelper 20 20 Color_grey (Color_lightened Color_grey 50)
          [("rotateX", (lit (314159 # 100000) / of_int 2)%Qc)]]
  else [].

Definition axes_objs (view : Config.View) : list obj :=
  if Config.show_axes view then [AxesHelper (lit (1 # 2))] else [].

Definition grid_ref (b : ref) : ref := (b + 1)%nat.
Definition axes_ref (b : ref) (view : Config.View) : ref :=
  (b + 1 + length (grid_objs view))%nat.
Definition camera_ref (b : ref) (view : Config.View) : ref :=
  (b + 1 + length (grid_objs view) + length (axes_objs view))%nat.

(** The children that [init_webgl] gives the scene graph. *)
Definition helper_children (b : ref) (view : Config.View) : list child3 :=
  (if Config.show_grid view then [Own (grid_ref b)] else []) ++
  (if Config.show_axes view then [Own (axes_ref b view)] else []).

Definition camera_obj (kind : projection) (view : Config.View) : obj :=
  let width := Config.width view in
  let height := Config.height view in
  let cam := Config.camera view in
  match kind with
  | Top =>
      OrthographicCamera
        (of_int width / of_int (-2))%Qc (of_int width / of_int 2)%Qc
        (of_int height / of_int 2)%Qc (of_int height / of_int (-2))%Qc
        (lit (1 # 10)) (of_int 10000)
        (vec_or (Config.position cam) [of_int 0; of_int 0; of_int 1])
        (of_int 1)
  | Perspective =>
      PerspectiveCamera
        (vec_or (Config.position cam) [of_int 0; of_int (-10); of_int 5])
        (vec_or (Config.up cam) [of_int 0; of_int 0; of_int 1])
        (of_int width / of_int height)%Qc
        (num_or (Config.near cam) (lit (1 # 10)))
        (num_or (Config.far cam) (of_int 1000))
        (num_or (Config.fov cam) (of_int 50))
        [("lookAt",
          vec_or (Config.target cam) [of_int 0; of_int 0; of_int 0])]
  end.

Definition controls_obj (kind : projection) (cam : ref) : obj :=
  match kind with
  | Top => OrbitControls cam false (Some (of_int 1000)) (Some (lit (1 # 10)))
  | Perspective =>
      OrbitControls cam true (Some (of_int 1000)) (Some (lit (1 # 10)))
  end.

(** The scene graph with its helpers: what [init_webgl] has built when it
    reaches the camera setup.  [more] are children added later. *)
Definition scene3_objs (b : ref) (view : Config.View) (more : list child3)
    : list obj :=
  [Scene3 (Config.background view) (helper_children b view ++ more)] ++
  grid_objs view ++ axes_objs view.

Definition webgl_objs (b : ref) (view : Config.View) (kind : projection)
    (more : list child3) : list obj :=
  scene3_objs b view more ++
  [camera_obj kind view;
   controls_obj kind (camera_ref b view);
   Renderer b (camera_ref b view) [(camera_ref b view + 1)%nat]
     (Config.width view) (Config.height view) true].

(** The state in which [init_webgl] reaches the camera setup. *)
Definition scene3_state (st : State) : State :=
  let b := length (heap st) in
  let view := Config.view (config st) in
  {| config := config st; scene := scene st; controller := controller st;
     toolbar := toolbar st; main := main st; statusbar := statusbar st;
     statustext := statustext st;
     scene3 := Some b;
     grid3 := if Config.show_grid view then Some (grid_ref b) else grid3 st;
     axes3 := if Config.show_axes view
              then Some (axes_ref b view) else axes3 st;
     camera3 := camera3 st; controls3 := controls3 st;
     renderer3 := renderer3 st; ui := ui st;
     heap := heap st ++ scene3_objs b view [];
     displayed := displayed st; calls := calls st |}.

(** The state that [init_webgl] leaves for a viewport of kind [kind]. *)
Definition init_webgl_state (st : State) (kind : projection) : State :=
  let b := length (heap st) in
  let view := Config.view (config st) in
  {| config := config st; scene := scene st; controller := controller st;
     toolbar := toolbar st; main := main st; statusbar := statusbar st;
     statustext := statustext st;
     scene3 := Some b;
     grid3 := if Config.show_grid view then Some (grid_ref b) else grid3 st;
     axes3 := if Config.show_axes view
              then Some (axes_ref b view) else axes3 st;
     camera3 := Some (camera_ref b view);
     controls3 := Some (camera_ref b view + 1)%nat;
     renderer3 := Some (camera_ref b view + 2)%nat;
     ui := ui st;
     heap := heap st ++ webgl_objs b view kind [];
     displayed := displayed st; calls := calls st |}.

(** The state that [show] leaves for a viewport of kind [kind]. *)
Definition show_state (Scene_draw : Scene → Scene) (st : State)
    (kind : projection) : State :=
  let b := length (heap st) in
  let view := Config.view (config st) in
  let st1 := init_webgl_state st kind in
  let st2 := init_ui_state st1 (camera_ref b view + 2)%nat in
  let st3 :=
    put_children b (Config.background view)
      (helper_children b view ++ handles (Scene_draw (scene st)))
      (with_scene (Scene_draw (scene st)) st2) in
  with_displayed (displayed st ++ [length (heap st1)]) st3.

(** A configuration with which [show] returns. *)
Definition wf_config (cfg : Config.t) : Prop :=
  Config.height (Config.view cfg) ≠ 0 ∧ wf_sidebar cfg.

(** The objects of the 3D scene graph that exist before the camera setup. *)
Definition scene_graph_obj (o : obj) : Prop :=
  match o with
  | Scene3 _ _ | GridHelper _ _ _ _ _ | AxesHelper _ => True
  | _ => False
  end.

(** The example viewer after [init_webgl]. *)
Definition ex_webgl : State := (init_webgl (ex_viewer "perspective")).2.

(** The example viewer after [show()], with the status bar disabled in the
    configuration. *)
Definition ex_config_plain : Config.t :=
  {| Config.view := ex_view "top";
     Config.ui := {| Config.show_toolbar := false;
                     Config.show_statusbar := false;
                     Config.sidebar := {| Config.show := false;
                                          Config.items := [] |} |} |}.

Definition ex_plain_viewer : State :=
  Viewer_init (λ _, ex_config_plain) ex_controller
    (Some ex_config_plain) None (Some ex_scene) (Some ex_controller).

Definition ex_plain_shown : State := (show ex_draw ex_plain_viewer).2.

(** ** The scene-object plugin module [compas_pythreejs.scene]

    The registry of scene-object classes belongs to the external
    framework: a table from a context and an item type to the class that
    draws items of that type in that context.  [register] is the
    framework's function that fills it.  The decorator [plugin] marks a
    function as an extension point of the framework and returns it: it does
    not call the function. *)

Module Plugin.

Inductive scene_object_class := PyThreeJSSceneObject | BoxObject.

(** An item type, by name. *)
Definition Box : string := "Box".

(** What [plugin(...)] records on the function it decorates. *)
Record extension_point := {
  function : string;
  category : string;
  pluggable_name : string;
  requires : list string;
}.

Record World := {
  registry : gmap (string * string) scene_object_class;
  extension_points : list extension_point;
  exported : list string;                    (* [__all__] *)
  stdout : list string;
}.

(** [register(item_type, sceneobject_type, context=context)] *)
Definition register (item_type : string) (sceneobject_type : scene_object_class)
    (context : string) (w : World) : World :=
  {| registry := <[(context, item_type) := sceneobject_type]> (registry w);
     extension_points := extension_points w;
     exported := exported w;
     stdout := stdout w |}.

Definition print (line : string) (w : World) : World :=
  {| registry := registry w;
     extension_points := extension_points w;
     exported := exported w;
     stdout := stdout w ++ [line] |}.

(** The class registered for an item type in a context, if any. *)
Definition registered (context item_type : string) (w : World)
    : option scene_object_class :=
  registry w !! (context, item_type).

Definition clear_pythreejs (guids : option (list guid)) (w : World) : World :=
  w.

Definition redraw_pythreejs (w : World) : World := w.

Definition register_scene_objects (w : World) : World :=
  print "PyThreeJS SceneObjects registered."
    (register Box BoxObject "Notebook" w).

(** Executing the module: the three functions are defined and decorated,
    and [__all__] is bound. *)
Definition import_module (w : World) : World :=
  {| registry := registry w;
     extension_points :=
       extension_points w ++
       [ {| function := "clear_pythreejs"; category := "drawing-utils";
            pluggable_name := "clear"; requires := ["pythreejs"] |};
         {| function := "redraw_pythreejs"; category := "drawing-utils";
            pluggable_name := "redraw"; requires := ["pythreejs"] |};
         {| function := "register_scene_objects"; category := "factories";
            pluggable_name := "register_scene_objects";
            requires := ["pythreejs"] |} ];
     exported := ["PyThreeJSSceneObject"; "BoxObject"];
     stdout := stdout w |}.

(** A process in which nothing has been registered. *)
Definition empty_world : World :=
  {| registry := ∅; extension_points := []; exported := []; stdout := [] |}.

End Plugin.

(** ** Renaming of references

    [shift_ref base d]: the references from [base] on are moved up by [d];
    the references below [base] stay.  This is how the objects that a second
    [show] constructs relate to those of the first. *)

Definition shift_ref (base d : nat) (r : ref) : ref :=
  if decide (base ≤ r)%nat then (r + d)%nat else r.

Definition shift_child (base d : nat) (c : child3) : child3 :=
  match c with
  | Own r => Own (shift_ref base d r)
  | Ext g => Ext g
  end.

Definition shift_callback (base d : nat) (cb : callback) : callback :=
  match cb with
  | action_closure cell => action_closure (shift_ref base d cell)
  | _ => cb
  end.

Definition shift_obj (base d : nat) (o : obj) : obj :=
  let f := shift_ref base d in
  match o with
  | VBox l cs => VBox l (f <$> cs)
  | HBox l cs => HBox l (f <$> cs)
  | GridBox l cs => GridBox l (f <$> cs)
  | Box l cs => Box l (f <$> cs)
  | Button i t l cbs => Button i t l (shift_callback base d <$> cbs)
  | Checkbox v t l cbs => Checkbox v t l (shift_callback base d <$> cbs)
  | Text v p t dis l s => Text v p t dis l s
  | Cell c => Cell c
  | Scene3 bg kids => Scene3 bg (shift_child base d <$> kids)
  | GridHelper s dv c1 c2 ex => GridHelper s dv c1 c2 ex
  | AxesHelper s => AxesHelper s
  | OrthographicCamera l r t b n fr p z => OrthographicCamera l r t b n fr p z
  | PerspectiveCamera p u a n fr fv ex => PerspectiveCamera p u a n fr fv ex
  | OrbitControls c e mx mn => OrbitControls (f c) e mx mn
  | Renderer s c ctl w h a => Renderer (f s) (f c) (f <$> ctl) w h a
  end.

(** The attributes of the viewer that refer to objects. *)
Definition attrs (st : State) : list (option ref) :=
  [toolbar st; main st; statusbar st; statustext st; scene3 st; grid3 st;
   axes3 st; camera3 st; controls3 st; renderer3 st; ui st].

(** Every attribute refers to an object of the heap. *)
Definition attrs_allocated (st : State) : Prop :=
  Forall (λ a, ∀ r, a = Some r → (r < length (heap st))%nat) (attrs st).

(** All the objects that [show] constructs, when the scene after its draw
    is [s]. *)
Definition show_objs (b : ref) (cfg : Config.t) (kind : projection)
    (s : Scene) : list obj :=
  webgl_objs b (Config.view cfg) kind (handles s) ++
  ui_objs (b + length (webgl_objs b (Config.view cfg) kind (handles s)))%nat
    cfg (camera_ref b (Config.view cfg) + 2)%nat.

(** The example viewer after [show()] twice. *)
Definition ex_shown_twice : State := (show ex_draw ex_shown).2.

(** A configuration whose 3D viewport has no height, and a viewer with
    it. *)
Definition ex_config_flat : Config.t :=
  {| Config.view :=
       {| Config.width := 1100; Config.height := 0;
          Config.background := "#eeeeee";
          Config.show_grid := true; Config.show_axes := true;
          Config.viewport := "top"; Config.camera := ex_camera |};
     Config.ui := ex_ui |}.

Definition ex_flat_viewer : State :=
  Viewer_init (λ _, ex_config_flat) ex_controller
    (Some ex_config_flat) None (Some ex_scene) (Some ex_controller).
(** The configuration is an object that the user and the controller can
    change between two calls: [with_config cfg st] is the viewer [st]
    after its configuration has been changed to [cfg]. *)
Definition with_config (x : Config.t) (s : State) : State :=
  {| config := x; scene := scene s; controller := controller s;
     toolbar := toolbar s; main := main s; statusbar := statusbar s;
     statustext := statustext s; scene3 := scene3 s; grid3 := grid3 s;
     axes3 := axes3 s; camera3 := camera3 s; controls3 := controls3 s;
     renderer3 := renderer3 s; ui := ui s; heap := heap s;
     displayed := displayed s; calls := calls s |}.

(** The example configuration without the grid; the viewer shown with it;
    and that viewer after the grid has been enabled in its configuration. *)
Definition ex_config_nogrid : Config.t :=
  {| Config.view :=
       {| Config.width := 1100; Config.height := 500;
          Config.background := "#eeeeee";
          Config.show_grid := false; Config.show_axes := true;
          Config.viewport := "perspective"; Config.camera := ex_camera |};
     Config.ui := ex_ui |}.

Definition ex_nogrid_shown : State :=
  (show ex_draw
     (Viewer_init (λ _, ex_config_nogrid) ex_controller
        (Some ex_config_nogrid) None (Some ex_scene) (Some ex_controller))).2.

Definition ex_grid_enabled : State :=
  with_config (ex_config "perspective") ex_nogrid_shown.

(** The example viewer, shown with its status bar, after the panels have
    been disabled in its configuration. *)
Definition ex_panels_disabled : State := with_config ex_config_plain ex_shown.
(** A sidebar item that [make_sidebar] cannot read (a checkbox without a
    value), and a viewer whose sidebar has it after a proper item. *)
Definition ex_bad_item : Config.Item :=
  {| Config.type := Some "checkbox"; Config.action := Some "toggle_axes";
     Config.value := None; Config.text := Some "Axes" |}.

Definition ex_config_unreadable : Config.t :=
  {| Config.view := ex_view "perspective";
     Config.ui :=
       {| Config.show_toolbar := true; Config.show_statusbar := true;
          Config.sidebar :=
            {| Config.show := true;
               Config.items := [ex_grid_item; ex_bad_item] |} |} |}.

Definition ex_unreadable_viewer : State :=
  Viewer_init (λ _, ex_config_unreadable) ex_controller
    (Some ex_config_unreadable) None (Some ex_scene) (Some ex_controller).

(** Whether [make_sidebar] can read an item is decidable. *)
#[global] Instance wf_item_dec it : Decision (wf_item it).
Proof. unfold wf_item. apply _. Defined.

(** A configuration whose camera sets the near plane to 0 and the position
    to the empty vector, and a viewer with it. *)
Definition ex_config_falsy : Config.t :=
  {| Config.view :=
       {| Config.width := 1100; Config.height := 500;
          Config.background := "#eeeeee";
          Config.show_grid := true; Config.show_axes := true;
          Config.viewport := "perspective";
          Config.camera :=
            {| Config.position := Some []; Config.up := None;
               Config.near := Some 0%Qc; Config.far := None;
               Config.fov := None; Config.target := None |} |};
     Config.ui := ex_ui |}.

Definition ex_falsy_viewer : State :=
  Viewer_init (λ _, ex_config_falsy) ex_controller
    (Some ex_config_falsy) None (Some ex_scene) (Some ex_controller).

(** An item that is not a checkbox and names no action, and a viewer whose
    sidebar ends with it. *)
Definition ex_label_item : Config.Item :=
  {| Config.type := Some "label"; Config.action := None;
     Config.value := None; Config.text := Some "Layers" |}.

Definition ex_config_label : Config.t :=
  {| Config.view := ex_view "perspective";
     Config.ui :=
       {| Config.show_toolbar := true; Config.show_statusbar := true;
          Config.sidebar :=
            {| Config.show := true;
               Config.items := [ex_grid_item; ex_label_item] |} |} |}.

Definition ex_label_viewer : State :=
  Viewer_init (λ _, ex_config_label) ex_controller
    (Some ex_config_label) None (Some ex_scene) (Some ex_controller).

(** ** The claim about the children after [update], as a predicate

    [children_as_specified st]: the children of the scene graph of [st]
    are the grid helper iff [show_grid], then the axes helper iff
    [show_axes], then the handles of all scene objects, in that order. *)
Definition children_as_specified (st : State) : Prop :=
  scene3_children st = Some (helpers st ++ handles (scene st)).

(** The example viewer after [show()], when the second scene object has
    been taken out of the scene and the axes have been disabled in the
    configuration. *)
Definition ex_config_noaxes : Config.t :=
  {| Config.view :=
       {| Config.width := 1100; Config.height := 500;
          Config.background := "#eeeeee";
          Config.show_grid := true; Config.show_axes := false;
          Config.viewport := "perspective"; Config.camera := ex_camera |};
     Config.ui := ex_ui |}.

Definition ex_changed : State :=
  with_config ex_config_noaxes
    (with_scene {| context := "Notebook";
                   objects := [ {| guids := [0; 1]%nat |} ] |} ex_shown).

(** A viewer whose viewport is not supported and has no height. *)
Definition ex_config_front_flat : Config.t :=
  {| Config.view :=
       {| Config.width := 1100; Config.height := 0;
          Config.background := "#eeeeee";
          Config.show_grid := true; Config.show_axes := true;
          Config.viewport := "front"; Config.camera := ex_camera |};
     Config.ui := ex_ui |}.

Definition ex_front_flat_viewer : State :=
  Viewer_init (λ _, ex_config_front_flat) ex_controller
    (Some ex_config_front_flat) None (Some ex_scene) (Some ex_controller).

(** ** The claim that [show] is idempotent, as a predicate

    [show_idempotent_at draw st]: a second call of [show] on the viewer
    [st] leaves the state that the first call left. *)
Definition show_idempotent_at (Scene_draw : Scene → Scene) (st : State)
    : Prop :=
  ∀ st1 st2,
    show Scene_draw st = (Ok tt, st1) → show Scene_draw st1 = (Ok tt, st2) →
    st2 = st1.

(** A scene draw that gives every scene object the same handle, twice. *)
Definition ex_draw_twin (s : Scene) : Scene :=
  {| context := context s;
     objects := (λ _, {| guids := [7; 7]%nat |}) <$> objects s |}.

(** The example viewer with a controller that has no method, after
    [show()]. *)
Definition ex_bare_shown : State :=
  (show ex_draw
     (Viewer_init (λ _, ex_config "perspective") ex_controller
        (Some (ex_config "perspective")) None (Some ex_scene)
        (Some {| methods := [] |}))).2.

(** * Reasoning about computations *)

Lemma bind_Ok {A B} (m : M A) (k : A → M B) st b st' :
  (m ≫= k) st = (Ok b, st') ↔
  ∃ a st1, m st = (Ok a, st1) ∧ k a st1 = (Ok b, st').
Proof.
  unfold mbind, M_bind. destruct (m st) as [[a|e] st1]; split.
  - eauto.
  - by intros (a' & st1' & [= <- <-] & H).
  - done.
  - by intros (a' & st1' & [=] & _).
Qed.

Lemma bind_eq {A B} (m : M A) (k : A → M B) st a st1 :
  m st = (Ok a, st1) → (m ≫= k) st = k a st1.
Proof. intros H. unfold mbind, M_bind. by rewrite H. Qed.

Lemma bind_Raise {A B} (m : M A) (k : A → M B) st e st1 :
  m st = (Raise e, st1) → (m ≫= k) st = (Raise e, st1).
Proof. intros H. unfold mbind, M_bind. by rewrite H. Qed.

Lemma getattr_Ok f st r st' :
  getattr f st = (Ok r, st') ↔ f st = Some r ∧ st' = st.
Proof.
  unfold getattr. destruct (f st); split.
  - by intros [= -> ->].
  - by intros [[= ->] ->].
  - done.
  - by intros [[=] _].
Qed.

Lemma getattr_eq f st r : f st = Some r → getattr f st = (Ok r, st).
Proof. intros H. unfold getattr. by rewrite H. Qed.

Lemma deref_Ok r st o st' :
  deref r st = (Ok o, st') ↔ heap st !! r = Some o ∧ st' = st.
Proof.
  unfold deref. destruct (heap st !! r); split.
  - by intros [= -> ->].
  - by intros [[= ->] ->].
  - done.
  - by intros [[=] _].
Qed.

Lemma deref_eq r st o : heap st !! r = Some o → deref r st = (Ok o, st).
Proof. intros H. unfold deref. by rewrite H. Qed.

Lemma assign_eq r f st o o' :
  heap st !! r = Some o → f o = Some o' →
  assign r f st = (Ok tt, with_heap (<[r := o']> (heap st)) st).
Proof.
  intros Ho Hf. unfold assign. rewrite (bind_eq _ _ _ _ _ (deref_eq _ _ _ Ho)).
  by rewrite Hf.
Qed.

Lemma assign_Ok r f st u st' :
  assign r f st = (Ok u, st') →
  ∃ o o', heap st !! r = Some o ∧ f o = Some o' ∧
          st' = with_heap (<[r := o']> (heap st)) st.
Proof.
  unfold assign. intros (o & st1 & [Ho ->]%deref_Ok & H)%bind_Ok.
  destruct (f o) as [o'|] eqn:Hf; [|done].
  exists o, o'. by injection H as _ <-.
Qed.

Lemma put_children_twice r bg k1 k2 st :
  put_children r bg k2 (put_children r bg k1 st) = put_children r bg k2 st.
Proof.
  unfold put_children. simpl. by rewrite list_insert_insert_eq.
Qed.

Lemma put_children_lookup r bg k st :
  (r < length (heap st))%nat →
  heap (put_children r bg k st) !! r = Some (Scene3 bg k).
Proof. intros H. simpl. by apply list_lookup_insert_eq. Qed.

Lemma Object3D_children_Ok r st kids st' :
  Object3D_children r st = (Ok kids, st') ↔
  (∃ bg, heap st !! r = Some (Scene3 bg kids)) ∧ st' = st.
Proof.
  unfold Object3D_children. split.
  - intros (o & st1 & [Ho ->]%deref_Ok & H)%bind_Ok.
    destruct o; try done. injection H as <- <-. eauto.
  - intros [[bg Ho] ->]. by rewrite (bind_eq _ _ _ _ _ (deref_eq _ _ _ Ho)).
Qed.

Lemma Object3D_set_children_eq r st bg kids kids' :
  heap st !! r = Some (Scene3 bg kids) →
  Object3D_set_children r kids' st = (Ok tt, put_children r bg kids' st).
Proof. intros H. unfold Object3D_set_children. by erewrite assign_eq. Qed.

Lemma Object3D_add_eq r st bg kids c :
  heap st !! r = Some (Scene3 bg kids) →
  Object3D_add r c st = (Ok tt, put_children r bg (kids ++ [c]) st).
Proof. intros H. unfold Object3D_add. by erewrite assign_eq. Qed.

Lemma Object3D_remove_eq r st bg kids c :
  heap st !! r = Some (Scene3 bg kids) →
  Object3D_remove r c st =
    match remove_first c kids with
    | Some kids' => (Ok tt, put_children r bg kids' st)
    | None => (Raise ValueError, st)
    end.
Proof.
  intros H. unfold Object3D_remove.
  rewrite (bind_eq _ _ _ kids st) by (apply Object3D_children_Ok; eauto).
  destruct (remove_first c kids); [|done].
  by erewrite Object3D_set_children_eq.
Qed.

Lemma remove_first_head c l : remove_first c (c :: l) = Some l.
Proof. simpl. by rewrite decide_True. Qed.

Lemma with_heap_id st : with_heap (heap st) st = st.
Proof. by destruct st. Qed.

Lemma put_children_id r bg kids st :
  heap st !! r = Some (Scene3 bg kids) → put_children r bg kids st = st.
Proof.
  intros H. unfold put_children. rewrite list_insert_id by done.
  apply with_heap_id.
Qed.

(** ** The loops of [update] and [show] over the scene graph *)

Section Loops.
Variables (r : ref) (bg : string).

Lemma remove_child_eq st kids c :
  scene3 st = Some r → heap st !! r = Some (Scene3 bg kids) →
  remove_child c st =
    match remove_first c kids with
    | Some kids' => (Ok tt, put_children r bg kids' st)
    | None => (Raise ValueError, st)
    end.
Proof.
  intros Hr Hk. unfold remove_child.
  rewrite (bind_eq _ _ _ _ _ (getattr_eq _ _ _ Hr)).
  by apply Object3D_remove_eq.
Qed.

(** The loop of [update] over a snapshot of the children: every visit
    takes the first child out, which is the child visited, so the loop
    returns and leaves no child, whether or not a child occurs twice. *)
Lemma remove_loop_eq kids : ∀ st,
  scene3 st = Some r → heap st !! r = Some (Scene3 bg kids) →
  for_each kids remove_child st = (Ok tt, put_children r bg [] st).
Proof.
  induction kids as [|c kids IH]; intros st Hr Hk.
  - simpl. unfold mret, M_ret. f_equal. by rewrite put_children_id.
  - simpl.
    erewrite bind_eq; last first.
    { rewrite (remove_child_eq _ _ _ Hr Hk). by rewrite remove_first_head. }
    rewrite IH.
    + by rewrite put_children_twice.
    + done.
    + apply put_children_lookup. by eapply lookup_lt_Some.
Qed.

Lemma add_handle_eq st kids g :
  scene3 st = Some r → heap st !! r = Some (Scene3 bg kids) →
  add_handle g st = (Ok tt, put_children r bg (kids ++ [Ext g]) st).
Proof.
  intros Hr Hk. unfold add_handle.
  rewrite (bind_eq _ _ _ _ _ (getattr_eq _ _ _ Hr)).
  by apply Object3D_add_eq.
Qed.

Lemma add_handles_eq gs : ∀ st kids,
  scene3 st = Some r → heap st !! r = Some (Scene3 bg kids) →
  for_each gs add_handle st =
    (Ok tt, put_children r bg (kids ++ (Ext <$> gs)) st).
Proof.
  induction gs as [|g gs IH]; intros st kids Hr Hk.
  - simpl. rewrite app_nil_r, put_children_id; done.
  - simpl. rewrite (bind_eq _ _ _ _ _ (add_handle_eq _ _ _ Hr Hk)).
    rewrite (IH _ (kids ++ [Ext g])).
    + by rewrite put_children_twice, <- app_assoc.
    + done.
    + apply put_children_lookup. by eapply lookup_lt_Some.
Qed.

Lemma add_objects_eq objs : ∀ st kids,
  scene3 st = Some r → heap st !! r = Some (Scene3 bg kids) →
  for_each objs (λ o, for_each (guids o) add_handle) st =
    (Ok tt,
     put_children r bg (kids ++ (Ext <$> concat (guids <$> objs))) st).
Proof.
  induction objs as [|o objs IH]; intros st kids Hr Hk.
  - simpl. rewrite app_nil_r, put_children_id; done.
  - simpl. rewrite (bind_eq _ _ _ _ _ (add_handles_eq _ _ _ Hr Hk)).
    rewrite (IH _ (kids ++ (Ext <$> guids o))).
    + by rewrite put_children_twice, fmap_app, app_assoc.
    + done.
    + apply put_children_lookup. by eapply lookup_lt_Some.
Qed.
End Loops.

(** ** [update] *)

Section Update.
Variable Scene_draw : Scene → Scene.

Lemma when_helper_eq (flag : bool) (attr : State → option ref) st r bg kids :
  scene3 st = Some r → heap st !! r = Some (Scene3 bg kids) →
  (flag = true → is_Some (attr st)) →
  when flag (s3 ← getattr scene3; g ← getattr attr; Object3D_add s3 (Own g)) st
  = (Ok tt,
     put_children r bg
       (kids ++ if flag then option_list (Own <$> attr st) else []) st).
Proof.
  intros Hr Hk Hf. destruct flag; simpl.
  - destruct Hf as [g Hg]; [done|].
    rewrite (bind_eq _ _ _ _ _ (getattr_eq _ _ _ Hr)).
    rewrite (bind_eq _ _ _ _ _ (getattr_eq _ _ _ Hg)).
    rewrite Hg. simpl. by apply Object3D_add_eq.
  - rewrite app_nil_r, put_children_id; done.
Qed.

Lemma when_helper_Ok (flag : bool) (attr : State → option ref) st st' :
  when flag (s3 ← getattr scene3; g ← getattr attr; Object3D_add s3 (Own g)) st
  = (Ok tt, st') →
  flag = true → is_Some (attr st).
Proof.
  intros H ->. simpl in H.
  apply bind_Ok in H as (s3 & st1 & [_ ->]%getattr_Ok & H).
  apply bind_Ok in H as (g & st2 & [Hg ->]%getattr_Ok & H). eauto.
Qed.

Lemma put_children_with_scene r bg k k' s st :
  put_children r bg k (with_scene s (put_children r bg k' st)) =
  put_children r bg k (with_scene s st).
Proof. unfold put_children. simpl. by rewrite list_insert_insert_eq. Qed.

(** The state that a call of [update] that returns leaves behind. *)
Lemma update_Ok st st' :
  update Scene_draw st = (Ok tt, st') →
  ∃ r bg kids,
    scene3 st = Some r ∧ heap st !! r = Some (Scene3 bg kids) ∧
    (Config.show_grid (Config.view (config st)) = true → is_Some (grid3 st)) ∧
    (Config.show_axes (Config.view (config st)) = true → is_Some (axes3 st)) ∧
    st' = put_children r bg
            (helpers st ++ handles (Scene_draw (scene st)))
            (with_scene (Scene_draw (scene st)) st).
Proof.
  unfold update. intros H.
  apply bind_Ok in H as (r & st1 & [Hr ->]%getattr_Ok & H).
  apply bind_Ok in H as (kids & st1 & [[bg Hk] ->]%Object3D_children_Ok & H).
  apply bind_Ok in H as ([] & st1 & Hloop & H).
  rewrite (remove_loop_eq r bg kids st Hr Hk
             : for_each kids
                 (λ child, s3 ← getattr scene3; Object3D_remove s3 child) st
               = _) in Hloop.
  injection Hloop as <-.
  assert (r < length (heap st))%nat as Hlt by by eapply lookup_lt_Some.
  apply bind_Ok in H as (r' & st1 & [Hr' ->]%getattr_Ok & H).
  simpl in Hr'. rewrite Hr in Hr'. injection Hr' as <-.
  erewrite bind_eq in H; last first.
  { eapply Object3D_set_children_eq. by apply put_children_lookup. }
  rewrite put_children_twice in H.
  apply bind_Ok in H as (cfg & st1 & [= <- <-] & H). simpl in H.
  apply bind_Ok in H as ([] & st1 & Hg & H).
  pose proof (when_helper_Ok _ _ _ _ Hg) as Hgrid.
  rewrite (when_helper_eq _ _ _ r bg []) in Hg;
    [|done|by apply put_children_lookup|done].
  injection Hg as <-. rewrite put_children_twice in H.
  apply bind_Ok in H as ([] & st1 & Ha & H).
  pose proof (when_helper_Ok _ _ _ _ Ha) as Haxes.
  rewrite (when_helper_eq _ _ _ r bg
             ([] ++ if Config.show_grid (Config.view (config st))
                    then option_list (Own <$> grid3 st) else [])) in Ha;
    [|done|by apply put_children_lookup|done].
  injection Ha as <-. rewrite put_children_twice in H.
  apply bind_Ok in H as ([] & st1 & [= <-] & H).
  apply bind_Ok in H as (objs & st1 & [= <- <-] & H). simpl in H.
  change (λ o3 : guid, s3 ← getattr scene3; Object3D_add s3 (Ext o3))
    with add_handle in H.
  erewrite (add_objects_eq r bg) in H; [| done |].
  2:{ simpl. by apply list_lookup_insert_eq. }
  injection H as <-.
  exists r, bg, kids. split_and!; [done..|].
  rewrite put_children_with_scene. unfold helpers, handles.
  simpl. by rewrite <- app_assoc.
Qed.

(** [update] returns when the scene graph exists and the helpers that the
    configuration asks for exist. *)
Lemma update_eq st r bg kids :
  scene3 st = Some r → heap st !! r = Some (Scene3 bg kids) →
  (Config.show_grid (Config.view (config st)) = true → is_Some (grid3 st)) →
  (Config.show_axes (Config.view (config st)) = true → is_Some (axes3 st)) →
  update Scene_draw st =
    (Ok tt, put_children r bg
              (helpers st ++ handles (Scene_draw (scene st)))
              (with_scene (Scene_draw (scene st)) st)).
Proof.
  intros Hr Hk Hgrid Haxes. unfold update.
  assert (r < length (heap st))%nat as Hlt by by eapply lookup_lt_Some.
  rewrite (bind_eq _ _ _ _ _ (getattr_eq _ _ _ Hr)).
  rewrite (bind_eq _ _ _ kids st) by (apply Object3D_children_Ok; eauto).
  erewrite bind_eq; last by apply (remove_loop_eq r bg kids st).
  erewrite bind_eq; last (apply getattr_eq; exact Hr).
  erewrite bind_eq; last first.
  { eapply Object3D_set_children_eq. by apply put_children_lookup. }
  rewrite put_children_twice.
  erewrite bind_eq; last reflexivity. simpl.
  erewrite bind_eq; last first.
  { apply (when_helper_eq _ _ _ r bg []);
      [done|by apply put_children_lookup|done]. }
  rewrite put_children_twice.
  erewrite bind_eq; last first.
  { apply (when_helper_eq _ _ _ r bg
             ([] ++ if Config.show_grid (Config.view (config st))
                    then option_list (Own <$> grid3 st) else []));
      [done|by apply put_children_lookup|done]. }
  rewrite put_children_twice.
  erewrite bind_eq; last reflexivity.
  erewrite bind_eq; last reflexivity. simpl.
  change (λ o3 : guid, s3 ← getattr scene3; Object3D_add s3 (Ext o3))
    with add_handle.
  erewrite (add_objects_eq r bg); [| done |].
  2:{ simpl. by apply list_lookup_insert_eq. }
  rewrite put_children_with_scene. unfold helpers, handles.
  simpl. by rewrite <- app_assoc.
Qed.
End Update.

(** ** Properties of [update] *)




(** The children of the example before and after that call: the axes and
    the handles of the object that left the scene are gone. *)
Example update_removes_stale_example :
  scene3_children ex_changed =
    Some [Own 1%nat; Own 2%nat; Ext 0%nat; Ext 1%nat; Ext 2%nat; Ext 3%nat] ∧
  scene3_children (update ex_draw ex_changed).2 =
    Some [Own 1%nat; Ext 0%nat; Ext 1%nat].
Proof. vm_compute. done. Qed.

Example update_children_example :
  scene3_children ex_updated =
    Some [Own 1%nat; Own 2%nat; Ext 0%nat; Ext 1%nat; Ext 2%nat; Ext 3%nat].
Proof. vm_compute. reflexivity. Qed.

(** C4 (as the specification states it, refuted): the viewer of the example
    session, shown and then updated, still has the root container, toolbar,
    main row and status bar that [show] built: [update] rebuilt none of
    them. *)
Lemma update_rebuilds_ui_counterexample :
  update ex_draw ex_shown = (Ok tt, ex_updated) ∧
  ¬ rebuilt ex_shown ex_updated.
Proof.
  split; [vm_compute; reflexivity|].
  intros H. specialize (H 6%nat). vm_compute in H.
  assert (20 ≤ 6)%nat as Hle; [|lia].
  apply H. apply list_elem_of_here.
Qed.

(** C4 (amended): a call of [update] that returns does not touch the UI
    widget tree.  The root container, toolbar, main row, status bar, status
    text and renderer are the same objects as before, no object is
    constructed, and every object other than the 3D scene graph is
    unchanged; only the children of the 3D scene graph are rebuilt. *)
Theorem update_keeps_ui (Scene_draw : Scene → Scene) (st st' : State) :
  update Scene_draw st = (Ok tt, st') →
  ui st' = ui st ∧ toolbar st' = toolbar st ∧ main st' = main st ∧
  statusbar st' = statusbar st ∧ statustext st' = statustext st ∧
  renderer3 st' = renderer3 st ∧ scene3 st' = scene3 st ∧
  length (heap st') = length (heap st) ∧
  (∀ r, scene3 st ≠ Some r → heap st' !! r = heap st !! r).
Proof.
  intros (r & bg & kids & Hr & Hk & Hgrid & Haxes & ->)%update_Ok.
  simpl. split_and!; try done.
  - by rewrite length_insert.
  - intros r' Hne. apply list_lookup_insert_ne. congruence.
Qed.

Lemma update_keeps_ui_witness :
  update ex_draw ex_shown = (Ok tt, ex_updated) ∧
  ui ex_updated = ui ex_shown ∧ toolbar ex_updated = toolbar ex_shown ∧
  main ex_updated = main ex_shown ∧
  statusbar ex_updated = statusbar ex_shown ∧
  statustext ex_updated = statustext ex_shown ∧
  renderer3 ex_updated = renderer3 ex_shown ∧
  scene3 ex_updated = scene3 ex_shown ∧
  length (heap ex_updated) = length (heap ex_shown) ∧
  (∀ r, scene3 ex_shown ≠ Some r →
        heap ex_updated !! r = heap ex_shown !! r).
Proof.
  assert (update ex_draw ex_shown = (Ok tt, ex_updated)) as H
    by (vm_compute; reflexivity).
  split; [exact H|]. exact (update_keeps_ui ex_draw _ _ H).
Defined.

Section Constructor.
Variable Scene_draw : Scene → Scene.
Variable Config_from_json : string → Config.t.
Variable Controller_default : Controller.

(** C10: on a viewer that has only been constructed, [update] fails with
    an attribute-lookup error: the constructor creates no object at all,
    and in particular neither the 3D scene graph nor the grid and axes
    helpers, which do not exist as attributes. *)
Theorem update_before_show config configpath scene controller :
  let st := Viewer_init Config_from_json Controller_default
              config configpath scene controller in
  update Scene_draw st = (Raise AttributeError, st) ∧
  scene3 st = None ∧ grid3 st = None ∧ axes3 st = None ∧ heap st = [].
Proof. by split_and!. Qed.
End Constructor.

(** * What the methods compute *)

(** ** Symbolic execution on a heap [h ++ l] *)

Lemma heap_lookup_new (h l : list obj) k :
  (h ++ l) !! (length h + k)%nat = l !! k.
Proof. rewrite lookup_app_r by lia. f_equal. lia. Qed.

Lemma heap_lookup_new0 (h l : list obj) : (h ++ l) !! length h = l !! 0%nat.
Proof. rewrite lookup_app_r by lia. f_equal. lia. Qed.

Lemma heap_insert_new (h l : list obj) k o :
  <[(length h + k)%nat := o]> (h ++ l) = h ++ <[k := o]> l.
Proof. apply insert_app_r. Qed.

Lemma heap_insert_new0 (h l : list obj) o :
  <[length h := o]> (h ++ l) = h ++ <[0%nat := o]> l.
Proof. rewrite <- (Nat.add_0_r (length h)) at 1. apply insert_app_r. Qed.

Lemma bind_new {B} o (k : ref → M B) st :
  (new o ≫= k) st = k (length (heap st)) (with_heap (heap st ++ [o]) st).
Proof. done. Qed.

Lemma bind_modify {B} f (k : unit → M B) st : (modify f ≫= k) st = k tt (f st).
Proof. done. Qed.

Lemma bind_gets {A B} (f : State → A) (k : A → M B) st :
  (gets f ≫= k) st = k (f st) st.
Proof. done. Qed.

Lemma bind_ret {A B} (a : A) (k : A → M B) st : (mret a ≫= k) st = k a st.
Proof. done. Qed.

Lemma bind_getattr {B} f (k : ref → M B) st r :
  f st = Some r → (getattr f ≫= k) st = k r st.
Proof. intros H. by rewrite (bind_eq _ _ _ _ _ (getattr_eq _ _ _ H)). Qed.

Lemma bind_assign {B} r f (k : unit → M B) st o o' :
  heap st !! r = Some o → f o = Some o' →
  (assign r f ≫= k) st = k tt (with_heap (<[r := o']> (heap st)) st).
Proof.
  intros H1 H2. by rewrite (bind_eq _ _ _ _ _ (assign_eq _ _ _ _ _ H1 H2)).
Qed.

Lemma bind_assoc {A B C} (m : M A) (f : A → M B) (g : B → M C) st :
  ((m ≫= f) ≫= g) st = (m ≫= (λ x, f x ≫= g)) st.
Proof. unfold mbind, M_bind. by destruct (m st) as [[]]. Qed.

Lemma ret_eq {A} (a : A) st : (mret a : M A) st = (Ok a, st).
Proof. done. Qed.

Arguments with_scene x !s /.
Arguments with_toolbar x !s /.
Arguments with_main x !s /.
Arguments with_statusbar x !s /.
Arguments with_statustext x !s /.
Arguments with_scene3 x !s /.
Arguments with_grid3 x !s /.
Arguments with_axes3 x !s /.
Arguments with_camera3 x !s /.
Arguments with_controls3 x !s /.
Arguments with_renderer3 x !s /.
Arguments with_ui x !s /.
Arguments with_heap x !s /.
Arguments with_displayed x !s /.
Arguments with_calls x !s /.
Arguments px : simpl never.
Arguments of_int : simpl never.
Arguments lit : simpl never.
Arguments Qcdiv : simpl never.
Arguments num_or : simpl never.
Arguments vec_or : simpl never.
Arguments sidebar_objs : simpl never.
Arguments main_objs : simpl never.
Arguments main_sidebar : simpl never.
Arguments checkboxes : simpl never.

Ltac heap_norm :=
  simpl;
  repeat (first
    [ rewrite heap_insert_new
    | rewrite heap_insert_new0
    | rewrite <- app_assoc
    | rewrite length_app ]; simpl).

Ltac lookup_new :=
  simpl;
  repeat (first [ rewrite heap_lookup_new | rewrite heap_lookup_new0 ]; simpl);
  reflexivity.

Ltac step :=
  first
    [ rewrite bind_new
    | rewrite bind_modify
    | rewrite bind_gets
    | rewrite bind_ret
    | rewrite bind_assoc
    | erewrite bind_getattr; [|reflexivity]
    | erewrite bind_assign; [|lookup_new|reflexivity]
    | erewrite assign_eq; [|lookup_new|reflexivity]
    | rewrite ret_eq ];
  heap_norm.

Ltac widget_ops :=
  unfold set_layout, set_style, set_children, set_value, on_click, observe.

(** ** The panels *)

Lemma make_toolbar_eq st :
  make_toolbar st =
    (Ok (length (heap st) + 4)%nat,
     with_heap (heap st ++ toolbar_objs (length (heap st))) st).
Proof.
  destruct st as [cfg sc ctl tb mn sb stx s3 g3 a3 c3 ct3 r3 u h d cl].
  unfold make_toolbar. widget_ops. repeat step. reflexivity.
Qed.

Lemma make_statusbar_eq st :
  make_statusbar st =
    (Ok (length (heap st) + 1)%nat,
     with_statustext (Some (length (heap st)))
       (with_heap (heap st ++ statusbar_objs (length (heap st))) st)).
Proof.
  destruct st as [cfg sc ctl tb mn sb stx s3 g3 a3 c3 ct3 r3 u h d cl].
  unfold make_statusbar. widget_ops. repeat step. reflexivity.
Qed.

Lemma make_view3d_eq st r :
  renderer3 st = Some r →
  make_view3d st =
    (Ok (length (heap st)),
     with_heap
       (heap st ++ [view3d_obj (Config.height (Config.view (config st))) r])
       st).
Proof.
  destruct st as [cfg sc ctl tb mn sb stx s3 g3 a3 c3 ct3 r3 u h d cl].
  simpl. intros ->.
  unfold make_view3d. widget_ops. repeat step. reflexivity.
Qed.

(** ** The sidebar *)

Lemma bind_deref {B} r (k : obj → M B) st o :
  heap st !! r = Some o → (deref r ≫= k) st = k o st.
Proof. intros H. by rewrite (bind_eq _ _ _ _ _ (deref_eq _ _ _ H)). Qed.

Lemma subscript_eq {A} cell (key : Config.Item → option A) st it v :
  heap st !! cell = Some (Cell (Some it)) → key it = Some v →
  subscript cell key st = (Ok v, st).
Proof.
  intros H Hk. unfold subscript. rewrite (bind_deref _ _ _ _ H). by rewrite Hk.
Qed.

Lemma last_cons_or {A} (x : A) l c :
  default c (Some <$> last (x :: l)) = default (Some x) (Some <$> last l).
Proof.
  destruct l as [|y l]; [done|].
  change (last (x :: y :: l)) with (last (y :: l)).
  destruct (last (y :: l)) eqn:E; [done|]. by apply last_None in E.
Qed.

Lemma checkboxes_cons cell it items :
  checkboxes cell (it :: items) =
    option_list (checkbox_of cell it) ++ checkboxes cell items.
Proof. unfold checkboxes. simpl. by destruct (checkbox_of cell it). Qed.

Lemma sidebar_body_eq it st h0 c L cbs :
  wf_item it →
  heap st = h0 ++ [Cell c; GridBox L []] ++ cbs →
  sidebar_body (length h0) it (seq (length h0 + 2) (length cbs)) st =
  (Ok (seq (length h0 + 2)
         (length (cbs ++ option_list (checkbox_of (length h0) it)))),
   with_heap
     (h0 ++ [Cell (Some it); GridBox L []] ++
            cbs ++ option_list (checkbox_of (length h0) it)) st).
Proof.
  intros [[ty Hty] Hcb] Hh.
  destruct st as [cfg sc ctl tb mn sb stx s3 g3 a3 c3 ct3 r3 u h d cl].
  simpl in Hh. subst h. unfold sidebar_body.
  unfold store. rewrite bind_modify. simpl.
  rewrite heap_insert_new0. simpl.
  erewrite bind_eq; last first.
  { eapply subscript_eq; [|exact Hty]. simpl.
    by rewrite heap_lookup_new0. }
  unfold checkbox_of, is_checkbox in *. rewrite Hty in *.
  destruct (String.eqb ty "checkbox") eqn:Hck.
  - destruct Hcb as [[v Hv] [t Ht]]; [done|]. rewrite Hv, Ht. simpl.
    erewrite bind_eq; last first.
    { eapply subscript_eq; [|exact Hv]. simpl.
      by rewrite heap_lookup_new0. }
    erewrite bind_eq; last first.
    { eapply subscript_eq; [|exact Ht]. simpl.
      by rewrite heap_lookup_new0. }
    rewrite bind_new. simpl.
    unfold observe.
    erewrite bind_assign;
      [|simpl; rewrite length_app; simpl; rewrite <- app_assoc;
        rewrite heap_lookup_new; simpl; rewrite (heap_lookup_new0 cbs);
        reflexivity
       |reflexivity].
    rewrite ret_eq. simpl.
    rewrite length_app. simpl.
    rewrite <- !app_assoc. rewrite heap_insert_new. simpl.
    rewrite heap_insert_new0. simpl.
    do 2 f_equal.
    rewrite length_app. simpl. rewrite seq_app. simpl.
    do 2 f_equal. lia.
  - simpl. rewrite ret_eq. by rewrite !app_nil_r.
Qed.

Lemma sidebar_loop items : ∀ st h0 c L cbs,
  Forall wf_item items →
  heap st = h0 ++ [Cell c; GridBox L []] ++ cbs →
  for_fold items (seq (length h0 + 2) (length cbs))
    (sidebar_body (length h0)) st =
  (Ok (seq (length h0 + 2)
         (length (cbs ++ checkboxes (length h0) items))),
   with_heap
     (h0 ++ [Cell (default c (Some <$> last items)); GridBox L []] ++
            cbs ++ checkboxes (length h0) items) st).
Proof.
  induction items as [|it items IH]; intros st h0 c L cbs Hwf Hh.
  - simpl. rewrite ret_eq. unfold checkboxes. simpl. rewrite !app_nil_r.
    simpl in Hh. rewrite <- Hh. by rewrite with_heap_id.
  - apply Forall_cons in Hwf as [Hit Hwf].
    simpl for_fold.
    erewrite bind_eq; last by apply (sidebar_body_eq it st h0 c L cbs).
    rewrite checkboxes_cons, last_cons_or.
    erewrite IH; [|done|reflexivity].
    by rewrite <- !app_assoc.
Qed.

Lemma make_sidebar_eq st :
  Forall wf_item (Config.items (Config.sidebar (Config.ui (config st)))) →
  make_sidebar st =
    (Ok (length (heap st) + 1)%nat,
     with_heap
       (heap st ++
        sidebar_objs (length (heap st))
          (Config.height (Config.view (config st)))
          (Config.items (Config.sidebar (Config.ui (config st))))) st).
Proof.
  destruct st as [cfg sc ctl tb mn sb stx s3 g3 a3 c3 ct3 r3 u h d cl].
  simpl. intros Hwf.
  unfold make_sidebar, set_layout, set_children. do 13 step.
  erewrite bind_eq; last first.
  { apply (sidebar_loop _ _ h None
             (sidebar_layout (Config.height (Config.view cfg))) []);
      [done|reflexivity]. }
  simpl. repeat step. unfold sidebar_objs. simpl.
  destruct (last _); reflexivity.
Qed.

(** ** The main row and the composed tree *)

(** A configuration whose sidebar, if shown, [make_sidebar] can read. *)
Lemma make_main_eq st r :
  renderer3 st = Some r →
  (Config.show (Config.sidebar (Config.ui (config st))) = true →
   Forall wf_item (Config.items (Config.sidebar (Config.ui (config st))))) →
  make_main st =
    (Ok (main_ref (length (heap st)) (config st)),
     with_heap (heap st ++ main_objs (length (heap st)) (config st) r) st).
Proof.
  destruct st as [cfg sc ctl tb mn sb stx s3 g3 a3 c3 ct3 r3 u h d cl].
  simpl. intros -> Hwf.
  unfold make_main, main_ref, main_objs, main_sidebar.
  rewrite bind_gets. simpl.
  destruct (Config.show (Config.sidebar (Config.ui cfg))).
  - rewrite bind_assoc.
    erewrite bind_eq; last by apply make_sidebar_eq, Hwf.
    simpl. step.
    erewrite bind_eq; last by apply make_view3d_eq.
    simpl. widget_ops. repeat step.
    do 2 f_equal. lia.
  - step.
    erewrite bind_eq; last by apply make_view3d_eq.
    simpl. widget_ops. repeat step.
    by rewrite !Nat.add_0_r.
Qed.

Lemma main_objs_length b cfg r :
  length (main_objs b cfg r) = (length (main_sidebar b cfg) + 2)%nat.
Proof. unfold main_objs. by rewrite length_app. Qed.

(** Equality of two states that differ in how their references are
    written. *)
Ltac ref_eq := first [ reflexivity | lia | (progress f_equal; ref_eq) ].

Lemma init_ui_eq st r :
  renderer3 st = Some r → wf_sidebar (config st) →
  init_ui st = (Ok tt, init_ui_state st r).
Proof.
  destruct st as [cfg sc ctl tb mn sb stx s3 g3 a3 c3 ct3 r3 u h d cl].
  unfold wf_sidebar. simpl. intros -> Hwf.
  unfold init_ui, init_ui_state, ui_objs, ui_children, ui_statusbar_ref,
    ui_statusbar_base, ui_main_ref, ui_main_base, ui_toolbar_ref, ui_height,
    ui_toolbar, ui_statusbar.
  widget_ops. repeat step.
  destruct (Config.show_toolbar (Config.ui cfg)),
           (Config.show_statusbar (Config.ui cfg)).
  - rewrite bind_assoc.
    erewrite bind_eq; last by apply make_toolbar_eq.
    simpl. do 3 step.
    erewrite bind_eq; last by apply make_main_eq.
    simpl. step. rewrite bind_assoc.
    erewrite bind_eq; last by apply make_statusbar_eq.
    simpl. repeat step.
    rewrite !main_objs_length. unfold main_ref.
    replace (length h + 1 + 5)%nat with (length h + 6)%nat by lia.
    ref_eq.
  - rewrite bind_assoc.
    erewrite bind_eq; last by apply make_toolbar_eq.
    simpl. do 3 step.
    erewrite bind_eq; last by apply make_main_eq.
    simpl. repeat step.
    rewrite ?main_objs_length. unfold main_ref.
    replace (length h + 1 + 5)%nat with (length h + 6)%nat by lia.
    rewrite ?app_nil_r. ref_eq.
  - step.
    erewrite bind_eq; last by apply make_main_eq.
    simpl. step. rewrite bind_assoc.
    erewrite bind_eq; last by apply make_statusbar_eq.
    simpl. repeat step.
    rewrite !main_objs_length. unfold main_ref.
    replace (length h + 1 + 0)%nat with (length h + 1)%nat by lia.
    ref_eq.
  - step.
    erewrite bind_eq; last by apply make_main_eq.
    simpl. repeat step.
    rewrite ?main_objs_length. unfold main_ref.
    replace (length h + 1 + 0)%nat with (length h + 1)%nat by lia.
    rewrite ?app_nil_r. ref_eq.
Qed.

(** ** WebGL initialisation *)

Lemma bind_raise {A B} e (k : A → M B) st :
  (raise e ≫= k) st = (Raise e, st).
Proof. done. Qed.

Lemma viewport_kind_top v :
  viewport_kind v = Some Top ↔ v = "top".
Proof.
  unfold viewport_kind. destruct (String.eqb_spec v "top") as [->|Hne].
  - done.
  - split; [|done]. by destruct (String.eqb v "perspective").
Qed.

Lemma viewport_kind_perspective v :
  viewport_kind v = Some Perspective ↔ v = "perspective".
Proof.
  unfold viewport_kind. destruct (String.eqb_spec v "top") as [->|Hne].
  - done.
  - destruct (String.eqb_spec v "perspective") as [->|Hne']; [done|].
    split; [done|]. tauto.
Qed.

Lemma viewport_kind_None v :
  viewport_kind v = None ↔ v ≠ "top" ∧ v ≠ "perspective".
Proof.
  unfold viewport_kind. destruct (String.eqb_spec v "top") as [->|Hne].
  - split; [done|]. by intros [? _].
  - destruct (String.eqb_spec v "perspective") as [->|Hne'].
    + split; [done|]. by intros [_ ?].
    + done.
Qed.

Ltac webgl_ops :=
  unfold rotateX, lookAt, set_position, set_zoom, set_up, set_aspect,
    set_near, set_far, set_fov, set_enableRotate, set_maxDistance,
    set_minDistance, Object3D_add.

Lemma init_webgl_zero st :
  Config.height (Config.view (config st)) = 0 →
  init_webgl st = (Raise ZeroDivisionError, st).
Proof.
  intros H. unfold init_webgl. rewrite bind_gets. unfold truediv.
  by rewrite bool_decide_eq_true_2.
Qed.

Lemma init_webgl_eq st kind :
  Config.height (Config.view (config st)) ≠ 0 →
  viewport_kind (Config.viewport (Config.view (config st))) = Some kind →
  init_webgl st = (Ok tt, init_webgl_state st kind).
Proof.
  destruct st as [cfg sc ctl tb mn sb stx s3 g3 a3 c3 ct3 r3 u h d cl].
  simpl. intros Hh Hk.
  unfold init_webgl, init_webgl_state, webgl_objs, scene3_objs, camera_obj,
    controls_obj, helper_children.
  unfold camera_ref, axes_ref, grid_ref, grid_objs, axes_objs.
  rewrite bind_gets. simpl. unfold truediv.
  rewrite bool_decide_eq_false_2 by done. unfold viewport_kind in Hk.
  webgl_ops. unfold when. rewrite bind_ret.
  destruct (Config.show_grid (Config.view cfg)),
           (Config.show_axes (Config.view cfg)),
           (String.eqb (Config.viewport (Config.view cfg)) "top");
    [injection Hk as <-| |injection Hk as <-| |injection Hk as <-|
    |injection Hk as <-| ];
    try (destruct (String.eqb (Config.viewport (Config.view cfg))
                     "perspective"); [injection Hk as <-|done]);
    repeat step; unfold modify; simpl; ref_eq.
Qed.

Lemma init_webgl_other st :
  Config.height (Config.view (config st)) ≠ 0 →
  viewport_kind (Config.viewport (Config.view (config st))) = None →
  init_webgl st = (Raise NotImplementedError, scene3_state st).
Proof.
  destruct st as [cfg sc ctl tb mn sb stx s3 g3 a3 c3 ct3 r3 u h d cl].
  simpl. intros Hh Hk.
  unfold init_webgl, scene3_state, scene3_objs, helper_children.
  unfold axes_ref, grid_ref, grid_objs, axes_objs.
  rewrite bind_gets. simpl. unfold truediv.
  rewrite bool_decide_eq_false_2 by done. unfold viewport_kind in Hk.
  webgl_ops. unfold when. rewrite bind_ret.
  destruct (String.eqb (Config.viewport (Config.view cfg)) "top"); [done|].
  destruct (String.eqb (Config.viewport (Config.view cfg)) "perspective");
    [done|].
  destruct (Config.show_grid (Config.view cfg)),
           (Config.show_axes (Config.view cfg));
    repeat step; rewrite bind_raise; ref_eq.
Qed.

(** ** [show] *)

Section Show.
Variable Scene_draw : Scene → Scene.

Lemma show_eq st kind :
  wf_config (config st) →
  viewport_kind (Config.viewport (Config.view (config st))) = Some kind →
  show Scene_draw st = (Ok tt, show_state Scene_draw st kind).
Proof.
  intros [Hh Hwf] Hk. unfold show.
  erewrite bind_eq; last by apply init_webgl_eq.
  erewrite bind_eq; last first.
  { apply init_ui_eq; [reflexivity|exact Hwf]. }
  rewrite bind_modify, bind_gets.
  change (λ o3 : guid, s3 ← getattr scene3; Object3D_add s3 (Ext o3))
    with add_handle.
  erewrite bind_eq; last first.
  { apply (add_objects_eq (length (heap st))
             (Config.background (Config.view (config st))) _ _
             (helper_children (length (heap st))
                (Config.view (config st)))).
    - reflexivity.
    - simpl. unfold webgl_objs, scene3_objs. rewrite <- !app_assoc.
      rewrite heap_lookup_new0. simpl. by rewrite app_nil_r. }
  erewrite bind_getattr; [|reflexivity].
  unfold show_state, handles. reflexivity.
Qed.
End Show.

(** ** Properties of [show] *)

Lemma scene3_objs_scene_graph b view more :
  Forall scene_graph_obj (scene3_objs b view more).
Proof.
  unfold scene3_objs, grid_objs, axes_objs.
  destruct (Config.show_grid view), (Config.show_axes view);
    repeat constructor.
Qed.

(** [show] with a zero height fails on the aspect ratio, whatever the
    viewport. *)
Lemma show_zero_height (Scene_draw : Scene → Scene) st :
  Config.height (Config.view (config st)) = 0 →
  show Scene_draw st = (Raise ZeroDivisionError, st).
Proof.
  intros H. unfold show. erewrite bind_Raise; [done|].
  by apply init_webgl_zero.
Qed.

(** C3 (as the specification states it, refuted): with the viewport
    "front", which is not supported, and a height of 0, [show] raises
    [ZeroDivisionError], not [NotImplementedError]: the aspect ratio is
    computed before the viewport is looked at. *)
Lemma show_unsupported_viewport_counterexample :
  Config.viewport (Config.view (config ex_front_flat_viewer)) ≠ "top" ∧
  Config.viewport (Config.view (config ex_front_flat_viewer))
    ≠ "perspective" ∧
  show ex_draw ex_front_flat_viewer =
    (Raise ZeroDivisionError, ex_front_flat_viewer) ∧
  (show ex_draw ex_front_flat_viewer).1 ≠ Raise NotImplementedError.
Proof.
  split; [simpl; discriminate|]. split; [simpl; discriminate|].
  split; [vm_compute; reflexivity|]. vm_compute. discriminate.
Qed.

(** C3 (amended): with a viewport other than "top" and "perspective" and a
    height other than 0 (so that the aspect ratio exists), [show] raises
    NotImplementedError in the camera setup of [init_webgl].  At that point
    only the scene graph and its helpers have been constructed: there is no
    camera, no controls, no renderer and no UI widget, the scene has not
    been drawn, nothing has been displayed, and the attributes [camera3],
    [controls3], [renderer3], [ui], [toolbar], [main] and [statusbar] are
    as before the call. *)
Theorem show_unsupported_viewport (Scene_draw : Scene → Scene) (st : State) :
  Config.viewport (Config.view (config st)) ≠ "top" →
  Config.viewport (Config.view (config st)) ≠ "perspective" →
  Config.height (Config.view (config st)) ≠ 0 →
  ∃ st',
    show Scene_draw st = (Raise NotImplementedError, st') ∧
    camera3 st' = camera3 st ∧ controls3 st' = controls3 st ∧
    renderer3 st' = renderer3 st ∧
    ui st' = ui st ∧ toolbar st' = toolbar st ∧ main st' = main st ∧
    statusbar st' = statusbar st ∧
    scene st' = scene st ∧ displayed st' = displayed st ∧
    take (length (heap st)) (heap st') = heap st ∧
    Forall scene_graph_obj (drop (length (heap st)) (heap st')).
Proof.
  intros Htop Hpersp Hh. exists (scene3_state st).
  split_and!; try reflexivity.
  - unfold show. erewrite bind_Raise; [done|].
    apply init_webgl_other; [done|]. by apply viewport_kind_None.
  - simpl. by rewrite take_app_length.
  - simpl. rewrite drop_app_length. apply scene3_objs_scene_graph.
Qed.

Lemma show_unsupported_viewport_witness :
  Config.viewport (Config.view (config (ex_viewer "front"))) ≠ "top" ∧
  Config.viewport (Config.view (config (ex_viewer "front"))) ≠ "perspective" ∧
  Config.height (Config.view (config (ex_viewer "front"))) ≠ 0 ∧
  ∃ st',
    show ex_draw (ex_viewer "front") = (Raise NotImplementedError, st') ∧
    camera3 st' = camera3 (ex_viewer "front") ∧
    controls3 st' = controls3 (ex_viewer "front") ∧
    renderer3 st' = renderer3 (ex_viewer "front") ∧
    ui st' = ui (ex_viewer "front") ∧
    toolbar st' = toolbar (ex_viewer "front") ∧
    main st' = main (ex_viewer "front") ∧
    statusbar st' = statusbar (ex_viewer "front") ∧
    scene st' = scene (ex_viewer "front") ∧
    displayed st' = displayed (ex_viewer "front") ∧
    take (length (heap (ex_viewer "front"))) (heap st') =
      heap (ex_viewer "front") ∧
    Forall scene_graph_obj
      (drop (length (heap (ex_viewer "front"))) (heap st')).
Proof.
  assert (Config.viewport (Config.view (config (ex_viewer "front"))) ≠ "top")
    as H1 by (simpl; discriminate).
  assert (Config.viewport (Config.view (config (ex_viewer "front")))
          ≠ "perspective") as H2 by (simpl; discriminate).
  assert (Config.height (Config.view (config (ex_viewer "front"))) ≠ 0)
    as H3 by (simpl; lia).
  split_and!; [exact H1|exact H2|exact H3|].
  exact (show_unsupported_viewport ex_draw (ex_viewer "front") H1 H2 H3).
Defined.

(** ** The composed widget tree *)

Lemma ui_objs_root h cfg r :
  (h ++ ui_objs (length h) cfg r) !! length h =
    Some (VBox [("width", "auto"); ("height", px (ui_height cfg))]
            (ui_children (length h) cfg)).
Proof. by rewrite heap_lookup_new0. Qed.

Lemma ui_objs_toolbar h cfg r :
  Config.show_toolbar (Config.ui cfg) = true →
  (h ++ ui_objs (length h) cfg r) !! ui_toolbar_ref (length h) =
    toolbar_objs (length h + 1)%nat !! 4%nat.
Proof.
  intros Ht. unfold ui_objs, ui_toolbar, ui_toolbar_ref. rewrite Ht.
  by rewrite heap_lookup_new.
Qed.

Lemma ui_objs_main h cfg r k :
  (k < length (main_objs (ui_main_base (length h) cfg) cfg r))%nat →
  (h ++ ui_objs (length h) cfg r) !! (ui_main_base (length h) cfg + k)%nat =
    main_objs (ui_main_base (length h) cfg) cfg r !! k.
Proof.
  intros Hk. unfold ui_objs. unfold ui_main_base at 1.
  rewrite <- !Nat.add_assoc, heap_lookup_new. simpl.
  rewrite lookup_app_r by lia. rewrite lookup_app_l by lia.
  f_equal. lia.
Qed.

Lemma main_objs_main b cfg r :
  main_objs b cfg r !! (length (main_sidebar b cfg) + 1)%nat =
    Some (HBox [("width", "auto");
                ("height", px (Config.height (Config.view cfg) + 4))]
            ((if Config.show (Config.sidebar (Config.ui cfg))
              then [b + 1] else []) ++
             [b + length (main_sidebar b cfg)])%nat).
Proof. unfold main_objs. by rewrite heap_lookup_new. Qed.

Lemma main_objs_view3d b cfg r :
  main_objs b cfg r !! length (main_sidebar b cfg) =
    Some (view3d_obj (Config.height (Config.view cfg)) r).
Proof. unfold main_objs. by rewrite heap_lookup_new0. Qed.

Lemma main_objs_sidebar b cfg r :
  Config.show (Config.sidebar (Config.ui cfg)) = true →
  main_objs b cfg r !! 1%nat =
    Some (GridBox (sidebar_layout (Config.height (Config.view cfg)))
            (seq (b + 2)
               (length (checkboxes b
                  (Config.items (Config.sidebar (Config.ui cfg))))))).
Proof. intros Hs. unfold main_objs, main_sidebar. by rewrite Hs. Qed.

Lemma ui_objs_statusbar h cfg r :
  Config.show_statusbar (Config.ui cfg) = true →
  (h ++ ui_objs (length h) cfg r) !! ui_statusbar_base (length h) cfg =
    statusbar_objs (ui_statusbar_base (length h) cfg) !! 0%nat ∧
  (h ++ ui_objs (length h) cfg r) !! ui_statusbar_ref (length h) cfg =
    statusbar_objs (ui_statusbar_base (length h) cfg) !! 1%nat.
Proof.
  intros Hs.
  assert (∀ k, (h ++ ui_objs (length h) cfg r)
               !! (ui_statusbar_base (length h) cfg + k)%nat =
               statusbar_objs (ui_statusbar_base (length h) cfg) !! k) as H.
  { intros k. unfold ui_objs, ui_statusbar. rewrite Hs.
    unfold ui_statusbar_base at 1. unfold ui_main_ref, main_ref, ui_main_base.
    rewrite <- !Nat.add_assoc, heap_lookup_new. simpl.
    rewrite lookup_app_r by lia. rewrite lookup_app_r.
    - f_equal. rewrite main_objs_length. lia.
    - rewrite main_objs_length. lia. }
  split.
  - rewrite <- (H 0%nat). f_equal. lia.
  - apply H.
Qed.

(** C6: [init_ui] composes the widget tree.  The root container declares
    the height of the 3D viewport, plus 64 iff the toolbar is enabled, plus
    48 iff the status bar is enabled, plus 4 (the sidebar flag plays no
    part); its children are the toolbar iff [show_toolbar], the main row,
    and the status bar iff [show_statusbar], in that order; the children of
    the main row are the sidebar iff [sidebar.show], and the 3D view. *)
Theorem init_ui_tree (st : State) (r : ref) :
  renderer3 st = Some r → wf_sidebar (config st) →
  let cfg := config st in
  let height := Config.height (Config.view cfg) in
  ∃ st' root m v (side : list ref),
    init_ui st = (Ok tt, st') ∧
    ui st' = Some root ∧ main st' = Some m ∧
    heap st' !! root =
      Some (VBox
              [("width", "auto");
               ("height",
                px (height
                    + (if Config.show_toolbar (Config.ui cfg) then 64 else 0)
                    + (if Config.show_statusbar (Config.ui cfg) then 48 else 0)
                    + 4))]
              ((if Config.show_toolbar (Config.ui cfg)
                then option_list (toolbar st') else []) ++
               [m] ++
               (if Config.show_statusbar (Config.ui cfg)
                then option_list (statusbar st') else []))) ∧
    (Config.show_toolbar (Config.ui cfg) = true →
     ∃ t, toolbar st' = Some t ∧ (length (heap st) ≤ t)%nat ∧
          heap st' !! t = toolbar_objs (t - 4)%nat !! 4%nat) ∧
    (Config.show_statusbar (Config.ui cfg) = true →
     ∃ s, statusbar st' = Some s ∧ (length (heap st) ≤ s)%nat ∧
          heap st' !! s = statusbar_objs (s - 1)%nat !! 1%nat) ∧
    heap st' !! m =
      Some (HBox [("width", "auto"); ("height", px (height + 4))]
              (side ++ [v])) ∧
    heap st' !! v = Some (view3d_obj height r) ∧
    (Config.show (Config.sidebar (Config.ui cfg)) = false → side = []) ∧
    (Config.show (Config.sidebar (Config.ui cfg)) = true →
     ∃ s cbs, side = [s] ∧
              heap st' !! s = Some (GridBox (sidebar_layout height) cbs)).
Proof.
  intros Hr Hwf cfg height.
  pose (b := length (heap st)).
  exists (init_ui_state st r), b, (ui_main_ref b cfg),
    (ui_main_base b cfg + length (main_sidebar (ui_main_base b cfg) cfg))%nat,
    (if Config.show (Config.sidebar (Config.ui cfg))
     then [ui_main_base b cfg + 1]%nat else []).
  subst b cfg height.
  split; [by apply init_ui_eq|].
  split; [done|]. split; [done|].
  set (b := length (heap st)). set (cfg := config st).
  assert (∀ k, (k < length (main_sidebar (ui_main_base b cfg) cfg) + 2)%nat →
               heap (init_ui_state st r) !! (ui_main_base b cfg + k)%nat =
               main_objs (ui_main_base b cfg) cfg r !! k) as Hmain.
  { intros k Hk. apply ui_objs_main. by rewrite main_objs_length. }
  assert (heap (init_ui_state st r) = heap st ++ ui_objs b cfg r) as Hheap
    by reflexivity.
  assert (toolbar (init_ui_state st r) =
          if Config.show_toolbar (Config.ui cfg)
          then Some (ui_toolbar_ref b) else toolbar st) as Htb
    by reflexivity.
  assert (statusbar (init_ui_state st r) =
          if Config.show_statusbar (Config.ui cfg)
          then Some (ui_statusbar_ref b cfg) else statusbar st) as Hsb
    by reflexivity.
  split_and!.
  - rewrite Hheap, Htb, Hsb. unfold b. rewrite ui_objs_root.
    unfold ui_children, ui_height. fold b.
    destruct (Config.show_toolbar (Config.ui cfg)),
             (Config.show_statusbar (Config.ui cfg)); reflexivity.
  - intros Ht. exists (ui_toolbar_ref b). rewrite Htb, Ht.
    split; [done|]. split; [unfold ui_toolbar_ref; lia|].
    rewrite Hheap. unfold b. rewrite ui_objs_toolbar by done.
    unfold ui_toolbar_ref. do 2 f_equal. lia.
  - intros Hs. exists (ui_statusbar_ref b cfg). rewrite Hsb, Hs.
    split; [done|].
    split; [unfold ui_statusbar_ref, ui_statusbar_base, ui_main_ref,
              main_ref, ui_main_base; lia|].
    rewrite Hheap. unfold b. rewrite (proj2 (ui_objs_statusbar _ _ _ Hs)).
    unfold ui_statusbar_ref. do 2 f_equal. lia.
  - unfold ui_main_ref, main_ref. rewrite <- Nat.add_assoc.
    rewrite Hmain by lia. rewrite main_objs_main.
    by destruct (Config.show (Config.sidebar (Config.ui cfg))).
  - rewrite Hmain by lia. apply main_objs_view3d.
  - by intros ->.
  - intros Hs. rewrite Hs. eexists _, _. split; [done|].
    rewrite Hmain.
    + by apply main_objs_sidebar.
    + unfold main_sidebar. rewrite Hs. unfold sidebar_objs. simpl. lia.
Qed.

Lemma ex_items_wf : Forall wf_item [ex_grid_item; ex_axes_item].
Proof.
  repeat constructor; simpl; eauto.
Defined.

Lemma ex_wf_sidebar viewport : wf_sidebar (ex_config viewport).
Proof. intros _. exact ex_items_wf. Defined.

Lemma init_ui_tree_witness :
  renderer3 ex_webgl = Some 5%nat ∧ wf_sidebar (config ex_webgl) ∧
  let cfg := config ex_webgl in
  let height := Config.height (Config.view cfg) in
  ∃ st' root m v (side : list ref),
    init_ui ex_webgl = (Ok tt, st') ∧
    ui st' = Some root ∧ main st' = Some m ∧
    heap st' !! root =
      Some (VBox
              [("width", "auto");
               ("height",
                px (height
                    + (if Config.show_toolbar (Config.ui cfg) then 64 else 0)
                    + (if Config.show_statusbar (Config.ui cfg) then 48 else 0)
                    + 4))]
              ((if Config.show_toolbar (Config.ui cfg)
                then option_list (toolbar st') else []) ++
               [m] ++
               (if Config.show_statusbar (Config.ui cfg)
                then option_list (statusbar st') else []))) ∧
    (Config.show_toolbar (Config.ui cfg) = true →
     ∃ t, toolbar st' = Some t ∧ (length (heap ex_webgl) ≤ t)%nat ∧
          heap st' !! t = toolbar_objs (t - 4)%nat !! 4%nat) ∧
    (Config.show_statusbar (Config.ui cfg) = true →
     ∃ s, statusbar st' = Some s ∧ (length (heap ex_webgl) ≤ s)%nat ∧
          heap st' !! s = statusbar_objs (s - 1)%nat !! 1%nat) ∧
    heap st' !! m =
      Some (HBox [("width", "auto"); ("height", px (height + 4))]
              (side ++ [v])) ∧
    heap st' !! v = Some (view3d_obj height 5%nat) ∧
    (Config.show (Config.sidebar (Config.ui cfg)) = false → side = []) ∧
    (Config.show (Config.sidebar (Config.ui cfg)) = true →
     ∃ s cbs, side = [s] ∧
              heap st' !! s = Some (GridBox (sidebar_layout height) cbs)).
Proof.
  assert (renderer3 ex_webgl = Some 5%nat) as H1 by (vm_compute; reflexivity).
  assert (wf_sidebar (config ex_webgl)) as H2
    by exact (ex_wf_sidebar "perspective").
  split; [exact H1|]. split; [exact H2|].
  exact (init_ui_tree ex_webgl 5%nat H1 H2).
Defined.

Example init_ui_height_example :
  ∃ kids, heap (init_ui ex_webgl).2 !! 6%nat =
    Some (VBox [("width", "auto"); ("height", "616px")] kids).
Proof. eexists. vm_compute. reflexivity. Qed.

(** ** The status text *)

Lemma set_statustext_None text st :
  statustext st = None → set_statustext text st = (Ok tt, st).
Proof. intros H. unfold set_statustext. rewrite bind_gets. by rewrite H. Qed.

Lemma set_statustext_Some text st r v p d dis l sty :
  statustext st = Some r → heap st !! r = Some (Text v p d dis l sty) →
  set_statustext text st =
    (Ok tt, with_heap (<[r := Text text p d dis l sty]> (heap st)) st).
Proof.
  intros H Hr. unfold set_statustext. rewrite bind_gets, H.
  unfold set_value. by erewrite assign_eq.
Qed.

(** C8: [set_statustext text], for every string [text].
    - When the viewer has no status text widget, the call changes nothing.
    - When it has one, the call sets the value of that widget to [text] and
      changes nothing else.
    - Building the UI with the status bar enabled creates the status text
      widget (so that the call sets its value); building it with the status
      bar disabled on a viewer without a status text widget, as the
      constructor leaves it, creates none (so that the call is a no-op). *)
Theorem set_statustext_spec (text : string) :
  (∀ st, statustext st = None → set_statustext text st = (Ok tt, st)) ∧
  (∀ st r v p d dis l sty,
     statustext st = Some r → heap st !! r = Some (Text v p d dis l sty) →
     set_statustext text st =
       (Ok tt, with_heap (<[r := Text text p d dis l sty]> (heap st)) st)) ∧
  (∀ st r,
     renderer3 st = Some r → wf_sidebar (config st) →
     Config.show_statusbar (Config.ui (config st)) = true →
     ∃ st' t p d dis l sty,
       init_ui st = (Ok tt, st') ∧ statustext st' = Some t ∧
       heap st' !! t = Some (Text "" p d dis l sty) ∧
       (set_statustext text st').1 = Ok tt ∧
       heap (set_statustext text st').2 !! t =
         Some (Text text p d dis l sty)) ∧
  (∀ st r,
     renderer3 st = Some r → wf_sidebar (config st) →
     Config.show_statusbar (Config.ui (config st)) = false →
     statustext st = None →
     ∃ st', init_ui st = (Ok tt, st') ∧
            set_statustext text st' = (Ok tt, st')).
Proof.
  split_and!.
  - intros st. apply set_statustext_None.
  - intros st r v p d dis l sty. apply set_statustext_Some.
  - intros st r Hr Hwf Hs.
    pose proof (ui_objs_statusbar (heap st) (config st) r Hs) as [Ht _].
    eexists (init_ui_state st r), (ui_statusbar_base (length (heap st))
                                     (config st)), _, _, _, _, _.
    assert (statustext (init_ui_state st r) =
            Some (ui_statusbar_base (length (heap st)) (config st))) as Hst.
    { simpl. by rewrite Hs. }
    assert (heap (init_ui_state st r) !!
              ui_statusbar_base (length (heap st)) (config st) =
            statusbar_objs (ui_statusbar_base (length (heap st)) (config st))
              !! 0%nat) as Hlk by exact Ht.
    split; [by apply init_ui_eq|]. split; [exact Hst|].
    split; [exact Hlk|].
    erewrite set_statustext_Some; [|exact Hst|exact Hlk].
    split; [done|]. simpl heap at 1. simpl snd.
    apply list_lookup_insert_eq. eapply lookup_lt_Some. exact Hlk.
  - intros st r Hr Hwf Hs Hnone. exists (init_ui_state st r).
    split; [by apply init_ui_eq|].
    apply set_statustext_None. simpl. by rewrite Hs.
Qed.

Lemma set_statustext_spec_witness :
  set_statustext "hello" ex_plain_shown = (Ok tt, ex_plain_shown) ∧
  set_statustext "hello" ex_shown =
    (Ok tt,
     with_heap
       (<[18%nat :=
            Text "hello" "..." "" true
              [("width", "100%"); ("height", "32px");
               ("padding", "0px 0px 0px 0px");
               ("margin", "0px 0px 0px 0px")]
              [("background", "#eeeeee")]]> (heap ex_shown)) ex_shown).
Proof.
  split.
  - apply (proj1 (set_statustext_spec "hello") ex_plain_shown).
    vm_compute. reflexivity.
  - apply (proj1 (proj2 (set_statustext_spec "hello")) ex_shown 18%nat "").
    + vm_compute. reflexivity.
    + vm_compute. reflexivity.
Defined.

(** ** The camera *)

Lemma vec_or_default (x : option vec) d :
  (∀ v, x = Some v → v ≠ []) → vec_or x d = default d x.
Proof.
  intros H. destruct x as [v|]; [|done]. unfold vec_or. simpl.
  destruct v; [|done]. by destruct (H [] eq_refl).
Qed.

Lemma num_or_default (x : option num) d :
  (∀ v, x = Some v → v ≠ 0%Qc) → num_or x d = default d x.
Proof.
  intros H. destruct x as [v|]; [|done]. unfold num_or, num_truthy. simpl.
  rewrite bool_decide_eq_true_2; [done|]. by apply H.
Qed.

(** [x or d] takes the fallback also for a parameter set to zero or to an
    empty vector. *)
Lemma num_or_zero d : num_or (Some 0%Qc) d = d.
Proof. done. Qed.

Lemma vec_or_nil d : vec_or (Some []) d = d.
Proof. done. Qed.

Lemma scene3_objs_length b view more :
  length (scene3_objs b view more) =
    (1 + length (grid_objs view) + length (axes_objs view))%nat.
Proof. unfold scene3_objs. simpl. rewrite length_app. lia. Qed.

Lemma webgl_objs_length b view kind more :
  length (webgl_objs b view kind more) =
    (length (scene3_objs b view more) + 3)%nat.
Proof. unfold webgl_objs. by rewrite length_app. Qed.

Section Camera.
Variable Scene_draw : Scene → Scene.

(** The objects of [init_webgl] other than the scene graph, in the state
    that [show] leaves. *)
Lemma show_state_webgl st kind k :
  (k < 3)%nat →
  heap (show_state Scene_draw st kind)
    !! (camera_ref (length (heap st)) (Config.view (config st)) + k)%nat =
  drop (length (scene3_objs (length (heap st)) (Config.view (config st)) []))
    (webgl_objs (length (heap st)) (Config.view (config st)) kind []) !! k.
Proof.
  intros Hk. unfold show_state, put_children, init_ui_state, init_webgl_state.
  cbn [heap with_heap with_displayed with_scene config].
  pose proof (scene3_objs_length (length (heap st))
                (Config.view (config st)) []) as Hlen.
  pose proof (webgl_objs_length (length (heap st))
                (Config.view (config st)) kind []) as Hlen'.
  unfold camera_ref.
  rewrite list_lookup_insert_ne by lia.
  rewrite lookup_app_l by (rewrite length_app; lia).
  rewrite lookup_app_r by lia. rewrite lookup_drop. f_equal. lia.
Qed.
End Camera.

Lemma show_state_camera (Scene_draw : Scene → Scene) st kind :
  heap (show_state Scene_draw st kind)
    !! camera_ref (length (heap st)) (Config.view (config st)) =
    Some (camera_obj kind (Config.view (config st))) ∧
  heap (show_state Scene_draw st kind)
    !! (camera_ref (length (heap st)) (Config.view (config st)) + 1)%nat =
    Some (controls_obj kind
            (camera_ref (length (heap st)) (Config.view (config st)))).
Proof.
  split.
  - rewrite <- (Nat.add_0_r (camera_ref _ _)).
    rewrite show_state_webgl by lia. unfold webgl_objs.
    by rewrite drop_app_length.
  - rewrite show_state_webgl by lia. unfold webgl_objs.
    by rewrite drop_app_length.
Qed.

Lemma ex_wf_config viewport : wf_config (ex_config viewport).
Proof.
  split; [simpl; discriminate|]. exact (ex_wf_sidebar viewport).
Defined.

Lemma ex_falsy_wf_config : wf_config (config ex_falsy_viewer).
Proof.
  split; [simpl; discriminate|]. intros _. exact ex_items_wf.
Defined.

(** C7 (as the specification states it, refuted): the configuration of the
    example sets the near plane to 0 and the position to the empty vector.
    [show] returns, but the perspective camera has neither: its near plane
    and its position are not the configured values, although they are set.
    The parameters are read with [or], which takes the fallback for every
    value that Python takes for false, not only for a parameter that is not
    set. *)
Lemma camera_setup_counterexample :
  Config.near (Config.camera (Config.view (config ex_falsy_viewer))) =
    Some 0%Qc ∧
  Config.position (Config.camera (Config.view (config ex_falsy_viewer))) =
    Some [] ∧
  ∃ st' c p u a n f fv ex,
    show ex_draw ex_falsy_viewer = (Ok tt, st') ∧ camera3 st' = Some c ∧
    heap st' !! c = Some (PerspectiveCamera p u a n f fv ex) ∧
    n ≠ default (lit (1 # 10))
          (Config.near (Config.camera (Config.view (config ex_falsy_viewer)))) ∧
    p ≠ default [of_int 0; of_int (-10); of_int 5]
          (Config.position
             (Config.camera (Config.view (config ex_falsy_viewer)))).
Proof.
  split; [reflexivity|]. split; [reflexivity|].
  destruct (show_state_camera ex_draw ex_falsy_viewer Perspective)
    as [Hcam _].
  eexists (show_state ex_draw ex_falsy_viewer Perspective),
    _, _, _, _, _, _, _, _.
  split; [by apply show_eq; [exact ex_falsy_wf_config|]|].
  split; [reflexivity|]. split; [exact Hcam|].
  split; [|discriminate].
  simpl. intros H. apply (f_equal Qcanon.this) in H. discriminate H.
Qed.

(** C7 (amended): the camera setup is a two-way choice on the viewport.
    For a configuration with which [show] can run (a height other than
    zero, a sidebar that can be read):
    - "top": [show] returns; the camera is orthographic; its orbit
      controls have rotation disabled and the distance bounded to
      [0.1, 1000];
    - "perspective": [show] returns; the camera is a perspective camera; each
      of its position, up, near, far, fov and target is the configured
      value if that is set and is a value that Python takes for true (a
      number other than 0, a vector that is not empty), and otherwise the
      fallback [0, -10, 5], [0, 0, 1], 0.1, 1000, 50 or [0, 0, 0]; its orbit
      controls keep rotation enabled, with the same bounds. *)
Theorem camera_setup (Scene_draw : Scene → Scene) (st : State) :
  wf_config (config st) →
  let view := Config.view (config st) in
  let cam := Config.camera view in
  let width := Config.width view in
  let height := Config.height view in
  (Config.viewport view = "top" →
   ∃ st' c k,
     show Scene_draw st = (Ok tt, st') ∧
     camera3 st' = Some c ∧ controls3 st' = Some k ∧
     heap st' !! c =
       Some (OrthographicCamera
               (of_int width / of_int (-2))%Qc (of_int width / of_int 2)%Qc
               (of_int height / of_int 2)%Qc (of_int height / of_int (-2))%Qc
               (lit (1 # 10)) (of_int 10000)
               (match Config.position cam with
                | Some (x :: v) => x :: v
                | _ => [of_int 0; of_int 0; of_int 1]
                end)
               (of_int 1)) ∧
     heap st' !! k =
       Some (OrbitControls c false (Some (of_int 1000)) (Some (lit (1 # 10))))) ∧
  (Config.viewport view = "perspective" →
   ∃ st' c k a,
     show Scene_draw st = (Ok tt, st') ∧
     camera3 st' = Some c ∧ controls3 st' = Some k ∧
     heap st' !! c =
       Some (PerspectiveCamera
               (match Config.position cam with
                | Some (x :: v) => x :: v
                | _ => [of_int 0; of_int (-10); of_int 5]
                end)
               (match Config.up cam with
                | Some (x :: v) => x :: v
                | _ => [of_int 0; of_int 0; of_int 1]
                end)
               a
               (match Config.near cam with
                | Some x => if decide (x = 0%Qc) then lit (1 # 10) else x
                | None => lit (1 # 10)
                end)
               (match Config.far cam with
                | Some x => if decide (x = 0%Qc) then of_int 1000 else x
                | None => of_int 1000
                end)
               (match Config.fov cam with
                | Some x => if decide (x = 0%Qc) then of_int 50 else x
                | None => of_int 50
                end)
               [("lookAt",
                 match Config.target cam with
                 | Some (x :: v) => x :: v
                 | _ => [of_int 0; of_int 0; of_int 0]
                 end)]) ∧
     heap st' !! k =
       Some (OrbitControls c true (Some (of_int 1000)) (Some (lit (1 # 10))))).
Proof.
  intros Hwf view cam width height.
  assert (∀ x d, num_or x d =
                 match x with
                 | Some x => if decide (x = 0%Qc) then d else x
                 | None => d
                 end) as Hnum.
  { intros [x|] d; [|done]. unfold num_or, num_truthy.
    destruct (decide (x = 0%Qc)) as [->|Hx].
    - by rewrite bool_decide_eq_false_2 by (intros H; by apply H).
    - by rewrite bool_decide_eq_true_2. }
  assert (∀ x d, vec_or x d =
                 match x with Some (y :: v) => y :: v | _ => d end) as Hvec.
  { by intros [[|y v]|] d. }
  subst view cam width height. split.
  - intros Hv%viewport_kind_top.
    exists (show_state Scene_draw st Top),
      (camera_ref (length (heap st)) (Config.view (config st))),
      (camera_ref (length (heap st)) (Config.view (config st)) + 1)%nat.
    split; [by apply show_eq|]. split; [done|]. split; [done|].
    destruct (show_state_camera Scene_draw st Top) as [Hc Hk].
    split; [|exact Hk].
    rewrite Hc. unfold camera_obj. by rewrite Hvec.
  - intros Hv%viewport_kind_perspective.
    exists (show_state Scene_draw st Perspective),
      (camera_ref (length (heap st)) (Config.view (config st))),
      (camera_ref (length (heap st)) (Config.view (config st)) + 1)%nat,
      (of_int (Config.width (Config.view (config st))) /
       of_int (Config.height (Config.view (config st))))%Qc.
    split; [by apply show_eq|]. split; [done|]. split; [done|].
    destruct (show_state_camera Scene_draw st Perspective) as [Hc Hk].
    split; [|exact Hk].
    rewrite Hc. unfold camera_obj. by rewrite !Hvec, !Hnum.
Qed.

Lemma camera_setup_witness :
  wf_config (config ex_falsy_viewer) ∧
  let view := Config.view (config ex_falsy_viewer) in
  let cam := Config.camera view in
  let width := Config.width view in
  let height := Config.height view in
  (Config.viewport view = "top" →
   ∃ st' c k,
     show ex_draw ex_falsy_viewer = (Ok tt, st') ∧
     camera3 st' = Some c ∧ controls3 st' = Some k ∧
     heap st' !! c =
       Some (OrthographicCamera
               (of_int width / of_int (-2))%Qc (of_int width / of_int 2)%Qc
               (of_int height / of_int 2)%Qc (of_int height / of_int (-2))%Qc
               (lit (1 # 10)) (of_int 10000)
               (match Config.position cam with
                | Some (x :: v) => x :: v
                | _ => [of_int 0; of_int 0; of_int 1]
                end)
               (of_int 1)) ∧
     heap st' !! k =
       Some (OrbitControls c false (Some (of_int 1000)) (Some (lit (1 # 10))))) ∧
  (Config.viewport view = "perspective" →
   ∃ st' c k a,
     show ex_draw ex_falsy_viewer = (Ok tt, st') ∧
     camera3 st' = Some c ∧ controls3 st' = Some k ∧
     heap st' !! c =
       Some (PerspectiveCamera
               (match Config.position cam with
                | Some (x :: v) => x :: v
                | _ => [of_int 0; of_int (-10); of_int 5]
                end)
               (match Config.up cam with
                | Some (x :: v) => x :: v
                | _ => [of_int 0; of_int 0; of_int 1]
                end)
               a
               (match Config.near cam with
                | Some x => if decide (x = 0%Qc) then lit (1 # 10) else x
                | None => lit (1 # 10)
                end)
               (match Config.far cam with
                | Some x => if decide (x = 0%Qc) then of_int 1000 else x
                | None => of_int 1000
                end)
               (match Config.fov cam with
                | Some x => if decide (x = 0%Qc) then of_int 50 else x
                | None => of_int 50
                end)
               [("lookAt",
                 match Config.target cam with
                 | Some (x :: v) => x :: v
                 | _ => [of_int 0; of_int 0; of_int 0]
                 end)]) ∧
     heap st' !! k =
       Some (OrbitControls c true (Some (of_int 1000)) (Some (lit (1 # 10))))).
Proof.
  split; [exact ex_falsy_wf_config|].
  exact (camera_setup ex_draw ex_falsy_viewer ex_falsy_wf_config).
Defined.

Example camera_top_example :
  heap (show ex_draw (ex_viewer "top")).2 !! 3%nat =
    Some (OrthographicCamera (of_int (-550)) (of_int 550) (of_int 250)
            (of_int (-250)) (lit (1 # 10)) (of_int 10000)
            [of_int 0; of_int 0; of_int 1] (of_int 1)).
Proof.
  vm_compute. do 2 f_equal; apply Qc_is_canon; reflexivity.
Qed.

(** ** The sidebar checkboxes and the controller *)

(** A change of a checkbox whose observer is the closure [action]: the
    controller method that is called is the one named by the item that the
    cell of the loop variable holds at the time of the change. *)
Lemma Checkbox_change_eq st r cell v v' d l it name :
  heap st !! r = Some (Checkbox v d l [action_closure cell]) →
  heap st !! cell = Some (Cell (Some it)) →
  Config.action it = Some name →
  name ∈ methods (controller st) →
  v' ≠ v →
  Checkbox_change r v' st =
    (Ok tt,
     with_calls
       (calls st ++
        [(name, Some {| change_name := "value"; change_old := v;
                        change_new := v'; change_owner := r;
                        change_type := "change" |})])
       (with_heap (<[r := Checkbox v' d l [action_closure cell]]> (heap st))
          st)).
Proof.
  intros Hr Hcell Hact Hin Hne. unfold Checkbox_change.
  rewrite (bind_deref _ _ _ _ Hr).
  rewrite bool_decide_eq_false_2 by done.
  unfold store. rewrite bind_modify. simpl for_each.
  unfold invoke.
  assert (r ≠ cell) as Hrc by (intros ->; congruence).
  rewrite bind_assoc.
  erewrite bind_eq; last first.
  { eapply subscript_eq; [|exact Hact].
    destruct st. simpl in *. by rewrite list_lookup_insert_ne. }
  unfold call_controller. rewrite bind_assoc, bind_gets.
  destruct st. simpl in *.
  rewrite bool_decide_eq_true_2 by done. reflexivity.
Qed.

(** Every checkbox that [make_sidebar] builds observes through the one
    cell of the loop variable, which holds the last item of the list when
    the loop has ended. *)
Lemma checkboxes_share_cell cell items :
  Forall (λ o, ∃ v t, o = Checkbox v t item_layout [action_closure cell])
    (checkboxes cell items).
Proof.
  unfold checkboxes. induction items as [|it items IH]; [constructor|].
  simpl. unfold checkbox_of at 1.
  destruct (is_checkbox it); [|exact IH].
  destruct (Config.value it) as [v|]; [|exact IH].
  destruct (Config.text it) as [t|]; [|exact IH].
  constructor; eauto.
Qed.

Lemma sidebar_objs_cell b height items :
  sidebar_objs b height items !! 0%nat = Some (Cell (last items)).
Proof. done. Qed.

(** C1 (the code at a failing input): in the example session the sidebar
    has the checkboxes "Grid", bound to [toggle_grid], and "Axes", bound to
    [toggle_axes].  Unticking "Grid" calls [toggle_axes]: the closure of
    every checkbox reads the loop variable [item] when it is called, after
    the loop has left it at the last item.  The argument is the change
    notification of the widget library, which carries the new value. *)
Theorem checkbox_dispatches_to_last_item :
  heap ex_shown !! 14%nat =
    Some (Checkbox true "Grid" item_layout [action_closure 12%nat]) ∧
  Config.action ex_grid_item = Some "toggle_grid" ∧
  Checkbox_change 14%nat false ex_shown =
    (Ok tt,
     with_calls
       [("toggle_axes",
         Some {| change_name := "value"; change_old := true;
                 change_new := false; change_owner := 14%nat;
                 change_type := "change" |})]
       (with_heap
          (<[14%nat := Checkbox false "Grid" item_layout
                         [action_closure 12%nat]]> (heap ex_shown))
          ex_shown)).
Proof.
  assert (heap ex_shown !! 14%nat =
          Some (Checkbox true "Grid" item_layout [action_closure 12%nat]))
    as H14 by (vm_compute; reflexivity).
  split; [exact H14|]. split; [reflexivity|].
  erewrite (Checkbox_change_eq ex_shown 14%nat 12%nat true false "Grid"
              item_layout ex_axes_item "toggle_axes").
  - reflexivity.
  - exact H14.
  - vm_compute. reflexivity.
  - reflexivity.
  - vm_compute. apply list_elem_of_In. simpl. tauto.
  - discriminate.
Qed.

(** * The scene-object plugin module *)

(** C9 (as the specification states it, refuted): importing the module in a
    process in which nothing is registered leaves the Box type without a
    scene-object class for the context "Notebook". *)
Lemma import_registers_box_counterexample :
  Plugin.registered "Notebook" Plugin.Box
    (Plugin.import_module Plugin.empty_world) ≠ Some Plugin.BoxObject.
Proof. vm_compute. discriminate. Qed.

(** C9 (amended): importing the module only declares its three functions as
    extension points of the framework, [register_scene_objects] among the
    "factories", and leaves the registry as it is.  It is the call of
    [register_scene_objects], which the framework makes through that
    extension point, that associates the Box type with [BoxObject] under
    the context "Notebook", so that the class is retrieved by that key;
    the other entries of the registry are kept.  The hooks [clear] and
    [redraw] do nothing. *)
Theorem register_scene_objects_spec (w : Plugin.World) :
  Plugin.registry (Plugin.import_module w) = Plugin.registry w ∧
  (∃ e, e ∈ Plugin.extension_points (Plugin.import_module w) ∧
        Plugin.function e = "register_scene_objects" ∧
        Plugin.category e = "factories") ∧
  Plugin.registered "Notebook" Plugin.Box (Plugin.register_scene_objects w) =
    Some Plugin.BoxObject ∧
  (∀ context item_type,
     (context, item_type) ≠ ("Notebook", Plugin.Box) →
     Plugin.registered context item_type (Plugin.register_scene_objects w) =
       Plugin.registered context item_type w) ∧
  (∀ guids, Plugin.clear_pythreejs guids w = w) ∧
  Plugin.redraw_pythreejs w = w.
Proof.
  split_and!; try reflexivity.
  - eexists. split.
    + simpl. apply elem_of_app. right.
      do 2 apply list_elem_of_further. apply list_elem_of_here.
    + split; reflexivity.
  - unfold Plugin.registered. simpl. apply lookup_insert_eq.
  - intros context item_type Hne. unfold Plugin.registered. simpl.
    by apply lookup_insert_ne.
Qed.

Lemma register_scene_objects_spec_witness :
  Plugin.registered "Notebook" Plugin.Box
    (Plugin.register_scene_objects Plugin.empty_world) =
    Some Plugin.BoxObject ∧
  Plugin.registered "Rhino" Plugin.Box
    (Plugin.register_scene_objects Plugin.empty_world) =
    Plugin.registered "Rhino" Plugin.Box Plugin.empty_world.
Proof.
  destruct (register_scene_objects_spec Plugin.empty_world)
    as (_ & _ & H1 & H2 & _).
  split; [exact H1|]. apply H2. discriminate.
Defined.


(** * Showing twice *)

(** ** Renaming the objects that the methods build *)

Section Shift.
Variables base d : nat.

Lemma shift_ref_ge r : (base ≤ r)%nat → shift_ref base d r = (r + d)%nat.
Proof. intros H. unfold shift_ref. by rewrite decide_True. Qed.

Lemma shift_ref_lt r : (r < base)%nat → shift_ref base d r = r.
Proof. intros H. unfold shift_ref. rewrite decide_False; [done|lia]. Qed.

Lemma shift_seq s n :
  (base ≤ s)%nat → shift_ref base d <$> seq s n = seq (s + d)%nat n.
Proof.
  revert s. induction n as [|n IH]; intros s Hs; [done|].
  simpl. rewrite shift_ref_ge by done. f_equal.
  rewrite IH by lia. done.
Qed.

Lemma shift_handles s : shift_child base d <$> handles s = handles s.
Proof.
  unfold handles. rewrite <- list_fmap_compose. by apply list_fmap_ext.
Qed.

Lemma toolbar_objs_shift b :
  (base ≤ b)%nat → shift_obj base d <$> toolbar_objs b = toolbar_objs (b + d)%nat.
Proof.
  intros H. unfold toolbar_objs. simpl.
  rewrite !shift_ref_ge by lia. ref_eq.
Qed.

Lemma statusbar_objs_shift b :
  (base ≤ b)%nat →
  shift_obj base d <$> statusbar_objs b = statusbar_objs (b + d)%nat.
Proof.
  intros H. unfold statusbar_objs. simpl. by rewrite !shift_ref_ge by lia.
Qed.

Lemma checkbox_of_shift cell it :
  (base ≤ cell)%nat →
  shift_obj base d <$> option_list (checkbox_of cell it) =
    option_list (checkbox_of (cell + d)%nat it).
Proof.
  intros H. unfold checkbox_of. destruct (is_checkbox it); [|done].
  destruct (Config.value it) as [v|]; [|done].
  destruct (Config.text it) as [t|]; [|done].
  simpl. by rewrite shift_ref_ge.
Qed.

Lemma checkboxes_shift cell items :
  (base ≤ cell)%nat →
  shift_obj base d <$> checkboxes cell items =
    checkboxes (cell + d)%nat items.
Proof.
  intros H. induction items as [|it items IH]; [done|].
  rewrite !checkboxes_cons, fmap_app, IH. by rewrite checkbox_of_shift.
Qed.

Lemma checkbox_of_length cell cell' it :
  length (option_list (checkbox_of cell it)) =
    length (option_list (checkbox_of cell' it)).
Proof.
  unfold checkbox_of. destruct (is_checkbox it); [|done].
  destruct (Config.value it) as [v|]; [|done].
  by destruct (Config.text it) as [t|].
Qed.

Lemma checkboxes_length cell cell' items :
  length (checkboxes cell items) = length (checkboxes cell' items).
Proof.
  induction items as [|it items IH]; [done|].
  rewrite !checkboxes_cons, !length_app, IH.
  by rewrite (checkbox_of_length cell cell').
Qed.

Lemma sidebar_objs_shift b height items :
  (base ≤ b)%nat →
  shift_obj base d <$> sidebar_objs b height items =
    sidebar_objs (b + d)%nat height items.
Proof.
  intros H. unfold sidebar_objs. rewrite fmap_app. simpl.
  rewrite shift_seq by lia. rewrite checkboxes_shift by done.
  rewrite (checkboxes_length b (b + d)%nat). ref_eq.
Qed.

Lemma main_sidebar_shift b cfg :
  (base ≤ b)%nat →
  shift_obj base d <$> main_sidebar b cfg = main_sidebar (b + d)%nat cfg.
Proof.
  intros H. unfold main_sidebar.
  destruct (Config.show _); [|done]. by apply sidebar_objs_shift.
Qed.

Lemma main_sidebar_length b b' cfg :
  length (main_sidebar b cfg) = length (main_sidebar b' cfg).
Proof.
  unfold main_sidebar. destruct (Config.show _); [|done].
  unfold sidebar_objs. simpl. do 2 f_equal. apply checkboxes_length.
Qed.

Lemma main_objs_shift b cfg r :
  (base ≤ b)%nat → (base ≤ r)%nat →
  shift_obj base d <$> main_objs b cfg r = main_objs (b + d)%nat cfg (r + d)%nat.
Proof.
  intros Hb Hr. unfold main_objs. rewrite fmap_app.
  rewrite main_sidebar_shift by done.
  rewrite (main_sidebar_length (b + d)%nat b). simpl.
  rewrite fmap_app. simpl. rewrite !shift_ref_ge by lia.
  destruct (Config.show _); simpl; rewrite ?shift_ref_ge by lia; ref_eq.
Qed.
Lemma ui_toolbar_shift b cfg :
  (base ≤ b)%nat →
  shift_obj base d <$> ui_toolbar b cfg = ui_toolbar (b + d)%nat cfg.
Proof.
  intros H. unfold ui_toolbar. destruct (Config.show_toolbar _); [|done].
  by apply toolbar_objs_shift.
Qed.

Lemma ui_statusbar_shift b cfg :
  (base ≤ b)%nat →
  shift_obj base d <$> ui_statusbar b cfg = ui_statusbar (b + d)%nat cfg.
Proof.
  intros H. unfold ui_statusbar. destruct (Config.show_statusbar _); [|done].
  by apply statusbar_objs_shift.
Qed.

Lemma ui_toolbar_length b b' cfg :
  length (ui_toolbar b cfg) = length (ui_toolbar b' cfg).
Proof. unfold ui_toolbar. by destruct (Config.show_toolbar _). Qed.

Lemma ui_main_base_shift b cfg :
  ui_main_base (b + d)%nat cfg = (ui_main_base b cfg + d)%nat.
Proof.
  unfold ui_main_base.
  rewrite (ui_toolbar_length (b + d + 1)%nat (b + 1)%nat). lia.
Qed.

Lemma ui_main_ref_shift b cfg :
  ui_main_ref (b + d)%nat cfg = (ui_main_ref b cfg + d)%nat.
Proof.
  unfold ui_main_ref, main_ref. rewrite ui_main_base_shift.
  rewrite (main_sidebar_length (ui_main_base b cfg + d)%nat
             (ui_main_base b cfg)).
  lia.
Qed.

Lemma ui_statusbar_base_shift b cfg :
  ui_statusbar_base (b + d)%nat cfg = (ui_statusbar_base b cfg + d)%nat.
Proof. unfold ui_statusbar_base. rewrite ui_main_ref_shift. lia. Qed.

Lemma ui_main_base_ge b cfg : (b ≤ ui_main_base b cfg)%nat.
Proof. unfold ui_main_base. lia. Qed.

Lemma ui_main_ref_ge b cfg : (b ≤ ui_main_ref b cfg)%nat.
Proof.
  unfold ui_main_ref, main_ref. pose proof (ui_main_base_ge b cfg). lia.
Qed.

Lemma ui_children_shift b cfg :
  (base ≤ b)%nat →
  shift_ref base d <$> ui_children b cfg = ui_children (b + d)%nat cfg.
Proof.
  intros Hb. unfold ui_children.
  pose proof (ui_main_ref_ge b cfg).
  rewrite !fmap_app. unfold ui_statusbar_ref, ui_toolbar_ref.
  rewrite ui_statusbar_base_shift, ui_main_ref_shift.
  destruct (Config.show_toolbar _), (Config.show_statusbar _); simpl;
    rewrite !shift_ref_ge by (unfold ui_statusbar_base; lia);
    ref_eq.
Qed.

Lemma ui_objs_shift b cfg r :
  (base ≤ b)%nat → (base ≤ r)%nat →
  shift_obj base d <$> ui_objs b cfg r =
    ui_objs (b + d)%nat cfg (r + d)%nat.
Proof.
  intros Hb Hr. unfold ui_objs. rewrite !fmap_app.
  pose proof (ui_main_base_ge b cfg). pose proof (ui_main_ref_ge b cfg).
  rewrite ui_toolbar_shift by lia.
  rewrite main_objs_shift by lia.
  rewrite ui_statusbar_shift by (unfold ui_statusbar_base; lia).
  rewrite ui_main_base_shift, ui_statusbar_base_shift.
  replace (b + d + 1)%nat with (b + 1 + d)%nat by lia.
  f_equal. simpl. by rewrite ui_children_shift.
Qed.

Lemma grid_objs_shift view :
  shift_obj base d <$> grid_objs view = grid_objs view.
Proof. unfold grid_objs. by destruct (Config.show_grid view). Qed.

Lemma axes_objs_shift view :
  shift_obj base d <$> axes_objs view = axes_objs view.
Proof. unfold axes_objs. by destruct (Config.show_axes view). Qed.

Lemma helper_children_shift b view :
  (base ≤ b)%nat →
  shift_child base d <$> helper_children b view =
    helper_children (b + d)%nat view.
Proof.
  intros Hb. unfold helper_children, grid_ref, axes_ref.
  destruct (Config.show_grid view), (Config.show_axes view); simpl;
    rewrite ?shift_ref_ge by lia; ref_eq.
Qed.

Lemma camera_ref_shift b view :
  camera_ref (b + d)%nat view = (camera_ref b view + d)%nat.
Proof. unfold camera_ref. lia. Qed.

Lemma webgl_objs_shift b view kind s :
  (base ≤ b)%nat →
  shift_obj base d <$> webgl_objs b view kind (handles s) =
    webgl_objs (b + d)%nat view kind (handles s).
Proof.
  intros Hb. unfold webgl_objs, scene3_objs.
  rewrite !fmap_app, grid_objs_shift, axes_objs_shift. simpl.
  rewrite fmap_app, helper_children_shift, shift_handles by done.
  rewrite camera_ref_shift.
  assert (base ≤ camera_ref b view)%nat by (unfold camera_ref; lia).
  rewrite !shift_ref_ge by lia.
  destruct kind; simpl; rewrite ?shift_ref_ge by lia; ref_eq.
Qed.

Lemma webgl_objs_length_shift b b' view kind more more' :
  length (webgl_objs b view kind more) =
    length (webgl_objs b' view kind more').
Proof. by rewrite !webgl_objs_length, !scene3_objs_length. Qed.

Lemma show_objs_shift b cfg kind s :
  (base ≤ b)%nat →
  shift_obj base d <$> show_objs b cfg kind s =
    show_objs (b + d)%nat cfg kind s.
Proof.
  intros Hb. unfold show_objs. rewrite fmap_app.
  rewrite webgl_objs_shift by done.
  rewrite ui_objs_shift by (unfold camera_ref; lia).
  rewrite camera_ref_shift.
  rewrite (webgl_objs_length_shift (b + d)%nat b _ _ (handles s) (handles s)).
  ref_eq.
Qed.
End Shift.

(** ** What [show] constructs *)

Lemma show_state_heap (Scene_draw : Scene → Scene) st kind :
  heap (show_state Scene_draw st kind) =
    heap st ++
    show_objs (length (heap st)) (config st) kind (Scene_draw (scene st)).
Proof.
  unfold show_state, put_children, init_ui_state, init_webgl_state, show_objs.
  cbn [heap with_heap with_displayed with_scene config].
  rewrite <- app_assoc, heap_insert_new0.
  rewrite !length_app, !webgl_objs_length, !scene3_objs_length.
  by f_equal.
Qed.

Lemma show_state_config (Scene_draw : Scene → Scene) st kind :
  config (show_state Scene_draw st kind) = config st.
Proof. done. Qed.

Lemma show_state_scene (Scene_draw : Scene → Scene) st kind :
  scene (show_state Scene_draw st kind) = Scene_draw (scene st).
Proof. done. Qed.

Lemma show_state_ui (Scene_draw : Scene → Scene) st kind :
  ui (show_state Scene_draw st kind) =
    Some (length (heap st) +
          length (webgl_objs (length (heap st)) (Config.view (config st))
                    kind []))%nat.
Proof. simpl. by rewrite length_app. Qed.

Lemma show_state_displayed (Scene_draw : Scene → Scene) st kind :
  displayed (show_state Scene_draw st kind) =
    displayed st ++
    [(length (heap st) +
      length (webgl_objs (length (heap st)) (Config.view (config st))
                kind []))%nat].
Proof. simpl. by rewrite length_app. Qed.

Lemma show_state_scene3 (Scene_draw : Scene → Scene) st kind :
  scene3 (show_state Scene_draw st kind) = Some (length (heap st)).
Proof. done. Qed.

Lemma show_objs_length b b' cfg kind s s' :
  length (show_objs b cfg kind s) = length (show_objs b' cfg kind s').
Proof.
  unfold show_objs, ui_objs.
  rewrite !length_app, !webgl_objs_length, !scene3_objs_length. simpl.
  rewrite !main_objs_length.
  rewrite (ui_toolbar_length _ 0%nat), (main_sidebar_length _ 0%nat).
  symmetry.
  rewrite (ui_toolbar_length _ 0%nat), (main_sidebar_length _ 0%nat).
  unfold ui_statusbar. by destruct (Config.show_statusbar _).
Qed.

(** X9: calling [show] a second time does not return the viewer to the
    state of the first call.  For a configuration with which [show]
    returns and a scene draw that changes nothing when repeated, the second
    call constructs a whole new copy of the 3D objects and of the widget
    tree (the objects of the first call with every reference moved up by
    the number [d] of objects that one call constructs), leaves the objects
    of the first call as they are, rebinds the viewer's attributes to the
    new copy and displays the new root: the notebook then shows two
    widget trees. *)
Theorem show_twice (Scene_draw : Scene → Scene) (st : State)
    (kind : projection) :
  wf_config (config st) →
  viewport_kind (Config.viewport (Config.view (config st))) = Some kind →
  Scene_draw (Scene_draw (scene st)) = Scene_draw (scene st) →
  ∃ st1 st2 u d,
    show Scene_draw st = (Ok tt, st1) ∧
    show Scene_draw st1 = (Ok tt, st2) ∧
    (0 < d)%nat ∧
    length (heap st1) = (length (heap st) + d)%nat ∧
    heap st2 =
      heap st1 ++
      (shift_obj (length (heap st)) d <$> drop (length (heap st)) (heap st1)) ∧
    ui st1 = Some u ∧ (length (heap st) ≤ u)%nat ∧
    ui st2 = Some (u + d)%nat ∧
    scene3 st1 = Some (length (heap st)) ∧
    scene3 st2 = Some (length (heap st) + d)%nat ∧
    displayed st2 = displayed st ++ [u; (u + d)%nat] ∧
    scene st2 = scene st1.
Proof.
  intros Hwf Hk Hdraw.
  set (b := length (heap st)).
  set (s := Scene_draw (scene st)).
  set (st1 := show_state Scene_draw st kind).
  set (d := length (show_objs b (config st) kind s)).
  assert (heap st1 = heap st ++ show_objs b (config st) kind s) as Hh1
    by apply show_state_heap.
  assert (length (heap st1) = (b + d)%nat) as Hlen
    by (by rewrite Hh1, length_app).
  exists st1, (show_state Scene_draw st1 kind),
    (b + length (webgl_objs b (Config.view (config st)) kind []))%nat, d.
  split; [by apply show_eq|].
  split; [by apply show_eq|].
  split.
  { unfold d, show_objs. rewrite length_app, webgl_objs_length. lia. }
  split; [done|].
  split.
  { rewrite show_state_heap.
    change (config st1) with (config st).
    change (scene st1) with s. unfold s at 1. rewrite Hdraw. fold s.
    rewrite Hlen. f_equal. rewrite Hh1. unfold b.
    rewrite drop_app_length. by rewrite show_objs_shift. }
  split; [apply show_state_ui|].
  split; [lia|].
  split.
  { rewrite show_state_ui. change (config st1) with (config st).
    rewrite Hlen. rewrite (webgl_objs_length_shift _ b _ _ _ []).
    f_equal. lia. }
  split; [done|].
  split; [by rewrite show_state_scene3, Hlen|].
  split.
  { rewrite show_state_displayed. change (config st1) with (config st).
    rewrite Hlen. rewrite (webgl_objs_length_shift _ b _ _ _ []).
    change (displayed st1) with (displayed (show_state Scene_draw st kind)).
    rewrite show_state_displayed, <- app_assoc. simpl. fold b.
    do 3 f_equal. lia. }
  simpl. by rewrite Hdraw.
Qed.

Lemma show_twice_witness :
  wf_config (config (ex_viewer "perspective")) ∧
  viewport_kind (Config.viewport (Config.view (config (ex_viewer "perspective"))))
    = Some Perspective ∧
  ex_draw (ex_draw (scene (ex_viewer "perspective"))) =
    ex_draw (scene (ex_viewer "perspective")) ∧
  ∃ st1 st2 u d,
    show ex_draw (ex_viewer "perspective") = (Ok tt, st1) ∧
    show ex_draw st1 = (Ok tt, st2) ∧
    (0 < d)%nat ∧
    length (heap st1) = (length (heap (ex_viewer "perspective")) + d)%nat ∧
    heap st2 =
      heap st1 ++
      (shift_obj (length (heap (ex_viewer "perspective"))) d <$>
         drop (length (heap (ex_viewer "perspective"))) (heap st1)) ∧
    ui st1 = Some u ∧ (length (heap (ex_viewer "perspective")) ≤ u)%nat ∧
    ui st2 = Some (u + d)%nat ∧
    scene3 st1 = Some (length (heap (ex_viewer "perspective"))) ∧
    scene3 st2 = Some (length (heap (ex_viewer "perspective")) + d)%nat ∧
    displayed st2 = displayed (ex_viewer "perspective") ++ [u; (u + d)%nat] ∧
    scene st2 = scene st1.
Proof.
  assert (viewport_kind
            (Config.viewport (Config.view (config (ex_viewer "perspective"))))
          = Some Perspective) as H2 by reflexivity.
  assert (ex_draw (ex_draw (scene (ex_viewer "perspective"))) =
          ex_draw (scene (ex_viewer "perspective"))) as H3 by reflexivity.
  split; [exact (ex_wf_config "perspective")|].
  split; [exact H2|]. split; [exact H3|].
  exact (show_twice ex_draw (ex_viewer "perspective") Perspective
           (ex_wf_config "perspective") H2 H3).
Defined.

(** The two widget trees that the example session displays. *)
Example show_twice_example :
  displayed ex_shown = [6%nat] ∧ displayed ex_shown_twice = [6; 26]%nat ∧
  length (heap ex_shown) = 20%nat ∧ length (heap ex_shown_twice) = 40%nat.
Proof. vm_compute. done. Qed.

(** * Further properties of the viewer *)

(** ** [show] and [update] together *)

Lemma with_scene_id st : with_scene (scene st) st = st.
Proof. by destruct st. Qed.

Lemma show_state_helpers (Scene_draw : Scene → Scene) st kind :
  helpers (show_state Scene_draw st kind) =
    helper_children (length (heap st)) (Config.view (config st)).
Proof.
  unfold helpers, helper_children. simpl.
  by destruct (Config.show_grid _), (Config.show_axes _).
Qed.

Lemma show_state_scene_graph (Scene_draw : Scene → Scene) st kind :
  heap (show_state Scene_draw st kind) !! length (heap st) =
    Some (Scene3 (Config.background (Config.view (config st)))
            (helper_children (length (heap st)) (Config.view (config st)) ++
             handles (Scene_draw (scene st)))).
Proof.
  rewrite show_state_heap. unfold show_objs, webgl_objs, scene3_objs.
  rewrite <- !app_assoc. by rewrite heap_lookup_new0.
Qed.

Section ShowUpdate.
Variable Scene_draw : Scene → Scene.

(** A viewer whose scene graph already holds the helpers and the handles
    of a scene that a draw leaves as it is: [update] changes nothing. *)
Lemma update_fixed_point st r bg :
  scene3 st = Some r →
  heap st !! r = Some (Scene3 bg (helpers st ++ handles (scene st))) →
  Scene_draw (scene st) = scene st →
  (Config.show_grid (Config.view (config st)) = true → is_Some (grid3 st)) →
  (Config.show_axes (Config.view (config st)) = true → is_Some (axes3 st)) →
  update Scene_draw st = (Ok tt, st).
Proof.
  intros Hr Hh Hs Hg Ha.
  rewrite (update_eq Scene_draw st r bg _ Hr Hh Hg Ha).
  rewrite Hs, with_scene_id. f_equal. by apply put_children_id.
Qed.

(** X1: with a configuration with which it can run, [show] returns,
    having drawn the scene once, left in the scene graph exactly the
    helpers that the configuration asks for followed by the handles of the
    drawn scene objects, and displayed the root of the new widget tree once;
    the objects that existed before the call are not touched and no
    controller method is called. *)
Theorem show_displays_scene (st : State) (kind : projection) :
  wf_config (config st) →
  viewport_kind (Config.viewport (Config.view (config st))) = Some kind →
  ∃ st' u,
    show Scene_draw st = (Ok tt, st') ∧
    scene st' = Scene_draw (scene st) ∧
    scene3_children st' = Some (helpers st' ++ handles (scene st')) ∧
    ui st' = Some u ∧ (length (heap st) ≤ u < length (heap st'))%nat ∧
    displayed st' = displayed st ++ [u] ∧
    take (length (heap st)) (heap st') = heap st ∧
    calls st' = calls st ∧ config st' = config st.
Proof.
  intros Hwf Hk.
  eexists (show_state Scene_draw st kind), _.
  split; [by apply show_eq|].
  split; [done|].
  split.
  { unfold scene3_children. rewrite show_state_scene3. simpl option_bind.
    cbn [mbind option_bind].
    rewrite show_state_scene_graph. simpl.
    by rewrite show_state_helpers. }
  split; [apply show_state_ui|].
  split.
  { rewrite show_state_heap, length_app. unfold show_objs.
    rewrite length_app, !webgl_objs_length, !scene3_objs_length.
    unfold ui_objs. simpl. lia. }
  split; [apply show_state_displayed|].
  split; [by rewrite show_state_heap, take_app_length|].
  done.
Qed.
End ShowUpdate.

Lemma show_displays_scene_witness :
  wf_config (config (ex_viewer "top")) ∧
  viewport_kind (Config.viewport (Config.view (config (ex_viewer "top"))))
    = Some Top ∧
  ∃ st' u,
    show ex_draw (ex_viewer "top") = (Ok tt, st') ∧
    scene st' = ex_draw (scene (ex_viewer "top")) ∧
    scene3_children st' = Some (helpers st' ++ handles (scene st')) ∧
    ui st' = Some u ∧
    (length (heap (ex_viewer "top")) ≤ u < length (heap st'))%nat ∧
    displayed st' = displayed (ex_viewer "top") ++ [u] ∧
    take (length (heap (ex_viewer "top"))) (heap st') =
      heap (ex_viewer "top") ∧
    calls st' = calls (ex_viewer "top") ∧
    config st' = config (ex_viewer "top").
Proof.
  assert (viewport_kind
            (Config.viewport (Config.view (config (ex_viewer "top"))))
          = Some Top) as H2 by reflexivity.
  split; [exact (ex_wf_config "top")|]. split; [exact H2|].
  exact (show_displays_scene ex_draw (ex_viewer "top") Top
           (ex_wf_config "top") H2).
Defined.

Section ShowThenUpdate.
Variable Scene_draw : Scene → Scene.

(** X2: [update] right after [show] changes nothing.  When a repeated
    draw leaves the scene as the first left it, [show] leaves the viewer in
    a state in which [update] returns without changing the state at all,
    also when a renderable handle occurs more than once in the scene: the
    scene graph that [show] builds is the one that [update] rebuilds. *)
Theorem update_after_show (st : State) (kind : projection) :
  wf_config (config st) →
  viewport_kind (Config.viewport (Config.view (config st))) = Some kind →
  Scene_draw (Scene_draw (scene st)) = Scene_draw (scene st) →
  ∃ st',
    show Scene_draw st = (Ok tt, st') ∧
    update Scene_draw st' = (Ok tt, st').
Proof.
  intros Hwf Hk Hdraw.
  exists (show_state Scene_draw st kind).
  split; [by apply show_eq|].
  apply (update_fixed_point Scene_draw _ (length (heap st))
           (Config.background (Config.view (config st)))).
  - apply show_state_scene3.
  - rewrite show_state_helpers, show_state_scene.
    apply show_state_scene_graph.
  - by rewrite show_state_scene.
  - simpl. intros ->. eauto.
  - simpl. intros ->. eauto.
Qed.

(** X3: [update] is idempotent.  If a call of [update] returns and a
    repeated draw leaves the scene as the first left it, then a second call
    returns too and leaves the state of the first, whatever the children of
    the scene graph were before the first call and also when a child occurs
    more than once. *)
Theorem update_idempotent (st st' : State) :
  update Scene_draw st = (Ok tt, st') →
  Scene_draw (Scene_draw (scene st)) = Scene_draw (scene st) →
  update Scene_draw st' = (Ok tt, st').
Proof.
  intros Hupd Hdraw.
  destruct (update_Ok Scene_draw st st' Hupd)
    as (r & bg & kids & Hr & Hh & Hg & Ha & ->).
  apply (update_fixed_point Scene_draw _ r bg).
  - done.
  - apply put_children_lookup. simpl. by eapply lookup_lt_Some.
  - done.
  - done.
  - done.
Qed.
End ShowThenUpdate.

Lemma update_after_show_witness :
  wf_config (config (ex_viewer "perspective")) ∧
  viewport_kind (Config.viewport (Config.view (config (ex_viewer "perspective"))))
    = Some Perspective ∧
  ex_draw (ex_draw (scene (ex_viewer "perspective"))) =
    ex_draw (scene (ex_viewer "perspective")) ∧
  ∃ st',
    show ex_draw (ex_viewer "perspective") = (Ok tt, st') ∧
    update ex_draw st' = (Ok tt, st').
Proof.
  assert (viewport_kind
            (Config.viewport (Config.view (config (ex_viewer "perspective"))))
          = Some Perspective) as H2 by reflexivity.
  assert (ex_draw (ex_draw (scene (ex_viewer "perspective"))) =
          ex_draw (scene (ex_viewer "perspective"))) as H3 by reflexivity.
  split; [exact (ex_wf_config "perspective")|].
  split; [exact H2|]. split; [exact H3|].
  exact (update_after_show ex_draw (ex_viewer "perspective") Perspective
           (ex_wf_config "perspective") H2 H3).
Defined.

Lemma update_idempotent_witness :
  update ex_draw ex_changed = (Ok tt, (update ex_draw ex_changed).2) ∧
  ex_draw (ex_draw (scene ex_changed)) = ex_draw (scene ex_changed) ∧
  update ex_draw (update ex_draw ex_changed).2 =
    (Ok tt, (update ex_draw ex_changed).2).
Proof.
  assert (update ex_draw ex_changed = (Ok tt, (update ex_draw ex_changed).2))
    as H1 by (vm_compute; reflexivity).
  assert (ex_draw (ex_draw (scene ex_changed)) = ex_draw (scene ex_changed))
    as H2 by (vm_compute; reflexivity).
  split; [exact H1|]. split; [exact H2|].
  exact (update_idempotent ex_draw ex_changed _ H1 H2).
Defined.

(** ** The toolbar *)

Lemma call_controller_eq name arg st :
  call_controller name arg st =
    if bool_decide (name ∈ methods (controller st))
    then (Ok tt, with_calls (calls st ++ [(name, arg)]) st)
    else (Raise AttributeError, st).
Proof.
  unfold call_controller. rewrite bind_gets.
  by destruct (bool_decide _).
Qed.

Lemma bind_ret_r (m : M unit) st : (m ≫= λ _, mret tt) st = m st.
Proof. unfold mbind, M_bind. by destruct (m st) as [[[]|]]. Qed.

Lemma Button_click_eq st r icon tip l cb :
  heap st !! r = Some (Button icon tip l [cb]) →
  Button_click r st = dispatch (invoke cb None) st.
Proof.
  intros H. unfold Button_click. erewrite bind_deref by exact H.
  simpl. apply bind_ret_r.
Qed.

Lemma dispatch_call_controller name st :
  dispatch (call_controller name None) st =
    (Ok tt,
     if bool_decide (name ∈ methods (controller st))
     then with_calls (calls st ++ [(name, None)]) st else st).
Proof.
  unfold dispatch. rewrite call_controller_eq. by destruct (bool_decide _).
Qed.

(** X4: the four buttons of the toolbar call the controller methods
    [load_scene], [save_scene], [zoom_in] and [zoom_out], in the order in
    which they stand in the toolbar, and pass no argument.  The controller
    is not looked at when the toolbar is built.  A click on a button whose
    method the controller does not have calls nothing and returns: the
    [AttributeError] of the handler is caught by the dispatcher of the
    widget library and does not reach the caller.  Building the toolbar
    touches no object that existed before. *)
Theorem toolbar_buttons_dispatch (st : State) :
  ∃ t st' l b1 b2 b3 b4,
    make_toolbar st = (Ok t, st') ∧
    heap st' !! t = Some (HBox l [b1; b2; b3; b4]) ∧
    (∀ r name,
       (r, name) ∈ [(b1, "load_scene"); (b2, "save_scene");
                    (b3, "zoom_in"); (b4, "zoom_out")] →
       Button_click r st' =
         (Ok tt,
          if bool_decide (name ∈ methods (controller st))
          then with_calls (calls st ++ [(name, None)]) st'
          else st')) ∧
    take (length (heap st)) (heap st') = heap st ∧
    calls st' = calls st.
Proof.
  eexists _, _, _, _, _, _, _.
  split; [apply make_toolbar_eq|].
  split.
  { simpl. rewrite heap_lookup_new. reflexivity. }
  split.
  { intros r name Hin.
    rewrite !elem_of_cons, elem_of_nil in Hin.
    destruct Hin as [[= -> ->]|[[= -> ->]|[[= -> ->]|[[= -> ->]|[]]]]].
    - erewrite Button_click_eq;
        [|simpl; rewrite <- (Nat.add_0_r (length (heap st)));
          rewrite heap_lookup_new; reflexivity].
      simpl. by rewrite dispatch_call_controller.
    - erewrite Button_click_eq;
        [|simpl; rewrite heap_lookup_new; reflexivity].
      simpl. by rewrite dispatch_call_controller.
    - erewrite Button_click_eq;
        [|simpl; rewrite heap_lookup_new; reflexivity].
      simpl. by rewrite dispatch_call_controller.
    - erewrite Button_click_eq;
        [|simpl; rewrite heap_lookup_new; reflexivity].
      simpl. by rewrite dispatch_call_controller. }
  split; [simpl; by rewrite take_app_length|].
  done.
Qed.

(** The buttons of the example session: a click on the third button of
    the toolbar calls [zoom_in]. *)
Example toolbar_click_example :
  calls (Button_click 9%nat ex_shown).2 = [("zoom_in", None)].
Proof. vm_compute. reflexivity. Qed.

(** ** A viewport without height *)

(** X5: with a configured height of 0, [show] raises
    [ZeroDivisionError] at the aspect ratio, whatever the viewport is
    (also for "top", which does not use the ratio, and for a viewport that
    is not supported), and so does [init_webgl]; the viewer is left as it
    was: nothing is constructed, assigned, drawn or displayed. *)
Theorem show_zero_height_aborts (Scene_draw : Scene → Scene) (st : State) :
  Config.height (Config.view (config st)) = 0 →
  init_webgl st = (Raise ZeroDivisionError, st) ∧
  show Scene_draw st = (Raise ZeroDivisionError, st).
Proof.
  intros H. split; [by apply init_webgl_zero|].
  unfold show. apply bind_Raise. by apply init_webgl_zero.
Qed.

Lemma show_zero_height_aborts_witness :
  Config.height (Config.view (config ex_flat_viewer)) = 0 ∧
  init_webgl ex_flat_viewer = (Raise ZeroDivisionError, ex_flat_viewer) ∧
  show ex_draw ex_flat_viewer = (Raise ZeroDivisionError, ex_flat_viewer).
Proof.
  assert (Config.height (Config.view (config ex_flat_viewer)) = 0) as H
    by reflexivity.
  split; [exact H|].
  exact (show_zero_height_aborts ex_draw ex_flat_viewer H).
Defined.

(** ** The registry *)

(** X10: the factories hook can be called any number of times: a second
    call of [register_scene_objects] leaves the registry as the first left
    it (the class registered for Box in the context "Notebook" is
    [BoxObject], whatever was registered before), and only prints its
    message again. *)
Theorem register_scene_objects_twice (w : Plugin.World) :
  Plugin.registry
    (Plugin.register_scene_objects (Plugin.register_scene_objects w)) =
    Plugin.registry (Plugin.register_scene_objects w) ∧
  Plugin.stdout
    (Plugin.register_scene_objects (Plugin.register_scene_objects w)) =
    Plugin.stdout w ++ ["PyThreeJS SceneObjects registered.";
                        "PyThreeJS SceneObjects registered."] ∧
  Plugin.extension_points
    (Plugin.register_scene_objects (Plugin.register_scene_objects w)) =
    Plugin.extension_points w.
Proof.
  split; [|split].
  - simpl. apply insert_insert_eq.
  - simpl. by rewrite <- app_assoc.
  - done.
Qed.

(** ** A helper that was never created *)

Section MissingHelper.
Variable Scene_draw : Scene → Scene.

Lemma helper_missing (attr : State → option ref) st r :
  scene3 st = Some r → attr st = None →
  (s3 ← getattr scene3; g ← getattr attr; Object3D_add s3 (Own g)) st =
    (Raise AttributeError, st).
Proof.
  intros Hr Ha. rewrite (bind_eq _ _ _ _ _ (getattr_eq scene3 _ r Hr)).
  apply bind_Raise. unfold getattr. by rewrite Ha.
Qed.

(** X12: [update] re-adds the helpers that the configuration asks for
    at the time of the call, but only [init_webgl] creates them, and only
    those that the configuration asked for then.  On a viewer whose
    configuration asks for a helper that does not exist (the grid or the
    axes were enabled after [show]), [update] raises [AttributeError] after
    it has emptied the scene graph, whatever its children were: the scene
    graph is left with no child but possibly the grid, and the scene is not
    drawn. *)
Theorem update_missing_helper (st : State) (r : ref) (bg : string)
    (kids : list child3) :
  scene3 st = Some r → heap st !! r = Some (Scene3 bg kids) →
  (Config.show_grid (Config.view (config st)) = true ∧ grid3 st = None) ∨
  (Config.show_axes (Config.view (config st)) = true ∧ axes3 st = None) →
  update Scene_draw st =
    (Raise AttributeError,
     put_children r bg
       (if Config.show_grid (Config.view (config st))
        then option_list (Own <$> grid3 st) else []) st).
Proof.
  intros Hr Hk Hmiss. unfold update.
  assert (r < length (heap st))%nat as Hlt by by eapply lookup_lt_Some.
  rewrite (bind_eq _ _ _ _ _ (getattr_eq _ _ _ Hr)).
  rewrite (bind_eq _ _ _ kids st) by (apply Object3D_children_Ok; eauto).
  erewrite bind_eq; last by apply (remove_loop_eq r bg kids st).
  erewrite bind_eq; last (apply getattr_eq; exact Hr).
  erewrite bind_eq; last first.
  { eapply Object3D_set_children_eq. by apply put_children_lookup. }
  rewrite put_children_twice.
  erewrite bind_eq; last reflexivity. simpl.
  destruct (Config.show_grid (Config.view (config st))) eqn:Hg.
  - destruct (grid3 st) as [g|] eqn:Hg3.
    + destruct Hmiss as [[_ [=]]|[Ha Ha3]].
      erewrite bind_eq; last first.
      { apply (when_helper_eq true grid3 _ r bg []);
          [done|by apply put_children_lookup|simpl; rewrite Hg3; eauto]. }
      rewrite put_children_twice. simpl. rewrite Hg3. simpl.
      rewrite Ha. simpl.
      apply bind_Raise. by apply (helper_missing axes3 _ r).
    + simpl. apply bind_Raise. by apply (helper_missing grid3 _ r).
  - destruct Hmiss as [[[=] _]|[Ha Ha3]].
    simpl. rewrite bind_ret. rewrite Ha. simpl.
    apply bind_Raise. by apply (helper_missing axes3 _ r).
Qed.
End MissingHelper.

Lemma update_missing_helper_witness :
  scene3 ex_grid_enabled = Some 0%nat ∧
  heap ex_grid_enabled !! 0%nat =
    Some (Scene3 "#eeeeee"
            [Own 1%nat; Ext 0%nat; Ext 1%nat; Ext 2%nat; Ext 3%nat]) ∧
  ((Config.show_grid (Config.view (config ex_grid_enabled)) = true ∧
    grid3 ex_grid_enabled = None) ∨
   (Config.show_axes (Config.view (config ex_grid_enabled)) = true ∧
    axes3 ex_grid_enabled = None)) ∧
  update ex_draw ex_grid_enabled =
    (Raise AttributeError,
     put_children 0%nat "#eeeeee"
       (if Config.show_grid (Config.view (config ex_grid_enabled))
        then option_list (Own <$> grid3 ex_grid_enabled) else [])
       ex_grid_enabled).
Proof.
  assert (scene3 ex_grid_enabled = Some 0%nat) as H1 by reflexivity.
  assert (heap ex_grid_enabled !! 0%nat =
          Some (Scene3 "#eeeeee"
                  [Own 1%nat; Ext 0%nat; Ext 1%nat; Ext 2%nat; Ext 3%nat]))
    as H2 by (vm_compute; reflexivity).
  assert ((Config.show_grid (Config.view (config ex_grid_enabled)) = true ∧
           grid3 ex_grid_enabled = None) ∨
          (Config.show_axes (Config.view (config ex_grid_enabled)) = true ∧
           axes3 ex_grid_enabled = None)) as H4
    by (left; split; reflexivity).
  split; [exact H1|]. split; [exact H2|]. split; [exact H4|].
  exact (update_missing_helper ex_draw ex_grid_enabled 0%nat "#eeeeee" _
           H1 H2 H4).
Defined.

(** ** The status bar and its text *)

(** X11: the text field that [set_statustext] writes to is the one that
    the status bar shows.  After [init_ui] with the status bar enabled, the
    only child of the status bar is the widget that the attribute
    [statustext] refers to; [set_statustext] returns, changes the value of
    that widget to the text given and changes no other object, so the
    status bar in the displayed tree shows the text. *)
Theorem statusbar_shows_statustext (st : State) (r : ref) :
  renderer3 st = Some r → wf_sidebar (config st) →
  Config.show_statusbar (Config.ui (config st)) = true →
  ∃ st' sb t l,
    init_ui st = (Ok tt, st') ∧
    statusbar st' = Some sb ∧ statustext st' = Some t ∧
    heap st' !! sb = Some (HBox l [t]) ∧
    ∀ text, ∃ st'' p d dis l' sty,
      set_statustext text st' = (Ok tt, st'') ∧
      heap st'' !! t = Some (Text text p d dis l' sty) ∧
      (∀ k, k ≠ t → heap st'' !! k = heap st' !! k) ∧
      statustext st'' = Some t ∧ statusbar st'' = Some sb.
Proof.
  intros Hr Hwf Hs.
  pose proof (ui_objs_statusbar (heap st) (config st) r Hs) as [Ht Hsb].
  set (t := ui_statusbar_base (length (heap st)) (config st)) in *.
  assert (statustext (init_ui_state st r) = Some t) as Hst.
  { simpl. by rewrite Hs. }
  assert (statusbar (init_ui_state st r) =
          Some (ui_statusbar_ref (length (heap st)) (config st))) as Hbar.
  { simpl. by rewrite Hs. }
  assert (heap (init_ui_state st r) !! t = statusbar_objs t !! 0%nat) as Hlk
    by exact Ht.
  eexists (init_ui_state st r), _, t, _.
  split; [by apply init_ui_eq|].
  split; [exact Hbar|]. split; [exact Hst|].
  split; [exact Hsb|].
  intros text.
  pose proof (set_statustext_Some text _ t _ _ _ _ _ _ Hst Hlk) as Hset.
  eexists _, _, _, _, _, _. split; [exact Hset|].
  split.
  { simpl heap at 1. apply list_lookup_insert_eq.
    eapply lookup_lt_Some. exact Hlk. }
  split.
  { intros k Hk. simpl heap at 1. by apply list_lookup_insert_ne. }
  done.
Qed.

Lemma statusbar_shows_statustext_witness :
  renderer3 ex_webgl = Some 5%nat ∧ wf_sidebar (config ex_webgl) ∧
  Config.show_statusbar (Config.ui (config ex_webgl)) = true ∧
  ∃ st' sb t l,
    init_ui ex_webgl = (Ok tt, st') ∧
    statusbar st' = Some sb ∧ statustext st' = Some t ∧
    heap st' !! sb = Some (HBox l [t]) ∧
    ∀ text, ∃ st'' p d dis l' sty,
      set_statustext text st' = (Ok tt, st'') ∧
      heap st'' !! t = Some (Text text p d dis l' sty) ∧
      (∀ k, k ≠ t → heap st'' !! k = heap st' !! k) ∧
      statustext st'' = Some t ∧ statusbar st'' = Some sb.
Proof.
  assert (renderer3 ex_webgl = Some 5%nat) as H1 by (vm_compute; reflexivity).
  assert (Config.show_statusbar (Config.ui (config ex_webgl)) = true) as H3
    by reflexivity.
  split; [exact H1|]. split; [exact (ex_wf_sidebar "perspective")|].
  split; [exact H3|].
  exact (statusbar_shows_statustext ex_webgl 5%nat H1
           (ex_wf_sidebar "perspective") H3).
Defined.

(** ** Panels that the configuration disables later *)

(** X14: [init_ui] assigns the attributes of the panels that it builds
    and leaves the others alone: it does not reset the attributes of a panel
    that the configuration disables.  On a viewer that has a status text
    from an earlier [show], [init_ui] with the status bar disabled returns
    with the attribute [statustext] still referring to the old widget; the
    new tree consists of new objects only, so [set_statustext] then writes
    into a widget that is not part of the tree just built. *)
Theorem init_ui_keeps_disabled_panels (st : State) (r t : ref)
    (v p d : string) (dis : bool) (l sty : Layout) (text : string) :
  renderer3 st = Some r → wf_sidebar (config st) →
  Config.show_statusbar (Config.ui (config st)) = false →
  statustext st = Some t → heap st !! t = Some (Text v p d dis l sty) →
  ∃ st' u lay kids,
    init_ui st = (Ok tt, st') ∧
    statustext st' = Some t ∧ statusbar st' = statusbar st ∧
    (Config.show_toolbar (Config.ui (config st)) = false →
     toolbar st' = toolbar st) ∧
    ui st' = Some u ∧ heap st' !! u = Some (VBox lay kids) ∧
    (t < length (heap st))%nat ∧
    Forall (λ k, (length (heap st) < k)%nat) kids ∧
    set_statustext text st' =
      (Ok tt, with_heap (<[t := Text text p d dis l sty]> (heap st')) st').
Proof.
  intros Hr Hwf Hs Ht Hlk.
  assert (t < length (heap st))%nat as Hlt by by eapply lookup_lt_Some.
  eexists (init_ui_state st r), _, _, _.
  split; [by apply init_ui_eq|].
  split; [simpl; by rewrite Hs|].
  split; [simpl; by rewrite Hs|].
  split; [intros Htb; simpl; by rewrite Htb|].
  split; [reflexivity|].
  split; [apply ui_objs_root|].
  split; [done|].
  split.
  { unfold ui_children. rewrite Hs, app_nil_r.
    pose proof (ui_main_base_ge (length (heap st)) (config st)).
    apply Forall_app. split.
    - destruct (Config.show_toolbar _); [|done].
      apply Forall_singleton. unfold ui_toolbar_ref. lia.
    - apply Forall_singleton. unfold ui_main_ref, main_ref. lia. }
  apply (set_statustext_Some text _ t v).
  - simpl. by rewrite Hs.
  - simpl. by rewrite lookup_app_l.
Qed.

Lemma init_ui_keeps_disabled_panels_witness :
  renderer3 ex_panels_disabled = Some 5%nat ∧
  wf_sidebar (config ex_panels_disabled) ∧
  Config.show_statusbar (Config.ui (config ex_panels_disabled)) = false ∧
  statustext ex_panels_disabled = Some 18%nat ∧
  heap ex_panels_disabled !! 18%nat =
    Some (Text "" "..." "" true
            [("width", "100%"); ("height", "32px");
             ("padding", "0px 0px 0px 0px"); ("margin", "0px 0px 0px 0px")]
            [("background", "#eeeeee")]) ∧
  ∃ st' u lay kids,
    init_ui ex_panels_disabled = (Ok tt, st') ∧
    statustext st' = Some 18%nat ∧
    statusbar st' = statusbar ex_panels_disabled ∧
    (Config.show_toolbar (Config.ui (config ex_panels_disabled)) = false →
     toolbar st' = toolbar ex_panels_disabled) ∧
    ui st' = Some u ∧ heap st' !! u = Some (VBox lay kids) ∧
    (18 < length (heap ex_panels_disabled))%nat ∧
    Forall (λ k, (length (heap ex_panels_disabled) < k)%nat) kids ∧
    set_statustext "hello" st' =
      (Ok tt,
       with_heap
         (<[18%nat :=
              Text "hello" "..." "" true
                [("width", "100%"); ("height", "32px");
                 ("padding", "0px 0px 0px 0px");
                 ("margin", "0px 0px 0px 0px")]
                [("background", "#eeeeee")]]> (heap st')) st').
Proof.
  assert (renderer3 ex_panels_disabled = Some 5%nat) as H1
    by (vm_compute; reflexivity).
  assert (wf_sidebar (config ex_panels_disabled)) as H2
    by (intros [=]).
  assert (Config.show_statusbar (Config.ui (config ex_panels_disabled))
          = false) as H3 by reflexivity.
  assert (statustext ex_panels_disabled = Some 18%nat) as H4
    by (vm_compute; reflexivity).
  assert (heap ex_panels_disabled !! 18%nat =
          Some (Text "" "..." "" true
                  [("width", "100%"); ("height", "32px");
                   ("padding", "0px 0px 0px 0px");
                   ("margin", "0px 0px 0px 0px")]
                  [("background", "#eeeeee")])) as H5
    by (vm_compute; reflexivity).
  split; [exact H1|]. split; [exact H2|]. split; [exact H3|].
  split; [exact H4|]. split; [exact H5|].
  exact (init_ui_keeps_disabled_panels ex_panels_disabled 5%nat 18%nat
           _ _ _ _ _ _ "hello" H1 H2 H3 H4 H5).
Defined.

(** ** What the renderer shows *)

Lemma show_state_ui_objs (Scene_draw : Scene → Scene) st kind :
  ∃ h,
    length h = length (heap (init_webgl_state st kind)) ∧
    heap (show_state Scene_draw st kind) =
      h ++ ui_objs (length h) (config st)
             (camera_ref (length (heap st)) (Config.view (config st)) + 2)%nat.
Proof.
  exists (heap st ++
          webgl_objs (length (heap st)) (Config.view (config st)) kind
            (handles (Scene_draw (scene st)))).
  split.
  - simpl. by rewrite !length_app.
  - rewrite show_state_heap. unfold show_objs.
    by rewrite <- app_assoc, length_app.
Qed.

(** X13: the objects that [show] builds are wired to each other.  The
    renderer is built from the viewer's scene graph, camera and orbit
    controls (the objects that the attributes [scene3], [camera3] and
    [controls3] refer to) with the configured width and height; the controls
    control that camera; and the 3D view of the main row holds that renderer
    as its only child.  So what [update] later does to the children of
    [scene3] is done to the scene graph that the displayed renderer
    renders. *)
Theorem show_wires_renderer (Scene_draw : Scene → Scene) (st : State)
    (kind : projection) :
  wf_config (config st) →
  viewport_kind (Config.viewport (Config.view (config st))) = Some kind →
  ∃ st' s c k r m v,
    show Scene_draw st = (Ok tt, st') ∧
    scene3 st' = Some s ∧ camera3 st' = Some c ∧ controls3 st' = Some k ∧
    renderer3 st' = Some r ∧ main st' = Some m ∧
    heap st' !! r =
      Some (Renderer s c [k] (Config.width (Config.view (config st)))
              (Config.height (Config.view (config st))) true) ∧
    (∃ bg kids, heap st' !! s = Some (Scene3 bg kids)) ∧
    (∃ rot mx mn, heap st' !! k = Some (OrbitControls c rot mx mn)) ∧
    (∃ l side, heap st' !! m = Some (HBox l (side ++ [v]))) ∧
    (∃ l, heap st' !! v = Some (Box l [r])).
Proof.
  intros Hwf Hk.
  set (b := length (heap st)). set (view := Config.view (config st)).
  destruct (show_state_ui_objs Scene_draw st kind) as (h & Hlen & Hheap).
  exists (show_state Scene_draw st kind), b, (camera_ref b view),
    (camera_ref b view + 1)%nat, (camera_ref b view + 2)%nat,
    (ui_main_ref (length h) (config st)),
    (ui_main_base (length h) (config st) +
     length (main_sidebar (ui_main_base (length h) (config st)) (config st)))%nat.
  assert (∀ k, (k < length (main_sidebar (ui_main_base (length h) (config st))
                              (config st)) + 2)%nat →
               heap (show_state Scene_draw st kind)
                 !! (ui_main_base (length h) (config st) + k)%nat =
               main_objs (ui_main_base (length h) (config st)) (config st)
                 (camera_ref b view + 2)%nat !! k) as Hmain.
  { intros j Hj. rewrite Hheap. apply ui_objs_main.
    by rewrite main_objs_length. }
  split; [by apply show_eq|].
  split; [done|]. split; [done|]. split; [done|]. split; [done|].
  split; [simpl; by rewrite Hlen|].
  split.
  { unfold b, view. rewrite show_state_webgl by lia.
    unfold webgl_objs. by rewrite drop_app_length. }
  split; [eexists _, _; apply show_state_scene_graph|].
  split.
  { destruct (show_state_camera Scene_draw st kind) as [_ H].
    unfold b, view. destruct kind; do 3 eexists; exact H. }
  split.
  { unfold ui_main_ref, main_ref. rewrite <- Nat.add_assoc.
    eexists _, _. rewrite Hmain by lia. by rewrite main_objs_main. }
  eexists. rewrite Hmain by lia. by rewrite main_objs_view3d.
Qed.

Lemma show_wires_renderer_witness :
  wf_config (config (ex_viewer "top")) ∧
  viewport_kind (Config.viewport (Config.view (config (ex_viewer "top"))))
    = Some Top ∧
  ∃ st' s c k r m v,
    show ex_draw (ex_viewer "top") = (Ok tt, st') ∧
    scene3 st' = Some s ∧ camera3 st' = Some c ∧ controls3 st' = Some k ∧
    renderer3 st' = Some r ∧ main st' = Some m ∧
    heap st' !! r =
      Some (Renderer s c [k]
              (Config.width (Config.view (config (ex_viewer "top"))))
              (Config.height (Config.view (config (ex_viewer "top")))) true) ∧
    (∃ bg kids, heap st' !! s = Some (Scene3 bg kids)) ∧
    (∃ rot mx mn, heap st' !! k = Some (OrbitControls c rot mx mn)) ∧
    (∃ l side, heap st' !! m = Some (HBox l (side ++ [v]))) ∧
    (∃ l, heap st' !! v = Some (Box l [r])).
Proof.
  assert (viewport_kind
            (Config.viewport (Config.view (config (ex_viewer "top"))))
          = Some Top) as H2 by reflexivity.
  split; [exact (ex_wf_config "top")|]. split; [exact H2|].
  exact (show_wires_renderer ex_draw (ex_viewer "top") Top
           (ex_wf_config "top") H2).
Defined.

(** ** The widget tree without a renderer *)

Lemma make_view3d_None st :
  renderer3 st = None →
  make_view3d st =
    (Raise AttributeError,
     with_heap
       (heap st ++
        [Box [("width", "auto");
              ("height", px (Config.height (Config.view (config st)) + 4))]
             []]) st).
Proof.
  destruct st as [cfg sc ctl tb mn sb stx s3 g3 a3 c3 ct3 r3 u h d cl].
  simpl. intros ->.
  unfold make_view3d. widget_ops. repeat step. reflexivity.
Qed.

Lemma make_main_None st :
  renderer3 st = None → wf_sidebar (config st) →
  make_main st =
    (Raise AttributeError,
     with_heap
       (heap st ++ main_sidebar (length (heap st)) (config st) ++
        [Box [("width", "auto");
              ("height", px (Config.height (Config.view (config st)) + 4))]
             []]) st).
Proof.
  destruct st as [cfg sc ctl tb mn sb stx s3 g3 a3 c3 ct3 r3 u h d cl].
  unfold wf_sidebar. simpl. intros -> Hwf.
  unfold make_main, main_sidebar.
  rewrite bind_gets. simpl.
  destruct (Config.show (Config.sidebar (Config.ui cfg))).
  - rewrite bind_assoc.
    erewrite bind_eq; last by apply make_sidebar_eq, Hwf.
    simpl. step.
    erewrite bind_Raise; last by apply make_view3d_None.
    simpl. by rewrite <- app_assoc.
  - step.
    erewrite bind_Raise; last by apply make_view3d_None.
    done.
Qed.

(** X15: [init_ui] needs the renderer that [init_webgl] creates.  On a
    viewer without one (the constructor does not create it), [init_ui]
    raises [AttributeError] when it builds the 3D view, and leaves a partly
    built tree behind: the attribute [ui] already refers to a new root
    container without children, the toolbar (if enabled) has been built
    and assigned, the main row and the status bar have not; no object that
    existed before is touched. *)
Theorem init_ui_without_renderer (st : State) :
  renderer3 st = None → wf_sidebar (config st) →
  ∃ st' l,
    init_ui st = (Raise AttributeError, st') ∧
    ui st' = Some (length (heap st)) ∧
    heap st' !! length (heap st) = Some (VBox l []) ∧
    toolbar st' =
      (if Config.show_toolbar (Config.ui (config st))
       then Some (length (heap st) + 5)%nat else toolbar st) ∧
    main st' = main st ∧ statusbar st' = statusbar st ∧
    statustext st' = statustext st ∧ renderer3 st' = None ∧
    displayed st' = displayed st ∧
    take (length (heap st)) (heap st') = heap st.
Proof.
  destruct st as [cfg sc ctl tb mn sb stx s3 g3 a3 c3 ct3 r3 u h d cl].
  unfold wf_sidebar. simpl. intros -> Hwf.
  unfold init_ui. widget_ops. repeat step.
  destruct (Config.show_toolbar (Config.ui cfg)).
  - rewrite bind_assoc.
    erewrite bind_eq; last by apply make_toolbar_eq.
    simpl. do 3 step.
    erewrite bind_Raise; last by apply make_main_None.
    eexists _, _. split; [reflexivity|]. simpl. rewrite <- !app_assoc.
    split; [done|].
    split; [by rewrite heap_lookup_new0|].
    split; [f_equal; lia|].
    rewrite take_app_length. done.
  - step.
    erewrite bind_Raise; last by apply make_main_None.
    eexists _, _. split; [reflexivity|]. simpl. rewrite <- !app_assoc.
    split; [done|].
    split; [by rewrite heap_lookup_new0|].
    rewrite take_app_length. done.
Qed.

Lemma init_ui_without_renderer_witness :
  renderer3 (ex_viewer "top") = None ∧ wf_sidebar (config (ex_viewer "top")) ∧
  ∃ st' l,
    init_ui (ex_viewer "top") = (Raise AttributeError, st') ∧
    ui st' = Some (length (heap (ex_viewer "top"))) ∧
    heap st' !! length (heap (ex_viewer "top")) = Some (VBox l []) ∧
    toolbar st' =
      (if Config.show_toolbar (Config.ui (config (ex_viewer "top")))
       then Some (length (heap (ex_viewer "top")) + 5)%nat
       else toolbar (ex_viewer "top")) ∧
    main st' = main (ex_viewer "top") ∧
    statusbar st' = statusbar (ex_viewer "top") ∧
    statustext st' = statustext (ex_viewer "top") ∧
    renderer3 st' = None ∧
    displayed st' = displayed (ex_viewer "top") ∧
    take (length (heap (ex_viewer "top"))) (heap st') =
      heap (ex_viewer "top").
Proof.
  assert (renderer3 (ex_viewer "top") = None) as H1 by reflexivity.
  split; [exact H1|]. split; [exact (ex_wf_sidebar "top")|].
  exact (init_ui_without_renderer (ex_viewer "top") H1 (ex_wf_sidebar "top")).
Defined.

(** ** The sidebar *)

Lemma checkboxes_filter cell items :
  Forall wf_item items →
  Forall2 (λ o it, ∃ v t, Config.value it = Some v ∧ Config.text it = Some t ∧
                          o = Checkbox v t item_layout [action_closure cell])
    (checkboxes cell items)
    (filter (λ it, is_checkbox it = true) items).
Proof.
  induction 1 as [|it items [_ Hit] _ IH]; [constructor|].
  rewrite checkboxes_cons, filter_cons. unfold checkbox_of.
  destruct (is_checkbox it) eqn:Hc.
  - destruct Hit as [[v Hv] [t Ht]]; [done|]. rewrite Hv, Ht.
    rewrite decide_True by done. simpl. constructor; eauto.
  - rewrite decide_False by done. exact IH.
Qed.

(** X7: the children of the sidebar are the checkboxes of the items of
    type "checkbox", in the order of the items, each with the value and the
    text of its item; an item of any other type is skipped without a widget
    and without an error.  Every checkbox observes its value through a
    closure over the same cell, which holds the last item of the list. *)
Theorem sidebar_children_are_checkboxes (st : State) :
  Forall wf_item (Config.items (Config.sidebar (Config.ui (config st)))) →
  ∃ sb st' cell l kids,
    make_sidebar st = (Ok sb, st') ∧
    heap st' !! sb = Some (GridBox l kids) ∧
    Forall2
      (λ k it, ∃ v t,
         Config.value it = Some v ∧ Config.text it = Some t ∧
         heap st' !! k =
           Some (Checkbox v t item_layout [action_closure cell]))
      kids
      (filter (λ it, is_checkbox it = true)
         (Config.items (Config.sidebar (Config.ui (config st))))) ∧
    heap st' !! cell =
      Some (Cell (last (Config.items (Config.sidebar (Config.ui (config st)))))) ∧
    take (length (heap st)) (heap st') = heap st.
Proof.
  intros Hwf.
  set (items := Config.items (Config.sidebar (Config.ui (config st)))) in *.
  pose proof (checkboxes_filter (length (heap st)) items Hwf) as Hcb.
  eexists _, _, (length (heap st)), _, _.
  split; [by apply make_sidebar_eq|].
  split.
  { simpl. unfold sidebar_objs. by rewrite heap_lookup_new. }
  split.
  { apply Forall2_same_length_lookup. split.
    - rewrite length_seq. by eapply Forall2_length.
    - intros i k it Hk Hit.
      apply lookup_seq in Hk as [-> Hi].
      destruct (lookup_lt_is_Some_2 (checkboxes (length (heap st)) items) i Hi) as [o Ho].
      destruct (Forall2_lookup_lr _ _ _ _ _ _ Hcb Ho Hit)
        as (v & t & Hv & Ht & ->).
      exists v, t. split; [done|]. split; [done|].
      simpl. unfold sidebar_objs. fold items.
      replace (length (heap st) + 2 + i)%nat with (length (heap st) + S (S i))%nat by lia.
      by rewrite heap_lookup_new. }
  split.
  { simpl. unfold sidebar_objs. by rewrite heap_lookup_new0. }
  simpl. by rewrite take_app_length.
Qed.

Lemma sidebar_children_are_checkboxes_witness :
  Forall wf_item
    (Config.items (Config.sidebar (Config.ui (config (ex_viewer "top"))))) ∧
  ∃ sb st' cell l kids,
    make_sidebar (ex_viewer "top") = (Ok sb, st') ∧
    heap st' !! sb = Some (GridBox l kids) ∧
    Forall2
      (λ k it, ∃ v t,
         Config.value it = Some v ∧ Config.text it = Some t ∧
         heap st' !! k =
           Some (Checkbox v t item_layout [action_closure cell]))
      kids
      (filter (λ it, is_checkbox it = true)
         (Config.items
            (Config.sidebar (Config.ui (config (ex_viewer "top")))))) ∧
    heap st' !! cell =
      Some (Cell (last (Config.items
                          (Config.sidebar
                             (Config.ui (config (ex_viewer "top"))))))) ∧
    take (length (heap (ex_viewer "top"))) (heap st') =
      heap (ex_viewer "top").
Proof.
  split; [exact ex_items_wf|].
  exact (sidebar_children_are_checkboxes (ex_viewer "top") ex_items_wf).
Defined.

(** X8: every checkbox of the sidebar dispatches to the last item.
    When the value of any checkbox that [make_sidebar] has built changes,
    the controller method that is called is the one that the last item of
    the configured list names as its action (whatever the type of that
    item), with the change notification as argument: the closure reads the
    loop variable when it is called.  A checkbox calls the method of its own
    item only if that item is the last one, or names the same action. *)
Theorem checkbox_late_binding (st : State) (it_last : Config.Item)
    (name : string) :
  Forall wf_item (Config.items (Config.sidebar (Config.ui (config st)))) →
  last (Config.items (Config.sidebar (Config.ui (config st)))) = Some it_last →
  Config.action it_last = Some name →
  name ∈ methods (controller st) →
  ∃ sb st' l kids,
    make_sidebar st = (Ok sb, st') ∧
    heap st' !! sb = Some (GridBox l kids) ∧
    length kids =
      length (filter (λ it, is_checkbox it = true)
                (Config.items (Config.sidebar (Config.ui (config st))))) ∧
    ∀ k, k ∈ kids →
      ∃ v d lay obs,
        heap st' !! k = Some (Checkbox v d lay obs) ∧
        Checkbox_change k (negb v) st' =
          (Ok tt,
           with_calls
             (calls st ++
              [(name, Some {| change_name := "value"; change_old := v;
                              change_new := negb v; change_owner := k;
                              change_type := "change" |})])
             (with_heap (<[k := Checkbox (negb v) d lay obs]> (heap st'))
                st')).
Proof.
  intros Hwf Hlast Hact Hin.
  set (items := Config.items (Config.sidebar (Config.ui (config st)))) in *.
  eexists _, _, _, _.
  split; [by apply make_sidebar_eq|].
  split.
  { simpl. unfold sidebar_objs. by rewrite heap_lookup_new. }
  split.
  { rewrite length_seq. fold items.
    eapply Forall2_length, checkboxes_filter, Hwf. }
  intros k Hk. fold items in Hk.
  apply elem_of_seq in Hk as [Hk1 Hk2].
  destruct (lookup_lt_is_Some_2 (checkboxes (length (heap st)) items) (k - (length (heap st) + 2))%nat)
    as [o Ho]; [lia|].
  pose proof (checkboxes_share_cell (length (heap st)) items) as Hshare.
  rewrite Forall_lookup in Hshare.
  destruct (Hshare _ _ Ho) as (v & t & ->).
  assert (heap (with_heap (heap st ++ sidebar_objs (length (heap st))
                 (Config.height (Config.view (config st))) items) st) !! k =
          Some (Checkbox v t item_layout [action_closure (length (heap st))])) as Hlk.
  { simpl. unfold sidebar_objs.
    replace k with (length (heap st) + S (S (k - (length (heap st) + 2))))%nat at 1 by lia.
    by rewrite heap_lookup_new. }
  exists v, t, item_layout, [action_closure (length (heap st))].
  split; [exact Hlk|].
  rewrite (Checkbox_change_eq _ k (length (heap st)) v (negb v) t
             item_layout it_last name).
  - reflexivity.
  - exact Hlk.
  - simpl. unfold sidebar_objs. rewrite heap_lookup_new0. simpl.
    fold items. by rewrite Hlast.
  - exact Hact.
  - exact Hin.
  - by destruct v.
Qed.

Lemma checkbox_late_binding_witness :
  Forall wf_item
    (Config.items (Config.sidebar (Config.ui (config (ex_viewer "top"))))) ∧
  last (Config.items (Config.sidebar (Config.ui (config (ex_viewer "top")))))
    = Some ex_axes_item ∧
  Config.action ex_axes_item = Some "toggle_axes" ∧
  "toggle_axes" ∈ methods (controller (ex_viewer "top")) ∧
  ∃ sb st' l kids,
    make_sidebar (ex_viewer "top") = (Ok sb, st') ∧
    heap st' !! sb = Some (GridBox l kids) ∧
    length kids =
      length (filter (λ it, is_checkbox it = true)
                (Config.items
                   (Config.sidebar (Config.ui (config (ex_viewer "top")))))) ∧
    ∀ k, k ∈ kids →
      ∃ v d lay obs,
        heap st' !! k = Some (Checkbox v d lay obs) ∧
        Checkbox_change k (negb v) st' =
          (Ok tt,
           with_calls
             (calls (ex_viewer "top") ++
              [("toggle_axes",
                Some {| change_name := "value"; change_old := v;
                        change_new := negb v; change_owner := k;
                        change_type := "change" |})])
             (with_heap (<[k := Checkbox (negb v) d lay obs]> (heap st'))
                st')).
Proof.
  assert (last (Config.items
                  (Config.sidebar (Config.ui (config (ex_viewer "top")))))
          = Some ex_axes_item) as H2 by reflexivity.
  assert (Config.action ex_axes_item = Some "toggle_axes") as H3
    by reflexivity.
  assert ("toggle_axes" ∈ methods (controller (ex_viewer "top"))) as H4
    by (refine (bool_decide_unpack _ _); vm_compute; exact I).
  split; [exact ex_items_wf|]. split; [exact H2|]. split; [exact H3|].
  split; [exact H4|].
  exact (checkbox_late_binding (ex_viewer "top") ex_axes_item "toggle_axes"
           ex_items_wf H2 H3 H4).
Defined.

(** ** A sidebar item that cannot be read *)

Lemma first_unreadable items :
  ¬ Forall wf_item items →
  ∃ pre it post,
    items = pre ++ it :: post ∧ Forall wf_item pre ∧ ¬ wf_item it.
Proof.
  induction items as [|x items IH]; intros H.
  - destruct H. constructor.
  - destruct (decide (wf_item x)) as [Hx|Hx].
    + destruct IH as (pre & it & post & -> & Hpre & Hit).
      { intros Hall. apply H. by constructor. }
      exists (x :: pre), it, post. split; [done|]. split; [|done].
      by constructor.
    + exists [], x, items. split; [done|]. split; [constructor|done].
Qed.

Lemma subscript_KeyError {A} cell (key : Config.Item → option A) st it :
  heap st !! cell = Some (Cell (Some it)) → key it = None →
  subscript cell key st = (Raise KeyError, st).
Proof.
  intros H Hk. unfold subscript. rewrite (bind_deref _ _ _ _ H). by rewrite Hk.
Qed.

Lemma sidebar_body_KeyError it st h0 c L cbs children :
  ¬ wf_item it →
  heap st = h0 ++ [Cell c; GridBox L []] ++ cbs →
  sidebar_body (length h0) it children st =
    (Raise KeyError,
     with_heap (h0 ++ [Cell (Some it); GridBox L []] ++ cbs) st).
Proof.
  intros Hbad Hh.
  destruct st as [cfg sc ctl tb mn sb stx s3 g3 a3 c3 ct3 r3 u h d cl].
  simpl in Hh. subst h. unfold sidebar_body.
  unfold store. rewrite bind_modify. simpl.
  rewrite heap_insert_new0. simpl.
  unfold wf_item, is_checkbox in Hbad.
  destruct (Config.type it) as [ty|] eqn:Hty.
  - erewrite bind_eq; last first.
    { eapply subscript_eq; [|exact Hty]. simpl.
      by rewrite heap_lookup_new0. }
    destruct (String.eqb ty "checkbox") eqn:Hck.
    + destruct (Config.value it) as [v|] eqn:Hv.
      * erewrite bind_eq; last first.
        { eapply subscript_eq; [|exact Hv]. simpl.
          by rewrite heap_lookup_new0. }
        destruct (Config.text it) as [t|] eqn:Ht.
        { destruct Hbad. split; [eauto|]. intros _. split; eauto. }
        erewrite bind_Raise; last first.
        { eapply subscript_KeyError; [|exact Ht]. simpl.
          by rewrite heap_lookup_new0. }
        done.
      * erewrite bind_Raise; last first.
        { eapply subscript_KeyError; [|exact Hv]. simpl.
          by rewrite heap_lookup_new0. }
        done.
    + destruct Hbad. split; [eauto|]. intros [=].
  - erewrite bind_Raise; last first.
    { eapply subscript_KeyError; [|exact Hty]. simpl.
      by rewrite heap_lookup_new0. }
    done.
Qed.

Lemma sidebar_loop_KeyError pre it post : ∀ st h0 c L cbs,
  Forall wf_item pre → ¬ wf_item it →
  heap st = h0 ++ [Cell c; GridBox L []] ++ cbs →
  for_fold (pre ++ it :: post) (seq (length h0 + 2) (length cbs))
    (sidebar_body (length h0)) st =
  (Raise KeyError,
   with_heap
     (h0 ++ [Cell (Some it); GridBox L []] ++
            cbs ++ checkboxes (length h0) pre) st).
Proof.
  induction pre as [|x pre IH]; intros st h0 c L cbs Hwf Hbad Hh.
  - simpl for_fold.
    erewrite bind_Raise;
      last by apply (sidebar_body_KeyError it st h0 c L cbs).
    unfold checkboxes. simpl. by rewrite app_nil_r.
  - apply Forall_cons in Hwf as [Hx Hwf].
    simpl for_fold.
    erewrite bind_eq; last by apply (sidebar_body_eq x st h0 c L cbs).
    rewrite checkboxes_cons.
    erewrite IH; [|done|done|reflexivity].
    by rewrite <- !app_assoc.
Qed.

Lemma make_sidebar_KeyError st pre it post :
  Config.items (Config.sidebar (Config.ui (config st))) = pre ++ it :: post →
  Forall wf_item pre → ¬ wf_item it →
  make_sidebar st =
    (Raise KeyError,
     with_heap
       (heap st ++
        [Cell (Some it);
         GridBox (sidebar_layout (Config.height (Config.view (config st)))) []]
        ++ checkboxes (length (heap st)) pre) st).
Proof.
  destruct st as [cfg sc ctl tb mn sb stx s3 g3 a3 c3 ct3 r3 u h d cl].
  simpl. intros Hitems Hwf Hbad.
  unfold make_sidebar, set_layout, set_children. do 13 step.
  rewrite Hitems.
  erewrite bind_Raise; last first.
  { apply (sidebar_loop_KeyError _ _ _ _ h None
             (sidebar_layout (Config.height (Config.view cfg))) []);
      [done|done|reflexivity]. }
  done.
Qed.

Lemma make_main_KeyError st pre it post :
  Config.show (Config.sidebar (Config.ui (config st))) = true →
  Config.items (Config.sidebar (Config.ui (config st))) = pre ++ it :: post →
  Forall wf_item pre → ¬ wf_item it →
  make_main st =
    (Raise KeyError,
     with_heap
       (heap st ++
        [Cell (Some it);
         GridBox (sidebar_layout (Config.height (Config.view (config st)))) []]
        ++ checkboxes (length (heap st)) pre) st).
Proof.
  intros Hshow Hitems Hwf Hbad. unfold make_main.
  rewrite bind_gets. simpl. rewrite Hshow. rewrite bind_assoc.
  erewrite bind_Raise; last by eapply make_sidebar_KeyError.
  done.
Qed.

Lemma init_ui_KeyError st pre it post :
  Config.show (Config.sidebar (Config.ui (config st))) = true →
  Config.items (Config.sidebar (Config.ui (config st))) = pre ++ it :: post →
  Forall wf_item pre → ¬ wf_item it →
  ∃ h',
    init_ui st =
      (Raise KeyError,
       with_heap (heap st ++ h')
         (with_toolbar
            (if Config.show_toolbar (Config.ui (config st))
             then Some (length (heap st) + 5)%nat else toolbar st)
            (with_ui (Some (length (heap st))) st))).
Proof.
  destruct st as [cfg sc ctl tb mn sb stx s3 g3 a3 c3 ct3 r3 u h d cl].
  simpl. intros Hshow Hitems Hwf Hbad.
  unfold init_ui. widget_ops. repeat step.
  destruct (Config.show_toolbar (Config.ui cfg)).
  - rewrite bind_assoc.
    erewrite bind_eq; last by apply make_toolbar_eq.
    simpl. do 3 step.
    erewrite bind_Raise; last by eapply make_main_KeyError.
    eexists. simpl. rewrite <- !app_assoc. simpl.
    do 2 f_equal. f_equal. lia.
  - step.
    erewrite bind_Raise; last by eapply make_main_KeyError.
    eexists. simpl. rewrite <- !app_assoc. simpl. reflexivity.
Qed.

(** X6: a sidebar that is shown and has an item that [make_sidebar]
    cannot read (an item without a type, or a checkbox without a value or
    without a text) makes [show] raise [KeyError] while it builds the
    sidebar.  The 3D objects and the renderer exist by then and the
    attribute [ui] refers to a root container, but the main row and the
    status bar are not built, the scene is not drawn and nothing is
    displayed; the objects that existed before are not touched. *)
Theorem show_unreadable_item (Scene_draw : Scene → Scene) (st : State)
    (kind : projection) :
  Config.height (Config.view (config st)) ≠ 0 →
  viewport_kind (Config.viewport (Config.view (config st))) = Some kind →
  ¬ wf_sidebar (config st) →
  ∃ st',
    show Scene_draw st = (Raise KeyError, st') ∧
    displayed st' = displayed st ∧ scene st' = scene st ∧
    main st' = main st ∧ statusbar st' = statusbar st ∧
    statustext st' = statustext st ∧
    is_Some (renderer3 st') ∧ is_Some (ui st') ∧
    take (length (heap st)) (heap st') = heap st.
Proof.
  intros Hh Hk Hbad.
  destruct (Config.show (Config.sidebar (Config.ui (config st)))) eqn:Hshow;
    last first.
  { destruct Hbad. intros Hs. unfold wf_sidebar in *. congruence. }
  destruct (first_unreadable
              (Config.items (Config.sidebar (Config.ui (config st)))))
    as (pre & it & post & Hitems & Hpre & Hit).
  { intros Hall. apply Hbad. by intros _. }
  destruct (init_ui_KeyError (init_webgl_state st kind) pre it post
              Hshow Hitems Hpre Hit) as [h' Hui].
  eexists. split.
  { unfold show.
    erewrite bind_eq; last by apply init_webgl_eq.
    erewrite bind_Raise; last exact Hui. reflexivity. }
  simpl. split; [done|]. split; [done|]. split; [done|]. split; [done|].
  split; [done|]. split; [eauto|]. split; [eauto|].
  rewrite <- !app_assoc. by rewrite take_app_length.
Qed.

Lemma show_unreadable_item_witness :
  Config.height (Config.view (config ex_unreadable_viewer)) ≠ 0 ∧
  viewport_kind
    (Config.viewport (Config.view (config ex_unreadable_viewer)))
    = Some Perspective ∧
  ¬ wf_sidebar (config ex_unreadable_viewer) ∧
  ∃ st',
    show ex_draw ex_unreadable_viewer = (Raise KeyError, st') ∧
    displayed st' = displayed ex_unreadable_viewer ∧
    scene st' = scene ex_unreadable_viewer ∧
    main st' = main ex_unreadable_viewer ∧
    statusbar st' = statusbar ex_unreadable_viewer ∧
    statustext st' = statustext ex_unreadable_viewer ∧
    is_Some (renderer3 st') ∧ is_Some (ui st') ∧
    take (length (heap ex_unreadable_viewer)) (heap st') =
      heap ex_unreadable_viewer.
Proof.
  assert (Config.height (Config.view (config ex_unreadable_viewer)) ≠ 0)
    as H1 by (simpl; lia).
  assert (viewport_kind
            (Config.viewport (Config.view (config ex_unreadable_viewer)))
          = Some Perspective) as H2 by reflexivity.
  assert (¬ wf_sidebar (config ex_unreadable_viewer)) as H3.
  { intros H. specialize (H eq_refl).
    apply Forall_cons in H as [_ H]. apply Forall_cons in H as [[_ H] _].
    destruct (H eq_refl) as [[v Hv] _]. discriminate Hv. }
  split; [exact H1|]. split; [exact H2|]. split; [exact H3|].
  exact (show_unreadable_item ex_draw ex_unreadable_viewer Perspective
           H1 H2 H3).
Defined.


(** ** Camera parameters that Python takes for false *)

(** X16: the camera parameters are read with [or]: a parameter that the
    configuration sets to a value that Python takes for false is replaced
    by the fallback, like one that is not set.  For the perspective
    viewport, a near plane, far plane or field of view configured as 0
    becomes 0.1, 1000 or 50, and a position, up vector or target configured
    as the empty vector becomes [0, -10, 5], [0, 0, 1] or [0, 0, 0]. *)
Theorem camera_falsy_parameters (Scene_draw : Scene → Scene) (st : State) :
  wf_config (config st) →
  Config.viewport (Config.view (config st)) = "perspective" →
  ∃ st' c p u a n f fv v,
    show Scene_draw st = (Ok tt, st') ∧ camera3 st' = Some c ∧
    heap st' !! c = Some (PerspectiveCamera p u a n f fv [("lookAt", v)]) ∧
    (Config.position (Config.camera (Config.view (config st))) = Some [] →
     p = [of_int 0; of_int (-10); of_int 5]) ∧
    (Config.up (Config.camera (Config.view (config st))) = Some [] →
     u = [of_int 0; of_int 0; of_int 1]) ∧
    (Config.target (Config.camera (Config.view (config st))) = Some [] →
     v = [of_int 0; of_int 0; of_int 0]) ∧
    (Config.near (Config.camera (Config.view (config st))) = Some 0%Qc →
     n = lit (1 # 10)) ∧
    (Config.far (Config.camera (Config.view (config st))) = Some 0%Qc →
     f = of_int 1000) ∧
    (Config.fov (Config.camera (Config.view (config st))) = Some 0%Qc →
     fv = of_int 50).
Proof.
  intros Hwf Hv.
  apply viewport_kind_perspective in Hv.
  destruct (show_state_camera Scene_draw st Perspective) as [Hcam _].
  eexists (show_state Scene_draw st Perspective), _, _, _, _, _, _, _, _.
  split; [by apply show_eq|].
  split; [reflexivity|].
  split; [exact Hcam|].
  split_and!; intros ->; done.
Qed.

Lemma camera_falsy_parameters_witness :
  wf_config (config ex_falsy_viewer) ∧
  Config.viewport (Config.view (config ex_falsy_viewer)) = "perspective" ∧
  ∃ st' c p u a n f fv v,
    show ex_draw ex_falsy_viewer = (Ok tt, st') ∧ camera3 st' = Some c ∧
    heap st' !! c = Some (PerspectiveCamera p u a n f fv [("lookAt", v)]) ∧
    (Config.position (Config.camera (Config.view (config ex_falsy_viewer)))
       = Some [] →
     p = [of_int 0; of_int (-10); of_int 5]) ∧
    (Config.up (Config.camera (Config.view (config ex_falsy_viewer)))
       = Some [] →
     u = [of_int 0; of_int 0; of_int 1]) ∧
    (Config.target (Config.camera (Config.view (config ex_falsy_viewer)))
       = Some [] →
     v = [of_int 0; of_int 0; of_int 0]) ∧
    (Config.near (Config.camera (Config.view (config ex_falsy_viewer)))
       = Some 0%Qc →
     n = lit (1 # 10)) ∧
    (Config.far (Config.camera (Config.view (config ex_falsy_viewer)))
       = Some 0%Qc →
     f = of_int 1000) ∧
    (Config.fov (Config.camera (Config.view (config ex_falsy_viewer)))
       = Some 0%Qc →
     fv = of_int 50).
Proof.
  assert (wf_config (config ex_falsy_viewer)) as H1.
  { split; [simpl; lia|]. intros _. exact ex_items_wf. }
  assert (Config.viewport (Config.view (config ex_falsy_viewer))
          = "perspective") as H2 by reflexivity.
  split; [exact H1|]. split; [exact H2|].
  exact (camera_falsy_parameters ex_draw ex_falsy_viewer H1 H2).
Defined.

(** The near plane and the position of the example: 0 and the empty
    vector in the configuration, 0.1 and [0, -10, 5] in the camera. *)
Example camera_falsy_example :
  ∃ u a f fv ex,
    heap (show ex_draw ex_falsy_viewer).2 !! 3%nat =
      Some (PerspectiveCamera [of_int 0; of_int (-10); of_int 5] u a
              (lit (1 # 10)) f fv ex).
Proof. do 5 eexists. vm_compute. reflexivity. Qed.

(** ** The action of a checkbox is looked up when its value changes *)

Lemma Checkbox_change_KeyError st r cell v v' d l it :
  heap st !! r = Some (Checkbox v d l [action_closure cell]) →
  heap st !! cell = Some (Cell (Some it)) →
  Config.action it = None →
  v' ≠ v →
  Checkbox_change r v' st =
    (Raise KeyError,
     with_heap (<[r := Checkbox v' d l [action_closure cell]]> (heap st)) st).
Proof.
  intros Hr Hcell Hact Hne. unfold Checkbox_change.
  rewrite (bind_deref _ _ _ _ Hr).
  rewrite bool_decide_eq_false_2 by done.
  unfold store. rewrite bind_modify. simpl for_each.
  unfold invoke.
  assert (r ≠ cell) as Hrc by (intros ->; congruence).
  rewrite bind_assoc.
  erewrite bind_Raise; [reflexivity|].
  eapply subscript_KeyError; [|exact Hact].
  destruct st. simpl in *. by rewrite list_lookup_insert_ne.
Qed.

Lemma Checkbox_change_AttributeError st r cell v v' d l it name :
  heap st !! r = Some (Checkbox v d l [action_closure cell]) →
  heap st !! cell = Some (Cell (Some it)) →
  Config.action it = Some name →
  name ∉ methods (controller st) →
  v' ≠ v →
  Checkbox_change r v' st =
    (Raise AttributeError,
     with_heap (<[r := Checkbox v' d l [action_closure cell]]> (heap st)) st).
Proof.
  intros Hr Hcell Hact Hin Hne. unfold Checkbox_change.
  rewrite (bind_deref _ _ _ _ Hr).
  rewrite bool_decide_eq_false_2 by done.
  unfold store. rewrite bind_modify. simpl for_each.
  unfold invoke.
  assert (r ≠ cell) as Hrc by (intros ->; congruence).
  rewrite bind_assoc.
  erewrite bind_eq; last first.
  { eapply subscript_eq; [|exact Hact].
    destruct st. simpl in *. by rewrite list_lookup_insert_ne. }
  unfold call_controller. rewrite bind_assoc, bind_gets.
  destruct st. simpl in *.
  rewrite bool_decide_eq_false_2 by done. reflexivity.
Qed.

(** X17: [make_sidebar] reads the type, the value and the text of an
    item, but not its action, and does not look at the controller: a list
    whose last item names no action, or names a method that the controller
    does not have, is built without an error.  The error comes when the
    value of a checkbox changes: [KeyError] if the last item has no action,
    [AttributeError] if the controller does not have the method; no
    controller method is called. *)
Theorem checkbox_action_errors (st : State) (it_last : Config.Item) :
  Forall wf_item (Config.items (Config.sidebar (Config.ui (config st)))) →
  last (Config.items (Config.sidebar (Config.ui (config st)))) = Some it_last →
  (∀ name, Config.action it_last = Some name →
           name ∉ methods (controller st)) →
  ∃ sb st' l kids,
    make_sidebar st = (Ok sb, st') ∧
    heap st' !! sb = Some (GridBox l kids) ∧
    ∀ k, k ∈ kids →
      ∃ v d lay obs,
        heap st' !! k = Some (Checkbox v d lay obs) ∧
        Checkbox_change k (negb v) st' =
          (Raise (match Config.action it_last with
                  | Some _ => AttributeError
                  | None => KeyError
                  end),
           with_heap (<[k := Checkbox (negb v) d lay obs]> (heap st')) st').
Proof.
  intros Hwf Hlast Hact.
  set (items := Config.items (Config.sidebar (Config.ui (config st)))) in *.
  eexists _, _, _, _.
  split; [by apply make_sidebar_eq|].
  split.
  { simpl. unfold sidebar_objs. by rewrite heap_lookup_new. }
  intros k Hk. fold items in Hk.
  apply elem_of_seq in Hk as [Hk1 Hk2].
  destruct (lookup_lt_is_Some_2 (checkboxes (length (heap st)) items)
              (k - (length (heap st) + 2))%nat) as [o Ho]; [lia|].
  pose proof (checkboxes_share_cell (length (heap st)) items) as Hshare.
  rewrite Forall_lookup in Hshare.
  destruct (Hshare _ _ Ho) as (v & t & ->).
  assert (heap (with_heap (heap st ++ sidebar_objs (length (heap st))
                 (Config.height (Config.view (config st))) items) st) !! k =
          Some (Checkbox v t item_layout [action_closure (length (heap st))]))
    as Hlk.
  { simpl. unfold sidebar_objs.
    replace k with (length (heap st) +
                    S (S (k - (length (heap st) + 2))))%nat at 1 by lia.
    by rewrite heap_lookup_new. }
  assert (heap (with_heap (heap st ++ sidebar_objs (length (heap st))
                 (Config.height (Config.view (config st))) items) st)
            !! length (heap st) = Some (Cell (Some it_last))) as Hcell.
  { simpl. unfold sidebar_objs. rewrite heap_lookup_new0. simpl.
    by rewrite Hlast. }
  exists v, t, item_layout, [action_closure (length (heap st))].
  split; [exact Hlk|].
  destruct (Config.action it_last) as [name|] eqn:Ha.
  - rewrite (Checkbox_change_AttributeError _ k (length (heap st)) v (negb v)
               t item_layout it_last name); try done.
    + by apply Hact.
    + by destruct v.
  - rewrite (Checkbox_change_KeyError _ k (length (heap st)) v (negb v)
               t item_layout it_last); try done.
    by destruct v.
Qed.

Lemma ex_label_items_wf :
  Forall wf_item
    (Config.items (Config.sidebar (Config.ui (config ex_label_viewer)))).
Proof.
  repeat constructor; simpl; eauto; try discriminate.
Defined.

Lemma checkbox_action_errors_witness :
  Forall wf_item
    (Config.items (Config.sidebar (Config.ui (config ex_label_viewer)))) ∧
  last (Config.items (Config.sidebar (Config.ui (config ex_label_viewer))))
    = Some ex_label_item ∧
  (∀ name, Config.action ex_label_item = Some name →
           name ∉ methods (controller ex_label_viewer)) ∧
  ∃ sb st' l kids,
    make_sidebar ex_label_viewer = (Ok sb, st') ∧
    heap st' !! sb = Some (GridBox l kids) ∧
    ∀ k, k ∈ kids →
      ∃ v d lay obs,
        heap st' !! k = Some (Checkbox v d lay obs) ∧
        Checkbox_change k (negb v) st' =
          (Raise (match Config.action ex_label_item with
                  | Some _ => AttributeError
                  | None => KeyError
                  end),
           with_heap (<[k := Checkbox (negb v) d lay obs]> (heap st')) st').
Proof.
  assert (last (Config.items
                  (Config.sidebar (Config.ui (config ex_label_viewer))))
          = Some ex_label_item) as H2 by reflexivity.
  assert (∀ name, Config.action ex_label_item = Some name →
                  name ∉ methods (controller ex_label_viewer)) as H3
    by (intros name Hn; discriminate Hn).
  split; [exact ex_label_items_wf|]. split; [exact H2|]. split; [exact H3|].
  exact (checkbox_action_errors ex_label_viewer ex_label_item
           ex_label_items_wf H2 H3).
Defined.

(** In the example, unticking the checkbox "Grid" raises [KeyError]. *)
Example checkbox_action_errors_example :
  (Checkbox_change 2%nat false (make_sidebar ex_label_viewer).2).1 =
    Raise KeyError.
Proof. vm_compute. reflexivity. Qed.


(** ** Is [show] idempotent? *)

(** C5 (as the specification states it, refuted): in the example session
    the second call of [show] returns, but the viewer is not in the state
    that the first call left: its attributes refer to a second set of
    objects, and two widget trees have been displayed. *)
Lemma show_idempotent_counterexample :
  show ex_draw (ex_viewer "perspective") = (Ok tt, ex_shown) ∧
  show ex_draw ex_shown = (Ok tt, ex_shown_twice) ∧
  ui ex_shown = Some 6%nat ∧ ui ex_shown_twice = Some 26%nat ∧
  displayed ex_shown = [6%nat] ∧ displayed ex_shown_twice = [6; 26]%nat ∧
  ¬ show_idempotent_at ex_draw (ex_viewer "perspective").
Proof.
  assert (show ex_draw (ex_viewer "perspective") = (Ok tt, ex_shown)) as H1
    by (vm_compute; reflexivity).
  assert (show ex_draw ex_shown = (Ok tt, ex_shown_twice)) as H2
    by (vm_compute; reflexivity).
  split; [exact H1|]. split; [exact H2|].
  split; [vm_compute; reflexivity|]. split; [vm_compute; reflexivity|].
  split; [vm_compute; reflexivity|]. split; [vm_compute; reflexivity|].
  intros Hid. specialize (Hid _ _ H1 H2).
  apply (f_equal displayed) in Hid. vm_compute in Hid. discriminate Hid.
Qed.

(** C5 (amended): [show] can be called again, but it is not idempotent.
    With a configuration with which [show] returns, a second call returns
    too and leaves a different state: it constructs new objects after the
    existing ones, which it does not touch; the attributes [ui], [scene3]
    and [renderer3] refer to new objects; and one more widget tree is
    displayed.  The configuration is kept.  If a repeated scene draw leaves
    the scene as the first left it, the scene is the same after both calls,
    and the objects of the second call are those of the first with every
    reference moved up by the number of objects that one call
    constructs. *)
Theorem show_not_idempotent (Scene_draw : Scene → Scene) (st : State)
    (kind : projection) :
  wf_config (config st) →
  viewport_kind (Config.viewport (Config.view (config st))) = Some kind →
  ∃ st1 st2,
    show Scene_draw st = (Ok tt, st1) ∧
    show Scene_draw st1 = (Ok tt, st2) ∧
    st2 ≠ st1 ∧
    (length (heap st1) < length (heap st2))%nat ∧
    take (length (heap st1)) (heap st2) = heap st1 ∧
    ui st2 ≠ ui st1 ∧ scene3 st2 ≠ scene3 st1 ∧
    renderer3 st2 ≠ renderer3 st1 ∧
    length (displayed st2) = S (length (displayed st1)) ∧
    config st2 = config st1 ∧
    (Scene_draw (Scene_draw (scene st)) = Scene_draw (scene st) →
     scene st2 = scene st1 ∧
     drop (length (heap st1)) (heap st2) =
       shift_obj (length (heap st))
         (length (heap st1) - length (heap st))%nat <$>
         drop (length (heap st)) (heap st1)).
Proof.
  intros Hwf Hk.
  pose (st1 := show_state Scene_draw st kind).
  pose (s := Scene_draw (scene st)).
  assert (0 < length (show_objs (length (heap st)) (config st) kind s))%nat
    as Hd.
  { unfold show_objs. rewrite length_app, webgl_objs_length. lia. }
  remember (length (show_objs (length (heap st)) (config st) kind s)) as d
    eqn:Hd0.
  assert (heap st1 =
          heap st ++ show_objs (length (heap st)) (config st) kind s) as Hh1
    by apply show_state_heap.
  assert (length (heap st1) = (length (heap st) + d)%nat) as Hlen
    by (by rewrite Hh1, length_app, Hd0).
  assert (heap (show_state Scene_draw st1 kind) =
          heap st1 ++
          show_objs (length (heap st1)) (config st) kind
            (Scene_draw s)) as Hh2 by apply show_state_heap.
  assert (length (heap (show_state Scene_draw st1 kind)) =
          (length (heap st1) + d)%nat) as Hlen2.
  { rewrite Hh2, length_app, Hd0. f_equal. apply show_objs_length. }
  exists st1, (show_state Scene_draw st1 kind).
  split; [by apply show_eq|].
  split; [by apply show_eq|].
  split.
  { intros Heq.
    assert (length (heap (show_state Scene_draw st1 kind)) =
            length (heap st1)) as Hsame by (by rewrite Heq).
    rewrite Hsame in Hlen2. clear - Hlen2 Hd.
    generalize dependent (length (heap st1)). intros n Hn. lia. }
  split.
  { rewrite Hlen2. clear - Hd. generalize (length (heap st1)). intros n. lia. }
  split; [by rewrite Hh2, take_app_length|].
  split.
  { rewrite show_state_ui.
    change (ui st1) with (ui (show_state Scene_draw st kind)).
    rewrite show_state_ui. change (config st1) with (config st).
    rewrite (webgl_objs_length_shift (length (heap st1)) (length (heap st))
               _ _ [] []).
    rewrite Hlen. intros H. apply (inj Some) in H. lia. }
  split.
  { rewrite show_state_scene3, Hlen.
    change (scene3 st1) with (Some (length (heap st))).
    intros H. apply (inj Some) in H. lia. }
  split.
  { change (renderer3 (show_state Scene_draw st1 kind)) with
      (Some (camera_ref (length (heap st1)) (Config.view (config st)) + 2)%nat).
    change (renderer3 st1) with
      (Some (camera_ref (length (heap st)) (Config.view (config st)) + 2)%nat).
    rewrite Hlen. unfold camera_ref.
    intros H. apply (inj Some) in H. lia. }
  split.
  { rewrite show_state_displayed, length_app. simpl. lia. }
  split; [done|].
  intros Hdraw. split; [simpl; by rewrite Hdraw|].
  rewrite Hh2, drop_app_length. fold s in Hdraw. rewrite Hdraw.
  rewrite Hlen. replace (length (heap st) + d - length (heap st))%nat with d
    by lia.
  rewrite Hh1, drop_app_length.
  by rewrite show_objs_shift.
Qed.

Lemma show_not_idempotent_witness :
  wf_config (config (ex_viewer "top")) ∧
  viewport_kind (Config.viewport (Config.view (config (ex_viewer "top"))))
    = Some Top ∧
  ∃ st1 st2,
    show ex_draw (ex_viewer "top") = (Ok tt, st1) ∧
    show ex_draw st1 = (Ok tt, st2) ∧
    st2 ≠ st1 ∧
    (length (heap st1) < length (heap st2))%nat ∧
    take (length (heap st1)) (heap st2) = heap st1 ∧
    ui st2 ≠ ui st1 ∧ scene3 st2 ≠ scene3 st1 ∧
    renderer3 st2 ≠ renderer3 st1 ∧
    length (displayed st2) = S (length (displayed st1)) ∧
    config st2 = config st1 ∧
    (ex_draw (ex_draw (scene (ex_viewer "top"))) =
       ex_draw (scene (ex_viewer "top")) →
     scene st2 = scene st1 ∧
     drop (length (heap st1)) (heap st2) =
       shift_obj (length (heap (ex_viewer "top")))
         (length (heap st1) - length (heap (ex_viewer "top")))%nat <$>
         drop (length (heap (ex_viewer "top"))) (heap st1)).
Proof.
  assert (viewport_kind
            (Config.viewport (Config.view (config (ex_viewer "top"))))
          = Some Top) as H2 by reflexivity.
  split; [exact (ex_wf_config "top")|]. split; [exact H2|].
  exact (show_not_idempotent ex_draw (ex_viewer "top") Top
           (ex_wf_config "top") H2).
Defined.

(** ** A child that occurs twice *)

(** With a scene draw that gives two scene objects the same handle twice,
    the scene graph has a child four times.  [update] visits each of them
    and takes one occurrence out at every visit: it returns, and a second
    call leaves the state of the first. *)
Example update_repeated_child_example :
  scene3_children (update ex_draw_twin ex_shown).2 =
    Some [Own 1%nat; Own 2%nat; Ext 7%nat; Ext 7%nat; Ext 7%nat; Ext 7%nat] ∧
  update ex_draw_twin (update ex_draw_twin ex_shown).2 =
    (Ok tt, (update ex_draw_twin ex_shown).2).
Proof. vm_compute. done. Qed.

(** A click on a button of a viewer whose controller has no method at
    all returns and calls nothing. *)
Example toolbar_click_missing_example :
  Button_click 9%nat ex_bare_shown = (Ok tt, ex_bare_shown).
Proof. vm_compute. reflexivity. Qed.
